(** * Phishing detector: a shallow embedding of the decision pipeline

    The development follows [src/phishdetect.py] (class [PhishingDetector])
    and [src/phishdetect_fixed.py] (class [URLFeatureExtractor] and
    [predict_phishing]).

    Conventions of the embedding:
    - a Python [str] is a [string]; URLs are taken to be ASCII, so
      [str.lower] only moves [A-Z], the digits are [0-9] and [len] counts
      characters. A statement that would not carry over to other strings
      says so: it takes the ASCII host name, or the length kept by
      lower-casing, as a hypothesis;
    - a Python [dict] with string keys is a [gmap string value];
    - an exception is an explicit [exn] value carried by the [Py] monad;
    - the dictionary returned by [analyze] and the one returned by
      [predict_phishing] are two records, since their keys differ
      (["threats"] and ["threat_indicators"]);
    - the probability returned by [predict_proba] is a binary64 [float],
      compared and multiplied by the kernel's IEEE 754 operations;
    - the third-party functions [urlparse], [tldextract.extract] and
      [parse_qs], the trained model and the feature schema are parameters
      of the pipeline; reference models of the three functions are given
      in [Module Ref] and are used to run the pipeline on concrete URLs;
    - the printers return the strings they pass to [print], one per call;
      the texts of the source that are not ASCII are kept as the bytes of
      their UTF-8 encoding, and the colours of [colorama] are parameters. *)

From Stdlib Require Import ZArith Floats Ascii String Lia.
From stdpp Require Import base option list gmap strings pretty.

Local Open Scope Z_scope.

(** The decimal literal [0.7] of the source is read, here as in Python, as
    the nearest binary64 number. *)
#[local] Set Warnings "-inexact-float".

(** ** Python string primitives *)

Module PyStr.

(** [c.isdigit()] on ASCII. *)
Definition isdigit (c : ascii) : bool :=
  let n := N_of_ascii c in (48 <=? n)%N && (n <=? 57)%N.

Definition isupper (c : ascii) : bool :=
  let n := N_of_ascii c in (65 <=? n)%N && (n <=? 90)%N.

Definition isalpha (c : ascii) : bool :=
  let n := N_of_ascii c in
  ((65 <=? n)%N && (n <=? 90)%N) || ((97 <=? n)%N && (n <=? 122)%N).

Definition lower_char (c : ascii) : ascii :=
  if isupper c then ascii_of_N (N_of_ascii c + 32) else c.

(** [s.lower()] on an ASCII string: only [A-Z] move, and the length is
    kept. Outside ASCII, [str.lower] can change the length of a string;
    such strings are not represented. *)
Fixpoint lower (s : string) : string :=
  match s with
  | EmptyString => EmptyString
  | String c s' => String (lower_char c) (lower s')
  end.

(** [s.startswith(p)] *)
Fixpoint startswith (p s : string) : bool :=
  match p, s with
  | EmptyString, _ => true
  | String a p', String b s' => if Ascii.eqb a b then startswith p' s' else false
  | String _ _, EmptyString => false
  end.

(** [sub in s] *)
Fixpoint contains (sub s : string) : bool :=
  startswith sub s ||
  match s with
  | EmptyString => false
  | String _ s' => contains sub s'
  end.

(** [s.count(c)] for a one-character [c]. *)
Fixpoint count (c : ascii) (s : string) : Z :=
  match s with
  | EmptyString => 0
  | String a s' => (if Ascii.eqb a c then 1 else 0) + count c s'
  end.

(** [c in s] for a one-character [c]. *)
Fixpoint has_char (c : ascii) (s : string) : bool :=
  match s with
  | EmptyString => false
  | String a s' => Ascii.eqb a c || has_char c s'
  end.

(** [len(s)] *)
Definition len (s : string) : Z := Z.of_nat (String.length s).

(** [sum(c.isdigit() for c in s)] *)
Fixpoint count_digits (s : string) : Z :=
  match s with
  | EmptyString => 0
  | String a s' => (if isdigit a then 1 else 0) + count_digits s'
  end.

(** [s in l] for a list of strings. *)
Definition in_list (s : string) (l : list string) : bool :=
  existsb (String.eqb s) l.

(** [s[n:]] *)
Fixpoint drop (n : nat) (s : string) : string :=
  match n, s with
  | O, _ => s
  | S n', String _ s' => drop n' s'
  | S _, EmptyString => EmptyString
  end.

(** [s.partition(c)] for a one-character [c]: the part before the first
    [c], whether [c] was found, and the part after it. *)
Fixpoint partition (c : ascii) (s : string) : string * bool * string :=
  match s with
  | EmptyString => (EmptyString, false, EmptyString)
  | String a s' =>
      if Ascii.eqb a c then (EmptyString, true, s')
      else let '(h, f, t) := partition c s' in (String a h, f, t)
  end.

(** [s.split(c)] for a one-character [c]. *)
Fixpoint split (c : ascii) (s : string) : list string :=
  match s with
  | EmptyString => [EmptyString]
  | String a s' =>
      if Ascii.eqb a c then EmptyString :: split c s'
      else match split c s' with
           | [] => [String a EmptyString]
           | w :: ws => String a w :: ws
           end
  end.

(** [c.join(l)] *)
Fixpoint join (c : string) (l : list string) : string :=
  match l with
  | [] => EmptyString
  | [w] => w
  | w :: ws => w +:+ c +:+ join c ws
  end.

(** [s.rpartition(c)] for a one-character [c]: split at the last [c];
    the whole string is the third component when [c] does not occur. *)
Fixpoint rpartition (c : ascii) (s : string) : string * bool * string :=
  match s with
  | EmptyString => (EmptyString, false, EmptyString)
  | String a s' =>
      let '(h, f, t) := rpartition c s' in
      if f then (String a h, true, t)
      else if Ascii.eqb a c then (EmptyString, true, s')
           else (EmptyString, false, String a t)
  end.

(** [s.lstrip(chars)], the characters given as a predicate. *)
Fixpoint lstrip (p : ascii → bool) (s : string) : string :=
  match s with
  | EmptyString => EmptyString
  | String a s' => if p a then lstrip p s' else s
  end.

(** [s.rstrip(chars)] *)
Definition rstrip (p : ascii → bool) (s : string) : string :=
  String.rev (lstrip p (String.rev s)).

(** [s.replace(c, "")] for the characters selected by [p]. *)
Fixpoint remove (p : ascii → bool) (s : string) : string :=
  match s with
  | EmptyString => EmptyString
  | String a s' => if p a then remove p s' else String a (remove p s')
  end.

(** [all(p(c) for c in s)] *)
Fixpoint all (p : ascii → bool) (s : string) : bool :=
  match s with
  | EmptyString => true
  | String a s' => p a && all p s'
  end.

(** [s.isascii()]: every character is below 128. *)
Definition isascii (s : string) : bool :=
  all (λ c, (N_of_ascii c <? 128)%N) s.

(** [c.isspace()] on ASCII. *)
Definition isspace (c : ascii) : bool :=
  let n := N_of_ascii c in
  ((9 <=? n)%N && (n <=? 13)%N) || ((28 <=? n)%N && (n <=? 32)%N).

End PyStr.


(** ** The two regular expressions of the feature extractor *)

Module PyRe.

(** The character class [[0-9a-f]]. *)
Definition hex_lower (c : ascii) : bool :=
  let n := N_of_ascii c in
  PyStr.isdigit c || ((97 <=? n)%N && (n <=? 102)%N).

(** [run] characters of the class have just been read; is a run of
    [need] of them completed somewhere in [s]? *)
Fixpoint hex_run (need run : nat) (s : string) : bool :=
  match s with
  | EmptyString => false
  | String c s' =>
      if hex_lower c
      then (if Nat.eqb (S run) need then true else hex_run need (S run) s')
      else hex_run need 0 s'
  end.

(** [bool(re.search(r'[0-9a-f]{8}', s))] *)
Definition search_hex8 (s : string) : bool := hex_run 8 0 s.

(** Drops the digits at the head of [s]. *)
Fixpoint skip_digits (s : string) : string :=
  match s with
  | String c s' => if PyStr.isdigit c then skip_digits s' else s
  | EmptyString => EmptyString
  end.

(** [\d+] at the head of [s]: the rest after the longest run of digits,
    [None] when [s] does not start with a digit. *)
Definition digits1 (s : string) : option string :=
  match s with
  | String c s' => if PyStr.isdigit c then Some (skip_digits s') else None
  | EmptyString => None
  end.

(** [\.] at the head of [s]. *)
Definition dot (s : string) : option string :=
  match s with
  | String "."%char s' => Some s'
  | _ => None
  end.

(** [bool(re.match(r'\d+\.\d+\.\d+\.\d+', s))] on an ASCII string: the
    match is anchored at the start only. A run of digits is always
    followed here by a dot or by the end of the pattern, so the greedy
    match never has to back off. In a [str] pattern [\d] also matches the
    decimal digits outside ASCII, which are not represented: what is
    proved of this function is stated for ASCII host names. *)
Definition match_dotted_quad (s : string) : bool :=
  let quad : option string :=
    r ← digits1 s; r ← dot r; r ← digits1 r; r ← dot r;
    r ← digits1 r; r ← dot r; digits1 r in
  match quad with
  | Some _ => true
  | None => false
  end.

End PyRe.

(** ** Data model *)

(** A feature value: a Python [int], or the [float] that [math.log]
    returns on an integer argument, kept in symbolic form. *)
Inductive value :=
| VInt (n : Z)
| VLog (n : Z).

(** [int(b)] *)
Definition int_of_bool (b : bool) : value := VInt (if b then 1 else 0).

(** Truth value of a feature value ([math.log(n)] is [0.0] only at
    [n = 1]). *)
Definition truthy (v : value) : bool :=
  match v with
  | VInt n => negb (n =? 0)
  | VLog n => negb (n =? 1)
  end.

(** [v > 2] ([math.log(n) > 2] from [n = 8] on). *)
Definition gt_two (v : value) : bool :=
  match v with
  | VInt n => 2 <? n
  | VLog n => 8 <=? n
  end.

(** [f"{v}"]. Only integers are ever formatted by the pipeline; the
    symbolic logarithm is printed as such. *)
Definition format (v : value) : string :=
  match v with
  | VInt n => pretty n
  | VLog n => "log(" +:+ pretty n +:+ ")"
  end.

(** [d.update({k1: v1, ...})] *)
Definition update (d : gmap string value) (kvs : list (string * value)) :
  gmap string value :=
  foldl (λ m kv, <[kv.1 := kv.2]> m) d kvs.

(** [{name: 0 for name in names}] *)
Definition zeros (names : list string) : gmap string value :=
  update ∅ (map (λ name, (name, VInt 0)) names).

(** [d.get(k, 0)] *)
Definition get0 (d : gmap string value) (k : string) : value :=
  default (VInt 0) (d !! k).

(** [sum(word in text for word in words)] *)
Definition count_words (words : list string) (text : string) : Z :=
  foldr (λ word n, (if PyStr.contains word text then 1 else 0) + n) 0 words.

(** [urllib.parse.ParseResult] *)
Record ParseResult := {
  scheme : string;
  netloc : string;
  path : string;
  params : string;
  query : string;
  fragment : string
}.

(** [tldextract.ExtractResult] *)
Record ExtractResult := {
  subdomain : string;
  domain : string;
  suffix : string
}.

(** The third-party functions the pipeline calls. [urlparse] returns
    [None] where the library raises [ValueError]; [parse_qs] returns the
    key to values dictionary as a list of its items. *)
Class PyLibs := {
  urlparse : string → option ParseResult;
  tldextract : string → ExtractResult;
  parse_qs : string → list (string * list string)
}.

(** One row of the data frame handed to the classifier: the selected
    columns with their values, in column order. *)
Definition Row : Type := list (string * value).

Inductive Verdict := Legitimate | Phishing.

(** The dictionary [analyze] returns on success. The [confidence] string
    [f"{n}%"] is kept as the number [n]. *)
Record AnalysisResult := {
  result : Verdict;
  confidence : Z;
  threats : list string;
  features : gmap string value
}.

(** An exception caught at the boundary of [analyze]. *)
Inductive exn :=
| KeyError (key : string)
| ValueError
| OverflowError.

(** What [analyze] and [predict_phishing] return: a result dictionary,
    of type [R], or [{"error": str(e)}]. *)
Inductive Outcome (R : Type) :=
| Result (r : R)
| Error (e : exn).

Arguments Result {R} r.
Arguments Error {R} e.

(** ** Effects: exceptions and the calls made to the classifier *)

(** A computation reads the rows scored so far, and returns a value or an
    exception together with the extended list of rows. *)
Definition Py (A : Type) : Type := list Row → (exn + A) * list Row.

Definition ret {A} (a : A) : Py A := λ calls, (inr a, calls).

Definition bind {A B} (m : Py A) (f : A → Py B) : Py B :=
  λ calls,
    match m calls with
    | (inl e, calls') => (inl e, calls')
    | (inr a, calls') => f a calls'
    end.

Definition raise {A} (e : exn) : Py A := λ calls, (inl e, calls).

Notation "'let!' x := m 'in' k" := (bind m (λ x, k))
  (at level 10, x name, m at level 100, k at level 200, only parsing).

(** [d[k]] *)
Definition getitem (d : gmap string value) (k : string) : Py value :=
  match d !! k with
  | Some v => ret v
  | None => raise (KeyError k)
  end.

(** [pd.DataFrame([features])[names]]: the columns [names] of the
    one-row frame, in that order; pandas raises [KeyError] for a column
    that is missing. *)
Fixpoint select_columns (features : gmap string value) (names : list string) :
  Py Row :=
  match names with
  | [] => ret []
  | name :: names' =>
      let! v := getitem features name in
      let! row := select_columns features names' in
      ret ((name, v) :: row)
  end.

(** [model.predict_proba(row)[0][1]] *)
Definition score (model : Row → float) (row : Row) : Py float :=
  λ calls, (inr (model row), calls ++ [row]).

(** [try: ... except Exception as e: return {"error": str(e)}], run from
    an empty list of calls. *)
Definition try_except {R} (m : Py R) : Outcome R * list Row :=
  match m [] with
  | (inl e, calls) => (Error e, calls)
  | (inr r, calls) => (Result r, calls)
  end.


(** [int(x)] on a float: the integer part of [(-1)^s * m * 2^e], cut
    towards zero; [ValueError] on a NaN and [OverflowError] on an
    infinity. *)
Definition int_of_float (x : float) : Py Z :=
  match Prim2SF x with
  | S754_zero _ => ret 0
  | S754_finite s m e =>
      ret (if s then - Z.shiftl (Zpos m) e else Z.shiftl (Zpos m) e)
  | S754_infinity _ => raise OverflowError
  | S754_nan => raise ValueError
  end.

(** The keys of the dictionary that both extractors pass to
    [features.update], in the order written there. *)
Definition computed_names : list string :=
  ["NumDots"; "SubdomainLevel"; "PathLevel"; "UrlLength"; "NumDash";
   "NumDashInHostname"; "AtSymbol"; "TildeSymbol"; "NumUnderscore";
   "NumPercent"; "NumQueryComponents"; "NumAmpersand"; "NumHash";
   "NumNumericChars"; "NoHttps"; "RandomString"; "IpAddress";
   "HttpsInHostname"; "HostnameLength"; "PathLength"; "QueryLength";
   "DoubleSlashInPath"; "SubdomainLevelRT"; "UrlLengthRT";
   "IsOfficialDomain"; "BrandSpoofing"; "NumSensitiveWords"].

(** ** [src/phishdetect.py]: class [PhishingDetector] *)

Module PhishingDetector.

Definition sensitive_words : list string :=
  ["login"; "signin"; "verify"; "account"; "secure";
   "bank"; "payment"; "update"; "confirm"; "password"].

Definition official_domains : list string :=
  ["paypal.com"; "www.paypal.com"; "paypalobjects.com";
   "amazon.com"; "www.amazon.com"; "amazonaws.com";
   "apple.com"; "www.apple.com"; "icloud.com";
   "google.com"; "www.google.com"; "googleapis.com";
   "microsoft.com"; "www.microsoft.com"; "live.com";
   "ebay.com"; "www.ebay.com";
   "netflix.com"; "www.netflix.com";
   "bankofamerica.com"; "www.bankofamerica.com";
   "wellsfargo.com"; "www.wellsfargo.com";
   "chase.com"; "www.chase.com"].

Definition known_brands : list string :=
  ["paypal"; "amazon"; "apple"; "google"; "microsoft";
   "ebay"; "netflix"; "bankofamerica"; "wellsfargo"; "chase"].

Section Detector.

Context `{PyLibs}.
(** [self.model] and [self.feature_names], as loaded by [__init__]. *)
Variable model : Row → float.
Variable feature_names : list string.

(** [self.default_features] *)
Definition default_features : gmap string value := zeros feature_names.

(** [f"{ext.domain}.{ext.suffix}"] *)
Definition registrable (ext : ExtractResult) : string :=
  domain ext +:+ "." +:+ suffix ext.

Definition is_official (hostname : string) : bool :=
  let ext := tldextract (PyStr.lower hostname) in
  let base_domain := registrable ext in
  PyStr.in_list base_domain official_domains
  || PyStr.in_list (PyStr.lower hostname) official_domains.

(** The loop returns [1] at the first brand that passes the test. *)
Definition check_brand_usage (hostname : string) : value :=
  if is_official hostname then VInt 0
  else
    let ext := tldextract (PyStr.lower hostname) in
    let main_domain := registrable ext in
    if existsb (λ brand, PyStr.contains brand (PyStr.lower hostname)
                         && negb (PyStr.contains brand main_domain))
               known_brands
    then VInt 1 else VInt 0.

(** The body of the [try] block of [extract_features] up to the
    dictionary passed to [features.update]; [None] when it raises. *)
Definition computed_features (url : string) : option (list (string * value)) :=
  parsed ← urlparse url;
  let ext := tldextract url in
  let hostname := PyStr.lower (netloc parsed) in
  let path := PyStr.lower (path parsed) in
  let is_official := is_official hostname in
  Some [
    ("NumDots", VInt (PyStr.count "." url));
    ("SubdomainLevel", VInt (PyStr.count "." (subdomain ext) + 1));
    ("PathLevel", VInt (if String.eqb path "" then 0
                        else PyStr.count "/" path - 1));
    ("UrlLength", VInt (PyStr.len url));
    ("NumDash", VInt (PyStr.count "-" url));
    ("NumDashInHostname", VInt (PyStr.count "-" hostname));
    ("AtSymbol", int_of_bool (PyStr.has_char "@" url));
    ("TildeSymbol", int_of_bool (PyStr.has_char "~" url));
    ("NumUnderscore", VInt (PyStr.count "_" url));
    ("NumPercent", VInt (PyStr.count "%" url));
    ("NumQueryComponents", VInt (Z.of_nat (length (parse_qs (query parsed)))));
    ("NumAmpersand", VInt (PyStr.count "&" url));
    ("NumHash", VInt (PyStr.count "#" url));
    ("NumNumericChars", VInt (PyStr.count_digits url));
    ("NoHttps", int_of_bool (negb (String.eqb (scheme parsed) "https")));
    ("RandomString", int_of_bool (PyRe.search_hex8 url));
    ("IpAddress", int_of_bool (PyRe.match_dotted_quad hostname));
    ("HttpsInHostname", int_of_bool (PyStr.contains "https" hostname));
    ("HostnameLength", VInt (PyStr.len hostname));
    ("PathLength", VInt (PyStr.len path));
    ("QueryLength", VInt (PyStr.len (query parsed)));
    ("DoubleSlashInPath", int_of_bool (PyStr.contains "//" path));
    ("SubdomainLevelRT", VLog (Z.max 1 (PyStr.count "." (subdomain ext) + 1)));
    ("UrlLengthRT", VLog (Z.max 1 (PyStr.len url)));
    ("IsOfficialDomain", int_of_bool is_official);
    ("BrandSpoofing",
      if PyStr.in_list "BrandSpoofing" feature_names
      then check_brand_usage hostname else VInt 0);
    ("NumSensitiveWords",
      if is_official then VInt 0
      else VInt (count_words sensitive_words (PyStr.lower url)))
  ].

(** The [except] clause only prints a warning: the defaults are returned
    untouched when the [try] block raised. *)
Definition extract_features (url : string) : gmap string value :=
  let features := default_features in
  match computed_features url with
  | Some kvs => update features kvs
  | None => features
  end.

(** The normalisation at the head of [analyze]. *)
Definition normalize (url : string) : string :=
  if PyStr.startswith "http://" url || PyStr.startswith "https://" url
  then url else "http://" +:+ url.

(** The body of the [try] block of [analyze]. The dictionary returned at
    the end is built last, so [int] is applied after the threats are
    collected. *)
Definition analyze_body (url : string) : Py AnalysisResult :=
  let url := normalize url in
  let features := extract_features url in
  if truthy (get0 features "IsOfficialDomain") then
    ret {| result := Legitimate; confidence := 100;
           threats := []; features := features |}
  else
    let! features_df := select_columns features feature_names in
    let! proba := score model features_df in
    let is_phishing := (0.7 <? proba)%float in
    let threats := [] in
    let! no_https := getitem features "NoHttps" in
    let threats := if truthy no_https then threats ++ ["No HTTPS"]
                   else threats in
    let! threats :=
      (if gt_two (get0 features "NumSensitiveWords") then
         let! n := getitem features "NumSensitiveWords" in
         ret (threats ++ [format n +:+ " sensitive words"])
       else ret threats) in
    let threats := if truthy (get0 features "BrandSpoofing")
                   then threats ++ ["Brand spoofing detected"]
                   else threats in
    let! percent := int_of_float (proba * 100)%float in
    ret {| result := if is_phishing then Phishing else Legitimate;
           confidence := Z.min 99 percent;
           threats := threats;
           features := features |}.

(** [analyze], with the rows it passed to the classifier. *)
Definition analyze (url : string) : Outcome AnalysisResult * list Row :=
  try_except (analyze_body url).

End Detector.

End PhishingDetector.

(** ** [src/phishdetect_fixed.py]: class [URLFeatureExtractor] and
    [predict_phishing] *)

Module URLFeatureExtractor.

Definition sensitive_words : list string :=
  ["login"; "signin"; "verify"; "account"; "secure";
   "bank"; "payment"; "update"; "confirm"; "password"].

Definition official_domains : list string :=
  ["paypal.com"; "www.paypal.com";
   "amazon.com"; "www.amazon.com";
   "apple.com"; "www.apple.com";
   "google.com"; "www.google.com";
   "microsoft.com"; "www.microsoft.com"].

(** The local list of [check_brand_spoofing]. *)
Definition brand_names : list string :=
  ["paypal"; "amazon"; "apple"; "google"; "microsoft"].

(** The dictionary [predict_phishing] returns on success. It is not the
    dictionary of [analyze]: the indicators are stored under
    ["threat_indicators"]. The [confidence] string is kept as a number. *)
Record Prediction := {
  result : Verdict;
  confidence : Z;
  threat_indicators : list string;
  features : gmap string value
}.

Section Extractor.

Context `{PyLibs}.
(** The model loaded by [predict_phishing] and [self.expected_features]. *)
Variable model : Row → float.
Variable expected_features : list string.

Definition is_official_domain (hostname : string) : bool :=
  PyStr.in_list (PyStr.lower hostname) official_domains.

Definition check_brand_spoofing (hostname : string) : value :=
  if is_official_domain hostname then VInt 0
  else
    let ext := tldextract (PyStr.lower hostname) in
    let main_domain := domain ext +:+ "." +:+ suffix ext in
    if existsb (λ brand, PyStr.contains brand (PyStr.lower hostname)
                         && negb (PyStr.contains brand main_domain))
               brand_names
    then VInt 1 else VInt 0.

(** The [try] block of [extract_all_features] up to the dictionary passed
    to [features.update]; [None] when it raises. *)
Definition computed_features (url : string) : option (list (string * value)) :=
  parsed ← urlparse url;
  let ext := tldextract url in
  let hostname := PyStr.lower (netloc parsed) in
  let path := path parsed in
  let query := query parsed in
  let is_official := is_official_domain hostname in
  Some [
    ("NumDots", VInt (PyStr.count "." url));
    ("SubdomainLevel", VInt (PyStr.count "." (subdomain ext) + 1));
    ("PathLevel", VInt (if String.eqb path "" then 0
                        else PyStr.count "/" path - 1));
    ("UrlLength", VInt (PyStr.len url));
    ("NumDash", VInt (PyStr.count "-" url));
    ("NumDashInHostname", VInt (PyStr.count "-" hostname));
    ("AtSymbol", int_of_bool (PyStr.has_char "@" url));
    ("TildeSymbol", int_of_bool (PyStr.has_char "~" url));
    ("NumUnderscore", VInt (PyStr.count "_" url));
    ("NumPercent", VInt (PyStr.count "%" url));
    ("NumQueryComponents", VInt (Z.of_nat (length (parse_qs query))));
    ("NumAmpersand", VInt (PyStr.count "&" url));
    ("NumHash", VInt (PyStr.count "#" url));
    ("NumNumericChars", VInt (PyStr.count_digits url));
    ("NoHttps", int_of_bool (negb (String.eqb (scheme parsed) "https")));
    ("RandomString", int_of_bool (PyRe.search_hex8 url));
    ("IpAddress", int_of_bool (PyRe.match_dotted_quad hostname));
    ("HttpsInHostname", int_of_bool (PyStr.contains "https" hostname));
    ("HostnameLength", VInt (PyStr.len hostname));
    ("PathLength", VInt (PyStr.len path));
    ("QueryLength", VInt (PyStr.len query));
    ("DoubleSlashInPath", int_of_bool (PyStr.contains "//" path));
    ("SubdomainLevelRT", VLog (Z.max 1 (PyStr.count "." (subdomain ext) + 1)));
    ("UrlLengthRT", VLog (Z.max 1 (PyStr.len url)));
    ("IsOfficialDomain", int_of_bool is_official);
    ("BrandSpoofing",
      if is_official then VInt 0 else check_brand_spoofing hostname);
    ("NumSensitiveWords",
      if is_official then VInt 0
      else VInt (count_words sensitive_words (PyStr.lower url)))
  ].

Definition extract_all_features (url : string) : gmap string value :=
  match computed_features url with
  | Some kvs => update (zeros expected_features) kvs
  | None => zeros expected_features
  end.

(** The body of the [try] block of [predict_phishing]. *)
Definition predict_phishing_body (url : string) : Py Prediction :=
  let features := extract_all_features url in
  if truthy (get0 features "IsOfficialDomain") then
    ret {| result := Legitimate; confidence := 100;
           threat_indicators := []; features := features |}
  else
    let! features_df := select_columns features expected_features in
    let! probability := score model features_df in
    let prediction := if (0.7 <? probability)%float then 1 else 0 in
    let threat_indicators := [] in
    let threat_indicators :=
      if truthy (get0 features "NoHttps")
      then threat_indicators ++ ["No HTTPS"] else threat_indicators in
    let! threat_indicators :=
      (if gt_two (get0 features "NumSensitiveWords") then
         let! n := getitem features "NumSensitiveWords" in
         ret (threat_indicators ++ [format n +:+ " sensitive words"])
       else ret threat_indicators) in
    let threat_indicators :=
      if truthy (get0 features "BrandSpoofing")
      then threat_indicators ++ ["Brand spoofing detected"]
      else threat_indicators in
    let! percent := int_of_float (probability * 100)%float in
    ret {| result := if prediction =? 1 then Phishing else Legitimate;
           confidence := Z.min 99 percent;
           threat_indicators := threat_indicators;
           features := features |}.

Definition predict_phishing (url : string) :
  Outcome Prediction * list Row :=
  try_except (predict_phishing_body url).

End Extractor.

End URLFeatureExtractor.

(** ** Console output: [print_results] and [print_result] *)

(** The constants of [colorama] that the printers use. *)
Class Colorama := {
  Fore_RED : string;
  Fore_GREEN : string;
  Fore_YELLOW : string;
  Fore_CYAN : string;
  Fore_WHITE : string;
  Style_RESET_ALL : string
}.

(** The line feed written [\n] in the source. *)
Definition nl : string := String "010" "".

(** The value stored under ["result"]. *)
Definition result_text (v : Verdict) : string :=
  match v with
  | Legitimate => "✅ Legitimate"
  | Phishing => "⚠ PHISHING"
  end.

(** The value stored under ["confidence"]: [f"{n}%"]. *)
Definition confidence_text (n : Z) : string := pretty n +:+ "%".

(** [str(e)]: a [KeyError] prints the [repr] of its key, and [int] words
    its two errors as below. *)
Definition str_exn (e : exn) : string :=
  match e with
  | KeyError key => "'" +:+ key +:+ "'"
  | ValueError => "cannot convert float NaN to integer"
  | OverflowError => "cannot convert float infinity to integer"
  end.

(** The features that both printers show, in the order shown. *)
Definition shown_features : list string :=
  ["UrlLength"; "NoHttps"; "SubdomainLevel"; "NumSensitiveWords";
   "BrandSpoofing"; "IsOfficialDomain"].

Module Console.

Section Printers.

Context {colors : Colorama}.

(** The line both printers write for [{"error": str(e)}]. *)
Definition error_line (e : exn) : string :=
  Fore_RED +:+ "Error: " +:+ str_exn e +:+ Style_RESET_ALL.

(** The colour and the text chosen for a feature by [print_results]. *)
Definition results_style (name : string) (value : value) : string * string :=
  if String.eqb name "NoHttps" then
    (if truthy value then Fore_RED else Fore_GREEN,
     if truthy value then "No" else "Yes")
  else if String.eqb name "BrandSpoofing" then
    (if truthy value then Fore_RED else Fore_GREEN,
     if truthy value then "Yes" else "No")
  else if String.eqb name "IsOfficialDomain" then
    (if truthy value then Fore_GREEN else Fore_WHITE,
     if truthy value then "Yes" else "No")
  else if String.eqb name "NumSensitiveWords" then
    (if gt_two value then Fore_RED else Fore_WHITE, format value)
  else (Fore_WHITE, format value).

(** [print_results] of [phishdetect.py]: the strings passed to [print],
    one per call. *)
Definition print_results (outcome : Outcome AnalysisResult) : list string :=
  match outcome with
  | Error e => [error_line e]
  | Result r =>
      let color :=
        if PyStr.contains "PHISHING" (result_text (result r))
        then Fore_RED else Fore_GREEN in
      [nl +:+ color +:+ result_text (result r) +:+ " (Confidence: "
       +:+ confidence_text (confidence r) +:+ ")" +:+ Style_RESET_ALL]
      ++ match threats r with
         | [] => []
         | _ :: _ =>
             (nl +:+ Fore_YELLOW +:+ "🚨 Threats:" +:+ Style_RESET_ALL)
             :: map (λ threat,
                       "- " +:+ Fore_RED +:+ threat +:+ Style_RESET_ALL)
                    (threats r)
         end
      ++ [nl +:+ Fore_CYAN +:+ "🔍 Features:" +:+ Style_RESET_ALL]
      ++ flat_map
           (λ name,
              match features r !! name with
              | None => []
              | Some value =>
                  let '(color, text) := results_style name value in
                  ["- " +:+ name +:+ ": " +:+ color +:+ text
                   +:+ Style_RESET_ALL]
              end)
           shown_features
  end.

(** The labels of [feature_map]. *)
Definition feature_map : list (string * string) :=
  [("UrlLength", "URL Length"); ("NoHttps", "Uses HTTPS");
   ("SubdomainLevel", "Subdomains");
   ("NumSensitiveWords", "Sensitive Words");
   ("BrandSpoofing", "Brand Spoofing");
   ("IsOfficialDomain", "Official Domain")].

(** The colour and the text chosen for a feature by [print_result]. *)
Definition result_style (feat : string) (value : value) : string * string :=
  if String.eqb feat "NoHttps" then
    (if truthy value then Fore_RED else Fore_GREEN,
     if truthy value then "No" else "Yes")
  else if PyStr.in_list feat ["BrandSpoofing"; "IsOfficialDomain"] then
    (if String.eqb feat "BrandSpoofing" && truthy value then Fore_RED
     else if String.eqb feat "IsOfficialDomain" && truthy value
          then Fore_GREEN else Fore_WHITE,
     if truthy value then "Yes" else "No")
  else if String.eqb feat "NumSensitiveWords" then
    (if gt_two value then Fore_RED else Fore_WHITE, format value)
  else (Fore_WHITE, format value).

(** [print_result] of [phishdetect_fixed.py], on a dictionary returned by
    [predict_phishing]: the indicators are read from
    ["threat_indicators"]. *)
Definition print_result (outcome : Outcome URLFeatureExtractor.Prediction) :
  list string :=
  match outcome with
  | Error e => [error_line e]
  | Result r =>
      let result := URLFeatureExtractor.result r in
      let confidence := URLFeatureExtractor.confidence r in
      [if PyStr.contains "PHISHING" (result_text result)
       then nl +:+ Fore_RED +:+ result_text result +:+ " (Confidence: "
            +:+ confidence_text confidence +:+ ")" +:+ Style_RESET_ALL
       else nl +:+ Fore_GREEN +:+ result_text result +:+ " (Confidence: "
            +:+ confidence_text confidence +:+ ")" +:+ Style_RESET_ALL]
      ++ match URLFeatureExtractor.threat_indicators r with
         | [] => []
         | _ :: _ =>
             (nl +:+ Fore_YELLOW +:+ "🚨 Threat Indicators:"
              +:+ Style_RESET_ALL)
             :: map (λ indicator,
                       "- " +:+ Fore_RED +:+ indicator +:+ Style_RESET_ALL)
                    (URLFeatureExtractor.threat_indicators r)
         end
      ++ [nl +:+ Fore_CYAN +:+ "🔍 Key Features:" +:+ Style_RESET_ALL]
      ++ map
           (λ '(feat, label),
              let value := get0 (URLFeatureExtractor.features r) feat in
              let '(color, display) := result_style feat value in
              "- " +:+ label +:+ ": " +:+ color +:+ display
              +:+ Style_RESET_ALL)
           feature_map
  end.

End Printers.

End Console.

(** ** Reference models of the third-party functions

    These follow the libraries' sources on ASCII input and are what the
    pipeline is run with on concrete URLs:
    - [urlparse] follows [urllib.parse] of CPython 3.11; an address in
      square brackets is not validated beyond the pairing of the brackets;
    - [tldextract] follows [tldextract.extract] over an excerpt of the
      public suffix list made of plain rules; IPv6 literals are not
      recognised;
    - [parse_qs] follows [urllib.parse.parse_qs] with its default
      arguments. *)

Module Ref.

(** *** [urllib.parse] *)

Definition c0_control_or_space (c : ascii) : bool := (N_of_ascii c <=? 32)%N.

(** Tab, line feed and carriage return. *)
Definition unsafe_url_byte (c : ascii) : bool :=
  let n := N_of_ascii c in (n =? 9)%N || (n =? 10)%N || (n =? 13)%N.

Definition scheme_char (c : ascii) : bool :=
  PyStr.isalpha c || PyStr.isdigit c
  || Ascii.eqb c "+" || Ascii.eqb c "-" || Ascii.eqb c ".".

(** The scheme in front of the first colon, lower-cased, and the rest;
    no scheme when the text before the colon is empty, does not start with
    a letter or holds a character that no scheme may hold. *)
Definition split_scheme (url : string) : string * string :=
  let '(head, found, rest) := PyStr.partition ":" url in
  match head with
  | String c _ =>
      if found && PyStr.isalpha c && PyStr.all scheme_char head
      then (PyStr.lower head, rest)
      else (EmptyString, url)
  | EmptyString => (EmptyString, url)
  end.

(** [_splitnetloc(url, 0)]: cut at the first of [/], [?] and [#]. *)
Fixpoint splitnetloc (url : string) : string * string :=
  match url with
  | EmptyString => (EmptyString, EmptyString)
  | String c url' =>
      if Ascii.eqb c "/" || Ascii.eqb c "?" || Ascii.eqb c "#"
      then (EmptyString, url)
      else let '(n, r) := splitnetloc url' in (String c n, r)
  end.

(** The result of [urlsplit] without its name: scheme, netloc, path,
    query and fragment. [None] stands for [ValueError("Invalid IPv6 URL")]. *)
Definition urlsplit (url : string) :
  option (string * string * string * string * string) :=
  let url := PyStr.lstrip c0_control_or_space url in
  let url := PyStr.remove unsafe_url_byte url in
  let '(scheme, url) := split_scheme url in
  let '(netloc, url) :=
    if PyStr.startswith "//" url then splitnetloc (PyStr.drop 2 url)
    else (EmptyString, url) in
  if (PyStr.has_char "[" netloc && negb (PyStr.has_char "]" netloc))
     || (PyStr.has_char "]" netloc && negb (PyStr.has_char "[" netloc))
  then None
  else
    let '(url, _, fragment) := PyStr.partition "#" url in
    let '(url, _, query) := PyStr.partition "?" url in
    Some (scheme, netloc, url, query, fragment).

Definition uses_params : list string :=
  [""; "ftp"; "hdl"; "prospero"; "http"; "imap"; "https"; "shttp"; "rtsp";
   "rtspu"; "sip"; "sips"; "mms"; "sftp"; "tel"].

(** [_splitparams]: the parameters follow the first semicolon of the last
    path segment. *)
Definition splitparams (url : string) : string * string :=
  if PyStr.has_char "/" url then
    let '(before, _, last) := PyStr.rpartition "/" url in
    let '(seg, found, par) := PyStr.partition ";" last in
    if found then (before +:+ "/" +:+ seg, par) else (url, EmptyString)
  else
    let '(seg, _, par) := PyStr.partition ";" url in (seg, par).

Definition urlparse (url : string) : option ParseResult :=
  '(scheme, netloc, url, query, fragment) ← urlsplit url;
  let '(url, params) :=
    if PyStr.in_list scheme uses_params && PyStr.has_char ";" url
    then splitparams url else (url, EmptyString) in
  Some {| scheme := scheme; netloc := netloc; path := url; params := params;
          query := query; fragment := fragment |}.

(** *** [tldextract] *)

(** An excerpt of the public suffix list. *)
Definition public_suffixes : list string :=
  ["com"; "net"; "org"; "info"; "io"; "uk"; "co.uk"; "org.uk"].

(** The text before the first [//] and the text after it. *)
Fixpoint split_double_slash (s : string) : option (string * string) :=
  match s with
  | EmptyString => None
  | String a s' =>
      if Ascii.eqb a "/" && PyStr.startswith "/" s'
      then Some (EmptyString, PyStr.drop 1 s')
      else match split_double_slash s' with
           | Some (b, r) => Some (String a b, r)
           | None => None
           end
  end.

(** [_schemeless_url]: drops [scheme://] or a leading [//]. *)
Definition schemeless_url (url : string) : string :=
  match split_double_slash url with
  | None => url
  | Some (EmptyString, r) => r
  | Some (before, r) =>
      match String.rev before with
      | String ":" (String c sch) =>
          if PyStr.all scheme_char (String c sch) then r else url
      | _ => url
      end
  end.

Definition is_dot (c : ascii) : bool := Ascii.eqb c ".".

Definition lenient_netloc (url : string) : string :=
  let s := schemeless_url url in
  let s := (PyStr.partition "/" s).1.1 in
  let s := (PyStr.partition "?" s).1.1 in
  let s := (PyStr.partition "#" s).1.1 in
  let after_userinfo := (PyStr.rpartition "@" s).2 in
  let '(inside, closed, _) := PyStr.partition "]" after_userinfo in
  if PyStr.startswith "[" after_userinfo && closed then inside +:+ "]"
  else
    let hostname := (PyStr.partition ":" after_userinfo).1.1 in
    let hostname := PyStr.rstrip PyStr.isspace
                      (PyStr.lstrip PyStr.isspace hostname) in
    PyStr.rstrip is_dot hostname.

(** Index of the first label of the longest public suffix that ends
    [labels], counted from [i]; the index after the last label when
    there is none. *)
Fixpoint suffix_index (i : nat) (labels : list string) : nat :=
  match labels with
  | [] => i
  | _ :: labels' =>
      if PyStr.in_list (PyStr.lower (PyStr.join "." labels)) public_suffixes
      then i else suffix_index (S i) labels'
  end.

(** Value of a run of decimal digits. *)
Fixpoint decimal (acc : N) (s : string) : N :=
  match s with
  | EmptyString => acc
  | String c s' => decimal (10 * acc + (N_of_ascii c - 48))%N s'
  end.

(** One field of a dotted quad: one to three digits, at most 255. *)
Definition ipv4_field (s : string) : bool :=
  negb (String.eqb s "") && PyStr.all PyStr.isdigit s
  && (String.length s <=? 3)%nat && (decimal 0 s <=? 255)%N.

Definition looks_like_ip (labels : list string) : bool :=
  forallb ipv4_field labels.

Definition tldextract (url : string) : ExtractResult :=
  let netloc := lenient_netloc url in
  let labels := PyStr.split "." netloc in
  let i := suffix_index 0 labels in
  if Nat.eqb i (length labels) && Nat.eqb i 4 && looks_like_ip labels then
    {| subdomain := ""; domain := netloc; suffix := "" |}
  else
    {| subdomain := if (2 <=? i)%nat
                    then PyStr.join "." (take (i - 1) labels) else "";
       domain := if (1 <=? i)%nat
                 then default "" (labels !! (i - 1)%nat) else "";
       suffix := if Nat.eqb i (length labels) then ""
                 else PyStr.join "." (drop i labels) |}.

(** *** [parse_qs] *)

Definition hex_value (c : ascii) : option N :=
  let n := N_of_ascii c in
  if PyStr.isdigit c then Some (n - 48)%N
  else if (97 <=? n)%N && (n <=? 102)%N then Some (n - 87)%N
  else if (65 <=? n)%N && (n <=? 70)%N then Some (n - 55)%N
  else None.

(** [unquote(s.replace('+', ' '))] *)
Fixpoint unquote_plus (s : string) : string :=
  match s with
  | EmptyString => EmptyString
  | String "%" (String a (String b r) as s') =>
      match hex_value a, hex_value b with
      | Some x, Some y => String (ascii_of_N (16 * x + y)) (unquote_plus r)
      | _, _ => String "%" (unquote_plus s')
      end
  | String c s' =>
      String (if Ascii.eqb c "+" then " "%char else c) (unquote_plus s')
  end.

(** [d.setdefault(k, []).append(v)] on the list of items of [d]. *)
Fixpoint add_value (k v : string) (d : list (string * list string)) :
  list (string * list string) :=
  match d with
  | [] => [(k, [v])]
  | (k', vs) :: d' =>
      if String.eqb k k' then (k', vs ++ [v]) :: d'
      else (k', vs) :: add_value k v d'
  end.

(** A field without [=] or with an empty value is skipped. *)
Definition parse_qs (qs : string) : list (string * list string) :=
  foldl (λ d field,
           let '(name, found, val) := PyStr.partition "=" field in
           if found && negb (String.eqb val "")
           then add_value (unquote_plus name) (unquote_plus val) d
           else d)
        [] (PyStr.split "&" qs).

Definition libs : PyLibs := Build_PyLibs urlparse tldextract parse_qs.

(** A schema that lacks most of the computed features and declares one
    that the extractor does not compute. *)
Definition feature_names : list string :=
  ["NumDots"; "UrlLength"; "NoHttps"; "NumSensitiveWords";
   "PctExtHyperlinks"; "BrandSpoofing"; "IsOfficialDomain"].

(** A classifier that scores every row at the threshold. *)
Definition model (_ : Row) : float := 0.7%float.

(** One that scores every row just above it. *)
Definition model_above (_ : Row) : float := 0.7000001%float.

(** One that is certain of every row. *)
Definition model_certain (_ : Row) : float := 1%float.

(** A schema that does not declare [NoHttps]. *)
Definition schema_without_https : list string := ["NumDots"; "UrlLength"].

(** The ANSI escape sequences that [colorama] defines. *)
Definition csi (code : string) : string := String "027" ("[" +:+ code +:+ "m").

Definition colorama : Colorama :=
  {| Fore_RED := csi "31"; Fore_GREEN := csi "32"; Fore_YELLOW := csi "33";
     Fore_CYAN := csi "36"; Fore_WHITE := csi "37";
     Style_RESET_ALL := csi "0" |}.

End Ref.

(** ** Closed forms used in the statements *)

(** The columns [names] of a dictionary that holds them all. *)
Definition schema_row (names : list string) (fs : gmap string value) : Row :=
  map (λ name, (name, get0 fs name)) names.

(** The threat indicators in the order the pipeline appends them, given
    the value read for [NoHttps]. *)
Definition threat_list (no_https : value) (fs : gmap string value) :
  list string :=
  (if truthy no_https then ["No HTTPS"] else [])
  ++ (if gt_two (get0 fs "NumSensitiveWords")
      then [format (get0 fs "NumSensitiveWords") +:+ " sensitive words"]
      else [])
  ++ (if truthy (get0 fs "BrandSpoofing")
      then ["Brand spoofing detected"] else []).

(** The floor of a finite float [(-1)^s * m * 2^e]; a shift by a negative
    count is the division that rounds down. *)
Definition floor_of_float (x : float) : Z :=
  match Prim2SF x with
  | S754_finite s m e => Z.shiftl (if s then Zneg m else Zpos m) e
  | _ => 0
  end.

(** The classifier keeps to the interval [[0, 1]]. *)
Definition probability (p : float) : Prop :=
  (0 <=? p)%float = true ∧ (p <=? 1)%float = true.



(** The features that are flags. *)
Definition flag_names : list string :=
  ["AtSymbol"; "TildeSymbol"; "NoHttps"; "RandomString"; "IpAddress";
   "HttpsInHostname"; "DoubleSlashInPath"; "IsOfficialDomain";
   "BrandSpoofing"].

(** The features that are counts and lengths. *)
Definition count_names : list string :=
  ["NumDots"; "SubdomainLevel"; "UrlLength"; "NumDash"; "NumDashInHostname";
   "NumUnderscore"; "NumPercent"; "NumQueryComponents"; "NumAmpersand";
   "NumHash"; "NumNumericChars"; "HostnameLength"; "PathLength";
   "QueryLength"; "NumSensitiveWords"].

(** The number of lines of the threat section of a report. *)
Definition threat_section (threats : list string) : nat :=
  match threats with
  | [] => 0
  | _ :: _ => 1 + length threats
  end.

(** What a value must satisfy under a given feature name. *)
Definition in_range (name : string) (v : value) : Prop :=
  (name ∈ flag_names → v = VInt 0 ∨ v = VInt 1)
  ∧ (name ∈ count_names → ∃ n, v = VInt n ∧ 0 ≤ n)
  ∧ (name = "NumSensitiveWords" → ∃ n, v = VInt n ∧ n ≤ 10).

(** * Properties *)

(** ** Binary64 arithmetic: a probability times 100 *)

Section FloatFacts.

Lemma digits2_pos_size p : digits2_pos p = Pos.size p.
Proof. induction p; cbn; congruence. Qed.

(** A number below [2^k] has at most [k] binary digits. *)
Lemma Zdigits2_le (m k : Z) : 0 ≤ m → 0 ≤ k → m < 2 ^ k → Zdigits2 m ≤ k.
Proof.
  intros Hm Hk Hlt. destruct m as [|p|p]; [done| |lia].
  cbn. rewrite digits2_pos_size.
  assert (2 ^ Zpos (Pos.size p) ≤ 2 * Zpos p) as Hle.
  { pose proof (Pos.size_le p). rewrite <- Pos2Z.inj_pow.
    change (2 * Zpos p) with (Zpos p~0). lia. }
  destruct (Z_lt_le_dec k (Zpos (Pos.size p))) as [Hgt|]; [|done].
  assert (2 ^ (k + 1) ≤ 2 ^ Zpos (Pos.size p)) by (apply Z.pow_le_mono_r; lia).
  rewrite Z.pow_add_r in * by lia. lia.
Qed.

Lemma Zpos_lt_pow_digits p : Zpos p < 2 ^ Zpos (digits2_pos p).
Proof. rewrite digits2_pos_size, <- Pos2Z.inj_pow. apply Pos.size_gt. Qed.

(** One shift to the right halves a mantissa that is not negative. *)
Lemma shr_1_bounds mrs : 0 ≤ shr_m mrs → 0 ≤ shr_m (shr_1 mrs) ≤ shr_m mrs.
Proof.
  destruct mrs as [m r s]. cbn. intros Hm.
  destruct m as [|[p|p|]|p]; cbn; lia.
Qed.

Lemma iter_shr_1_bounds n mrs :
  0 ≤ shr_m mrs → 0 ≤ shr_m (SpecFloat.iter_pos shr_1 n mrs) ≤ shr_m mrs.
Proof.
  revert mrs. induction n as [n IH|n IH|]; intros mrs Hm; cbn.
  - pose proof (shr_1_bounds mrs Hm).
    pose proof (IH (shr_1 mrs) ltac:(lia)).
    pose proof (IH (SpecFloat.iter_pos shr_1 n (shr_1 mrs)) ltac:(lia)). lia.
  - pose proof (IH mrs Hm).
    pose proof (IH (SpecFloat.iter_pos shr_1 n mrs) ltac:(lia)). lia.
  - by apply shr_1_bounds.
Qed.

Lemma shr_m_of_loc m l : shr_m (shr_record_of_loc m l) = m.
Proof. by destruct l as [|[]]. Qed.

(** The shift that brings a mantissa to its format keeps it between 0 and
    its old value, and leaves the exponent where it was or moves it to
    the exponent of the format. *)
Lemma shr_fexp_bounds (m e : Z) l :
  0 ≤ m →
  0 ≤ shr_m (shr_fexp prec emax m e l).1 ≤ m
  ∧ (shr_fexp prec emax m e l).2 ≤ Z.max e (fexp prec emax (Zdigits2 m + e)).
Proof.
  intros Hm. unfold shr_fexp, shr.
  destruct (fexp prec emax (Zdigits2 m + e) - e) as [|n|n] eqn:Hn;
    cbn [fst snd].
  - rewrite shr_m_of_loc. lia.
  - pose proof (iter_shr_1_bounds n (shr_record_of_loc m l)) as Hb.
    rewrite shr_m_of_loc in Hb. lia.
  - rewrite shr_m_of_loc. lia.
Qed.

Lemma round_nearest_even_bounds (m : Z) l :
  m ≤ round_nearest_even m l ≤ m + 1.
Proof. destruct l as [|[]]; cbn; try lia. destruct (Z.even m); lia. Qed.

(** Rounding the product of two 53-bit mantissas at an exponent of at
    most -98 gives a zero or a finite number: it cannot overflow. *)
Lemma binary_round_aux_finite (mx ex : Z) :
  0 < mx < 2 ^ 106 → ex ≤ -98 →
  binary_round_aux prec emax false mx ex loc_Exact = S754_zero false
  ∨ ∃ m e, binary_round_aux prec emax false mx ex loc_Exact
           = S754_finite false m e.
Proof.
  intros Hmx Hex. unfold binary_round_aux.
  pose proof (shr_fexp_bounds mx ex loc_Exact ltac:(lia)) as [Hm1 He1].
  destruct (shr_fexp prec emax mx ex loc_Exact) as [mrs' e'].
  cbn [fst snd] in *.
  pose proof (round_nearest_even_bounds (shr_m mrs') (loc_of_shr_record mrs'))
    as Hr.
  set (m1 := round_nearest_even (shr_m mrs') (loc_of_shr_record mrs')) in *.
  pose proof (shr_fexp_bounds m1 e' loc_Exact ltac:(lia)) as [Hm2 He2].
  destruct (shr_fexp prec emax m1 e' loc_Exact) as [mrs'' e''].
  cbn [fst snd] in *.
  assert (Zdigits2 mx ≤ 106) as Hd by (apply Zdigits2_le; lia).
  assert (Zdigits2 m1 ≤ 107) as Hd1.
  { apply Zdigits2_le; [lia..|]. change (2 ^ 107) with (2 * 2 ^ 106). lia. }
  assert (0 ≤ Zdigits2 mx) by (destruct mx; cbn; lia).
  assert (0 ≤ Zdigits2 m1) by (destruct m1; cbn; lia).
  unfold fexp, SpecFloat.emin, prec, emax in He1, He2.
  destruct (shr_m mrs'') as [|m|m]; [by left| |lia].
  right. exists m, e''.
  assert (Z.leb e'' (emax - prec) = true) as Hle
    by (apply Z.leb_le; unfold emax, prec; lia).
  by rewrite Hle.
Qed.

(** A float between 0 and 1 is a zero, or positive with an exponent of at
    most -52 and a mantissa of at most 53 bits. *)
Lemma probability_repr p :
  probability p →
  (∃ s, Prim2SF p = S754_zero s)
  ∨ ∃ m e, Prim2SF p = S754_finite false m e ∧ e ≤ -52 ∧ Zpos m < 2 ^ 53.
Proof.
  unfold probability. rewrite !leb_spec. intros [H0 H1].
  pose proof (Prim2SF_valid p) as Hv.
  change (Prim2SF 0) with (S754_zero false) in H0.
  change (Prim2SF 1) with (S754_finite false 4503599627370496 (-52)) in H1.
  destruct (Prim2SF p) as [s|s| |s m e];
    [by left; eexists|by destruct s|done|].
  right. exists m, e. destruct s; [done|]. split; [done|].
  unfold SFleb, SFcompare in H1.
  cbn in Hv. unfold bounded, canonical_mantissa in Hv.
  apply andb_prop in Hv as [Hc _]. apply Z.eqb_eq in Hc.
  unfold fexp, SpecFloat.emin, emax, prec in Hc.
  pose proof (Zpos_lt_pow_digits m) as Hm.
  split.
  - destruct (e ?= -52) eqn:Hcmp.
    + apply Z.compare_eq in Hcmp. lia.
    + rewrite Z.compare_lt_iff in Hcmp. lia.
    + discriminate H1.
  - eapply Z.lt_le_trans; [exact Hm|]. apply Z.pow_le_mono_r; lia.
Qed.

(** [int(p * 100)] raises nothing on a probability: the product is a
    float that is not negative, and [int] returns its floor. *)
Lemma int_of_probability_times_100 p calls :
  probability p →
  ∃ n, int_of_float (p * 100) calls = (inr n, calls)
       ∧ n = floor_of_float (p * 100) ∧ 0 ≤ n.
Proof.
  intros Hp. unfold int_of_float, floor_of_float. rewrite mul_spec.
  change (Prim2SF 100) with (S754_finite false 7036874417766400 (-46)).
  destruct (probability_repr p Hp) as [[s ->]|(m & e & -> & He & Hm)].
  { by exists 0. }
  unfold SF64mul, SFmul. cbn [xorb].
  destruct (binary_round_aux_finite (Zpos (m * 7036874417766400)) (e + -46))
    as [->|(m' & e' & ->)].
  - rewrite Pos2Z.inj_mul. split; [lia|].
    change (2 ^ 106) with (2 ^ 53 * 2 ^ 53).
    apply Z.mul_lt_mono_nonneg; lia.
  - lia.
  - by exists 0.
  - eexists. split; [done|]. split; [done|]. apply Z.shiftl_nonneg. lia.
Qed.

(** Whatever float it is applied to, [int] returns an integer or raises
    without scoring anything. *)
Lemma int_of_float_calls x calls :
  (int_of_float x calls).2 = calls.
Proof. unfold int_of_float. by destruct (Prim2SF x). Qed.

End FloatFacts.

(** ** Strings *)

Section StringFacts.

Lemma lower_char_idemp c : PyStr.lower_char (PyStr.lower_char c) = PyStr.lower_char c.
Proof. by destruct c as [[] [] [] [] [] [] [] []]. Qed.

Lemma lower_idemp s : PyStr.lower (PyStr.lower s) = PyStr.lower s.
Proof.
  induction s as [|c s IH]; [done|].
  cbn [PyStr.lower]. by rewrite lower_char_idemp, IH.
Qed.

(** Lower-casing leaves the slash alone and turns nothing into one. *)
Lemma lower_char_slash c :
  Ascii.eqb (PyStr.lower_char c) "/" = Ascii.eqb c "/".
Proof. by destruct c as [[] [] [] [] [] [] [] []]. Qed.

Lemma count_slash_lower s : PyStr.count "/" (PyStr.lower s) = PyStr.count "/" s.
Proof.
  induction s as [|c s IH]; [done|].
  cbn [PyStr.lower PyStr.count]. by rewrite lower_char_slash, IH.
Qed.

Lemma eqb_empty_lower s : String.eqb (PyStr.lower s) "" = String.eqb s "".
Proof. by destruct s. Qed.

Lemma slash_lower_char c :
  Ascii.eqb "/" (PyStr.lower_char c) = Ascii.eqb "/" c.
Proof. by destruct c as [[] [] [] [] [] [] [] []]. Qed.

Lemma startswith_slashes_lower s :
  PyStr.startswith "//" (PyStr.lower s) = PyStr.startswith "//" s.
Proof.
  destruct s as [|a [|b s]]; cbn [PyStr.lower PyStr.startswith];
    by rewrite ?slash_lower_char.
Qed.

Lemma contains_slashes_lower s :
  PyStr.contains "//" (PyStr.lower s) = PyStr.contains "//" s.
Proof.
  induction s as [|c s IH]; [done|].
  change (PyStr.lower (String c s)) with (String (PyStr.lower_char c) (PyStr.lower s)).
  change (PyStr.contains "//" (String c s))
    with (PyStr.startswith "//" (String c s) || PyStr.contains "//" s).
  change (PyStr.contains "//" (String (PyStr.lower_char c) (PyStr.lower s)))
    with (PyStr.startswith "//" (PyStr.lower (String c s))
          || PyStr.contains "//" (PyStr.lower s)).
  by rewrite startswith_slashes_lower, IH.
Qed.

Lemma in_list_spec s l : PyStr.in_list s l = true ↔ s ∈ l.
Proof.
  unfold PyStr.in_list. rewrite existsb_exists. split.
  - intros (x & Hx & Heq). apply String.eqb_eq in Heq as ->.
    by apply list_elem_of_In.
  - intros Hs. exists s. split; [by apply list_elem_of_In|apply String.eqb_refl].
Qed.


End StringFacts.

(** ** Dictionaries *)

Section DictFacts.

Implicit Types (d : gmap string value) (kvs : list (string * value)).

Lemma update_cons d k v kvs : update d ((k, v) :: kvs) = update (<[k:=v]> d) kvs.
Proof. done. Qed.

(** A key that [update] does not mention keeps its value. *)
Lemma lookup_update_notin d kvs k :
  k ∉ kvs.*1 → update d kvs !! k = d !! k.
Proof.
  revert d. induction kvs as [|[k' v'] kvs IH]; intros d Hk; [done|].
  rewrite update_cons, IH.
  - apply lookup_insert_ne. intros ->. apply Hk. cbn. left.
  - intros Hin. apply Hk. cbn. by right.
Qed.

(** A key that [update] mentions once gets the value given there. *)
Lemma lookup_update_in d kvs k v :
  NoDup kvs.*1 → (k, v) ∈ kvs → update d kvs !! k = Some v.
Proof.
  revert d. induction kvs as [|[k' v'] kvs IH]; intros d Hnd Hin.
  - by apply elem_of_nil in Hin.
  - cbn in Hnd. apply NoDup_cons in Hnd as [Hk' Hnd].
    rewrite update_cons. apply elem_of_cons in Hin as [[= -> ->]|Hin].
    + rewrite lookup_update_notin by done. apply lookup_insert_eq.
    + by apply IH.
Qed.

Lemma update_is_Some d kvs k :
  is_Some (d !! k) → is_Some (update d kvs !! k).
Proof.
  revert d. induction kvs as [|[k' v'] kvs IH]; intros d Hd; [done|].
  rewrite update_cons. apply IH.
  destruct (decide (k' = k)) as [->|Hne].
  - rewrite lookup_insert_eq. by eexists.
  - by rewrite lookup_insert_ne.
Qed.

(** The default dictionary holds [0] at the names of the schema and
    nothing else. *)
Lemma lookup_zeros names k :
  zeros names !! k = if decide (k ∈ names) then Some (VInt 0) else None.
Proof.
  unfold zeros.
  assert (∀ d, update d (map (λ name, (name, VInt 0)) names) !! k
               = if decide (k ∈ names) then Some (VInt 0) else d !! k) as Hgen.
  { induction names as [|n names IH]; intros d.
    - cbn. by rewrite decide_False by apply not_elem_of_nil.
    - cbn [map]. rewrite update_cons, IH.
      destruct (decide (k ∈ names)) as [Hin|Hnin].
      + rewrite decide_True; [done|by right].
      + destruct (decide (k = n)) as [->|Hne].
        * rewrite decide_True by left. apply lookup_insert_eq.
        * rewrite decide_False.
          -- by rewrite lookup_insert_ne.
          -- intros [?|?]%elem_of_cons; done. }
  rewrite Hgen. by destruct (decide (k ∈ names)).
Qed.

Lemma lookup_zeros_in names k : k ∈ names → zeros names !! k = Some (VInt 0).
Proof. intros Hk. by rewrite lookup_zeros, decide_True. Qed.

Lemma get0_zeros names k : get0 (zeros names) k = VInt 0.
Proof. unfold get0. rewrite lookup_zeros. by case_decide. Qed.

End DictFacts.

(** ** The effect monad *)

Section PyFacts.

(** Selecting columns that are all present raises nothing, scores
    nothing, and returns the columns in the order asked for. *)
Lemma select_columns_present (fs : gmap string value) names calls :
  (∀ name, name ∈ names → is_Some (fs !! name)) →
  select_columns fs names calls = (inr (schema_row names fs), calls).
Proof.
  unfold schema_row.
  induction names as [|n names IH]; intros Hall; [done|].
  cbn [select_columns map]. unfold bind, getitem.
  destruct (Hall n) as [v Hv]; [left|].
  rewrite Hv. unfold ret at 1. rewrite IH.
  - unfold ret, get0. by rewrite Hv.
  - intros name Hname. apply Hall. by right.
Qed.

Lemma fst_schema_row (fs : gmap string value) names :
  (schema_row names fs).*1 = names.
Proof.
  unfold schema_row. induction names as [|n names IH]; [done|].
  cbn. by rewrite IH.
Qed.

Lemma gt_two_get0 (fs : gmap string value) k :
  gt_two (get0 fs k) = true → fs !! k = Some (get0 fs k).
Proof. unfold get0. by destruct (fs !! k). Qed.

End PyFacts.

(** ** [PhishingDetector]: the extractor and the two branches of [analyze] *)

Section DetectorFacts.

Context `{PyLibs}.
Variable model : Row → float.
Variable feature_names : list string.

Abbreviation extract_features :=
  (PhishingDetector.extract_features feature_names).
Abbreviation computed_features :=
  (PhishingDetector.computed_features feature_names).
Abbreviation analyze := (PhishingDetector.analyze model feature_names).

Lemma computed_features_names url kvs :
  computed_features url = Some kvs → kvs.*1 = computed_names.
Proof.
  unfold PhishingDetector.computed_features.
  destruct (urlparse url); [|done]. by intros [= <-].
Qed.

Lemma NoDup_computed_names : NoDup computed_names.
Proof. apply (bool_decide_unpack _). by vm_compute. Qed.

(** Every name of the schema is a key of the extracted features. *)
Lemma extract_features_schema url name :
  name ∈ feature_names → is_Some (extract_features url !! name).
Proof.
  intros Hname. unfold PhishingDetector.extract_features.
  assert (is_Some (PhishingDetector.default_features feature_names !! name))
    as Hdef.
  { unfold PhishingDetector.default_features.
    rewrite lookup_zeros_in by done. by eexists. }
  destruct (computed_features url); [by apply update_is_Some|done].
Qed.

(** When the [try] block raises, the defaults come back. *)
Lemma extract_features_failed url :
  urlparse url = None → extract_features url = zeros feature_names.
Proof.
  intros Hp. unfold PhishingDetector.extract_features,
    PhishingDetector.computed_features. by rewrite Hp.
Qed.

(** A name that the extractor does not compute is [0] when the schema
    declares it and absent otherwise. *)
Lemma extract_features_not_computed url name :
  name ∉ computed_names →
  extract_features url !! name = zeros feature_names !! name.
Proof.
  intros Hname. unfold PhishingDetector.extract_features.
  destruct (computed_features url) as [kvs|] eqn:Hkvs; [|done].
  apply lookup_update_notin. by rewrite (computed_features_names _ _ Hkvs).
Qed.

(** A computed feature holds the value given in the dictionary of the
    [try] block. *)
Lemma extract_features_computed url kvs name v :
  computed_features url = Some kvs → (name, v) ∈ kvs →
  extract_features url !! name = Some v.
Proof.
  intros Hkvs Hin. unfold PhishingDetector.extract_features. rewrite Hkvs.
  apply lookup_update_in; [|done].
  rewrite (computed_features_names _ _ Hkvs). apply NoDup_computed_names.
Qed.

(** [analyze] in closed form: the override branch, the statistical branch,
    and the [KeyError] of [features['NoHttps']]. *)
Lemma analyze_unfold url :
  let fs := extract_features (PhishingDetector.normalize url) in
  analyze url =
    if truthy (get0 fs "IsOfficialDomain") then
      (Result {| result := Legitimate; confidence := 100;
                 threats := []; features := fs |}, [])
    else
      let row := schema_row feature_names fs in
      match fs !! "NoHttps" with
      | None => (Error (KeyError "NoHttps"), [row])
      | Some no_https =>
          match int_of_float (model row * 100) [row] with
          | (inl e, _) => (Error e, [row])
          | (inr percent, _) =>
              (Result {| result := if (0.7 <? model row)%float
                                   then Phishing else Legitimate;
                         confidence := Z.min 99 percent;
                         threats := threat_list no_https fs;
                         features := fs |}, [row])
          end
      end.
Proof.
  intros fs. unfold PhishingDetector.analyze, PhishingDetector.analyze_body.
  fold fs. destruct (truthy (get0 fs "IsOfficialDomain")); [done|].
  unfold try_except, bind at 1.
  rewrite select_columns_present by (intros; by apply extract_features_schema).
  fold (schema_row feature_names fs).
  unfold bind, score, getitem, ret, raise. cbn [app].
  destruct (fs !! "NoHttps") as [no_https|]; [|done].
  pose proof (int_of_float_calls
                (model (schema_row feature_names fs) * 100)
                [schema_row feature_names fs]) as Hcalls.
  unfold threat_list.
  destruct (gt_two (get0 fs "NumSensitiveWords")) eqn:Hgt.
  - rewrite (gt_two_get0 _ _ Hgt).
    destruct (int_of_float _ _) as [[e|percent] calls]; cbn in Hcalls;
      subst calls; [done|].
    by destruct (truthy no_https), (truthy (get0 fs "BrandSpoofing")).
  - destruct (int_of_float _ _) as [[e|percent] calls]; cbn in Hcalls;
      subst calls; [done|].
    by destruct (truthy no_https), (truthy (get0 fs "BrandSpoofing")).
Qed.

End DetectorFacts.

(** Finds an item in a list written out in full. *)
Ltac find_item := first [ by left | right; find_item ].

Section ComputedFeatures.

Context `{PyLibs}.
Variable feature_names : list string.

Abbreviation extract_features :=
  (PhishingDetector.extract_features feature_names).

Variables (url : string) (parsed : ParseResult).
Hypothesis Hparsed : urlparse url = Some parsed.

Lemma lookup_IsOfficialDomain :
  extract_features url !! "IsOfficialDomain"
  = Some (int_of_bool
            (PhishingDetector.is_official (PyStr.lower (netloc parsed)))).
Proof.
  eapply extract_features_computed.
  - unfold PhishingDetector.computed_features. by rewrite Hparsed.
  - find_item.
Qed.

Lemma lookup_NoHttps :
  extract_features url !! "NoHttps"
  = Some (int_of_bool (negb (String.eqb (scheme parsed) "https"))).
Proof.
  eapply extract_features_computed.
  - unfold PhishingDetector.computed_features. by rewrite Hparsed.
  - find_item.
Qed.

Lemma lookup_UrlLength :
  extract_features url !! "UrlLength" = Some (VInt (PyStr.len url)).
Proof.
  eapply extract_features_computed.
  - unfold PhishingDetector.computed_features. by rewrite Hparsed.
  - find_item.
Qed.

Lemma lookup_NumSensitiveWords :
  extract_features url !! "NumSensitiveWords"
  = Some (if PhishingDetector.is_official (PyStr.lower (netloc parsed))
          then VInt 0
          else VInt (count_words PhishingDetector.sensitive_words
                       (PyStr.lower url))).
Proof.
  eapply extract_features_computed.
  - unfold PhishingDetector.computed_features. by rewrite Hparsed.
  - find_item.
Qed.

Lemma lookup_BrandSpoofing :
  extract_features url !! "BrandSpoofing"
  = Some (if PyStr.in_list "BrandSpoofing" feature_names
          then PhishingDetector.check_brand_usage (PyStr.lower (netloc parsed))
          else VInt 0).
Proof.
  eapply extract_features_computed.
  - unfold PhishingDetector.computed_features. by rewrite Hparsed.
  - find_item.
Qed.

End ComputedFeatures.

(** The features [analyze] works with: those of the normalised URL. *)
Abbreviation features_of names url :=
  (PhishingDetector.extract_features names (PhishingDetector.normalize url)).

Section Branches.

Context `{PyLibs}.
Variable model : Row → float.
Variable feature_names : list string.

(** The override branch is taken exactly when the URL parses and its host
    passes [is_official]. *)
Lemma override_iff url :
  truthy (get0 (features_of feature_names url) "IsOfficialDomain") = true
  ↔ ∃ parsed, urlparse (PhishingDetector.normalize url) = Some parsed
              ∧ PhishingDetector.is_official (PyStr.lower (netloc parsed)) = true.
Proof.
  destruct (urlparse (PhishingDetector.normalize url)) as [parsed|] eqn:Hp.
  - unfold get0. rewrite (lookup_IsOfficialDomain _ _ _ Hp). cbn.
    split.
    + intros Ht. exists parsed. split; [done|].
      by destruct (PhishingDetector.is_official _).
    + intros (? & [= <-] & ->). done.
  - rewrite (extract_features_failed _ _ Hp), get0_zeros. cbn.
    split; [done|]. by intros (? & ? & _).
Qed.

(** The classifier is called at most once, and not at all exactly on the
    override branch. *)
Lemma analyze_calls url :
  (PhishingDetector.analyze model feature_names url).2
  = if truthy (get0 (features_of feature_names url) "IsOfficialDomain")
    then [] else [schema_row feature_names (features_of feature_names url)].
Proof.
  rewrite analyze_unfold. cbv zeta.
  destruct (truthy _); [done|]. destruct (_ !! "NoHttps"); [|done].
  by destruct (int_of_float _ _) as [[?|?] ?].
Qed.

End Branches.

(** ** The claims about [analyze] *)

Section Claims.

Context `{PyLibs}.
Variable model : Row → float.
Variable feature_names : list string.

Abbreviation analyze := (PhishingDetector.analyze model feature_names).

(** [is_official] in words: the lower-cased host name or its registrable
    domain is on the list. *)
Lemma is_official_spec hostname :
  PhishingDetector.is_official hostname = true
  ↔ PyStr.lower hostname ∈ PhishingDetector.official_domains
    ∨ PhishingDetector.registrable (tldextract (PyStr.lower hostname))
        ∈ PhishingDetector.official_domains.
Proof.
  unfold PhishingDetector.is_official.
  rewrite orb_true_iff, !in_list_spec. tauto.
Qed.

(** C1. When the host name of the normalised URL is officially listed,
    either itself in lower case or through its registrable domain,
    [analyze] returns Legitimate with confidence 100 and no threat
    indicator, and the classifier is not called. *)
Theorem official_host_overrides url parsed :
  urlparse (PhishingDetector.normalize url) = Some parsed →
  PyStr.lower (netloc parsed) ∈ PhishingDetector.official_domains
  ∨ PhishingDetector.registrable (tldextract (PyStr.lower (netloc parsed)))
      ∈ PhishingDetector.official_domains →
  ∃ fs, analyze url
        = (Result {| result := Legitimate; confidence := 100;
                     threats := []; features := fs |}, []).
Proof.
  intros Hp Hoff. eexists. rewrite analyze_unfold. cbv zeta.
  assert (truthy (get0 (features_of feature_names url) "IsOfficialDomain")
          = true) as ->; [|done].
  apply override_iff. exists parsed. split; [done|].
  apply is_official_spec. by rewrite lower_idemp.
Qed.

(** What [analyze] returns when it returns without a call to the
    classifier. *)
Lemma analyze_no_call url r :
  analyze url = (Result r, []) →
  truthy (get0 (features_of feature_names url) "IsOfficialDomain") = true
  ∧ r = {| result := Legitimate; confidence := 100; threats := [];
           features := features_of feature_names url |}.
Proof.
  rewrite analyze_unfold. cbv zeta.
  destruct (truthy _); [by intros [= <-]|].
  destruct (_ !! "NoHttps"); [|done].
  by destruct (int_of_float _ _) as [[?|?] ?].
Qed.

(** What [analyze] returns after a call to the classifier. *)
Lemma analyze_one_call url r row :
  analyze url = (Result r, [row]) →
  row = schema_row feature_names (features_of feature_names url)
  ∧ ∃ no_https percent,
      features_of feature_names url !! "NoHttps" = Some no_https
      ∧ int_of_float (model row * 100) [row] = (inr percent, [row])
      ∧ r = {| result := if (0.7 <? model row)%float
                         then Phishing else Legitimate;
               confidence := Z.min 99 percent;
               threats := threat_list no_https (features_of feature_names url);
               features := features_of feature_names url |}.
Proof.
  rewrite analyze_unfold. cbv zeta.
  destruct (truthy _); [done|].
  destruct (_ !! "NoHttps") as [no_https|]; [|done].
  pose proof (int_of_float_calls
    (model (schema_row feature_names (features_of feature_names url)) * 100)
    [schema_row feature_names (features_of feature_names url)]) as Hcalls.
  destruct (int_of_float _ _) as [[e|percent] calls] eqn:Hint; [done|].
  cbn in Hcalls. subst calls.
  intros [= <- <-]. split; [done|]. by exists no_https, percent.
Qed.

(** C2, as amended. On the override branch the [features] field is the
    output of the extractor on the normalised URL: the defaults of the
    schema overlaid with every computed feature. In it [IsOfficialDomain]
    is 1, [NumSensitiveWords] and [BrandSpoofing] are 0, the other computed
    features keep their computed values ([UrlLength] is the length of the
    URL), and a schema name that is not computed is 0. *)
Theorem override_features_are_extracted url r :
  analyze url = (Result r, []) →
  features r = features_of feature_names url
  ∧ features r !! "IsOfficialDomain" = Some (VInt 1)
  ∧ features r !! "NumSensitiveWords" = Some (VInt 0)
  ∧ features r !! "BrandSpoofing" = Some (VInt 0)
  ∧ features r !! "UrlLength"
    = Some (VInt (PyStr.len (PhishingDetector.normalize url)))
  ∧ (∀ name, name ∈ feature_names → name ∉ computed_names →
             features r !! name = Some (VInt 0)).
Proof.
  intros [Hoff ->]%analyze_no_call. cbn [features].
  apply override_iff in Hoff as (parsed & Hp & Hoff).
  split; [done|].
  rewrite (lookup_IsOfficialDomain _ _ _ Hp), (lookup_NumSensitiveWords _ _ _ Hp),
    (lookup_BrandSpoofing _ _ _ Hp), (lookup_UrlLength _ _ _ Hp), Hoff.
  unfold PhishingDetector.check_brand_usage. rewrite Hoff.
  repeat split; [by destruct (PyStr.in_list _ _)|].
  intros name Hin Hnc.
  by rewrite extract_features_not_computed, lookup_zeros_in.
Qed.

(** C3. Every row passed to the classifier lists exactly the names of the
    schema, in the order of the schema: it is the projection of the
    extracted features on the schema, so a computed feature that the
    schema lacks is dropped, and a schema name that is not computed comes
    with the value 0. The classifier is called at most once. *)
Theorem classifier_row_follows_schema url :
  Forall (λ row : Row,
            row.*1 = feature_names
            ∧ row = schema_row feature_names (features_of feature_names url)
            ∧ (∀ name v, (name, v) ∈ row →
                 features_of feature_names url !! name = Some v)
            ∧ (∀ name v, (name, v) ∈ row → name ∉ computed_names →
                 v = VInt 0))
         (analyze url).2
  ∧ (length (analyze url).2 ≤ 1)%nat.
Proof.
  rewrite analyze_calls. destruct (truthy _).
  { split; [constructor|cbn; lia]. }
  split; [|done]. constructor; [|constructor].
  split; [apply fst_schema_row|]. split; [done|].
  assert (∀ name v,
    (name, v) ∈ schema_row feature_names (features_of feature_names url) →
    name ∈ feature_names
    ∧ features_of feature_names url !! name = Some v) as Hrow.
  { intros name v (n & [= -> ->] & Hn)%list_elem_of_fmap. split; [done|].
    destruct (extract_features_schema feature_names
                (PhishingDetector.normalize url) n Hn) as [w Hw].
    unfold get0. by rewrite Hw. }
  split.
  - intros name v Hin. by apply Hrow.
  - intros name v [Hname Hv]%Hrow Hnc.
    rewrite extract_features_not_computed, lookup_zeros_in in Hv by done.
    by injection Hv.
Qed.

(** C4. On the statistical branch the verdict is Phishing exactly when
    the probability returned by the classifier is above 0.7 in the strict
    order of the floats; a probability equal to 0.7 gives Legitimate, and
    0.7000001 gives Phishing. *)
Theorem verdict_threshold_strict url r row :
  analyze url = (Result r, [row]) →
  (result r = Phishing ↔ (0.7 <? model row)%float = true)
  ∧ (model row = 0.7%float → result r = Legitimate)
  ∧ (model row = 0.7000001%float → result r = Phishing).
Proof.
  intros (_ & no_https & percent & _ & _ & ->)%analyze_one_call.
  cbn [result]. split; [|split].
  - by destruct (0.7 <? model row)%float.
  - by intros ->.
  - by intros ->.
Qed.

(** The statistical branch caps the confidence at 99. *)
Lemma confidence_100_no_call url r calls :
  analyze url = (Result r, calls) → confidence r = 100 → calls = [].
Proof.
  rewrite analyze_unfold. cbv zeta.
  destruct (truthy _); [by intros [= <- <-]|].
  destruct (_ !! "NoHttps"); [|done].
  destruct (int_of_float _ _) as [[?|?] ?]; [done|].
  intros [= <- <-]. cbn [confidence]. lia.
Qed.

(** C5. On the statistical branch, for a probability in [0, 1], the
    confidence is [min(99, floor(p * 100))], the product being the one of
    the floats: it lies between 0 and 99, and it is 99 at probability 1.
    A confidence of 100 only comes from the override branch, where the
    classifier is not called. *)
Theorem confidence_capped_below_100 url r row :
  analyze url = (Result r, [row]) →
  probability (model row) →
  confidence r = Z.min 99 (floor_of_float (model row * 100))
  ∧ 0 ≤ confidence r ≤ 99
  ∧ (model row = 1%float → confidence r = 99)
  ∧ (∀ url' r' calls',
       analyze url' = (Result r', calls') → confidence r' = 100 →
       calls' = []).
Proof.
  intros (_ & no_https & percent & _ & Hint & ->)%analyze_one_call Hp.
  cbn [confidence].
  destruct (int_of_probability_times_100 (model row) [row] Hp)
    as (n & Hn & Hfloor & Hnn).
  rewrite Hn in Hint. injection Hint as <-. rewrite <- Hfloor.
  split; [done|]. split; [lia|]. split.
  - intros Hone. rewrite Hfloor, Hone. by vm_compute.
  - apply confidence_100_no_call.
Qed.







(** C7. [check_brand_usage] answers 0 or 1. It answers 1 exactly when the
    host name is not official and some known brand occurs in the
    lower-cased host name without occurring in its registrable domain;
    the host name is official when it, lower-cased, or its registrable
    domain is on the list of official domains. So [paypal.evil-host.com],
    whose registrable domain is [evil-host.com], is flagged, and
    [paypal.com] is not. *)
Theorem brand_spoofed_iff hostname :
  (PhishingDetector.check_brand_usage hostname = VInt 1
   ↔ PhishingDetector.is_official hostname = false
     ∧ ∃ brand, brand ∈ PhishingDetector.known_brands
         ∧ PyStr.contains brand (PyStr.lower hostname) = true
         ∧ PyStr.contains brand
             (PhishingDetector.registrable (tldextract (PyStr.lower hostname)))
           = false)
  ∧ (PhishingDetector.check_brand_usage hostname = VInt 0
     ∨ PhishingDetector.check_brand_usage hostname = VInt 1)
  ∧ (PhishingDetector.is_official hostname = true
     ↔ PyStr.lower hostname ∈ PhishingDetector.official_domains
       ∨ PhishingDetector.registrable (tldextract (PyStr.lower hostname))
           ∈ PhishingDetector.official_domains)
  ∧ (tldextract "paypal.evil-host.com"
     = {| subdomain := "paypal"; domain := "evil-host"; suffix := "com" |} →
     PhishingDetector.check_brand_usage "paypal.evil-host.com" = VInt 1)
  ∧ (tldextract "paypal.com"
     = {| subdomain := ""; domain := "paypal"; suffix := "com" |} →
     PhishingDetector.check_brand_usage "paypal.com" = VInt 0).
Proof.
  split; [|split; [|split; [apply is_official_spec|]]]; cycle 2.
  { unfold PhishingDetector.check_brand_usage, PhishingDetector.is_official.
    change (PyStr.lower "paypal.evil-host.com") with "paypal.evil-host.com".
    change (PyStr.lower "paypal.com") with "paypal.com".
    split; intros ->; by vm_compute. }
  - unfold PhishingDetector.check_brand_usage.
    destruct (PhishingDetector.is_official hostname).
    { split; [done|]. by intros [? _]. }
    destruct (existsb _ _) eqn:Hex.
    + split; [|done]. intros _. split; [done|].
      apply existsb_exists in Hex as (brand & Hin & Hb).
      apply andb_true_iff in Hb as [Hh Hd]. apply negb_true_iff in Hd.
      exists brand. by rewrite <- list_elem_of_In in Hin.
    + split; [done|]. intros (_ & brand & Hin & Hh & Hd).
      assert (existsb (λ brand,
                PyStr.contains brand (PyStr.lower hostname)
                && negb (PyStr.contains brand
                  (PhishingDetector.registrable
                     (tldextract (PyStr.lower hostname)))))
              PhishingDetector.known_brands = true) as Hex'.
      { apply existsb_exists. exists brand.
        rewrite <- list_elem_of_In. by rewrite Hh, Hd. }
      congruence.
  - unfold PhishingDetector.check_brand_usage.
    destruct (PhishingDetector.is_official hostname); [by left|].
    destruct (existsb _ _); [by right|by left].
Qed.

(** C10, as amended. For an input that starts with neither [http://] nor
    [https://], whose normalised URL the parser accepts and whose host
    name is not official, [analyze] takes the statistical branch with
    [NoHttps] at 1, and "No HTTPS" is the first threat indicator. The
    first two hypotheses are the behaviour of [urlparse] on a URL that
    starts with [http://] and the contract of the classifier, which
    returns a probability. *)
Theorem schemeless_input_flags_no_https url parsed :
  (∀ s p, urlparse ("http://" +:+ s) = Some p → scheme p = "http") →
  (∀ row, probability (model row)) →
  PyStr.startswith "http://" url = false →
  PyStr.startswith "https://" url = false →
  urlparse (PhishingDetector.normalize url) = Some parsed →
  PhishingDetector.is_official (PyStr.lower (netloc parsed)) = false →
  ∃ r row rest,
    analyze url = (Result r, [row])
    ∧ features r !! "NoHttps" = Some (VInt 1)
    ∧ threats r = "No HTTPS" :: rest.
Proof.
  intros Hlib Hmodel Hhttp Hhttps Hp Hoff.
  rewrite analyze_unfold. cbv zeta.
  assert (truthy (get0 (features_of feature_names url) "IsOfficialDomain")
          = false) as ->.
  { apply not_true_is_false. intros (p' & Hp' & Hoff')%override_iff.
    rewrite Hp in Hp'. injection Hp' as <-. congruence. }
  assert (scheme parsed = "http") as Hscheme.
  { apply (Hlib url). revert Hp. unfold PhishingDetector.normalize.
    by rewrite Hhttp, Hhttps. }
  assert (features_of feature_names url !! "NoHttps" = Some (VInt 1)) as Hno.
  { by rewrite (lookup_NoHttps _ _ _ Hp), Hscheme. }
  rewrite Hno.
  edestruct int_of_probability_times_100 as (n & -> & _); [apply Hmodel|].
  by do 3 eexists.
Qed.

End Claims.

(** ** The malformed input [http://] *)

Section EmptyHost.

Context `{PyLibs}.
Variable model : Row → float.
Variable feature_names : list string.

(** C8, as amended. On the string [http://], which the parser accepts
    with an empty host name, [analyze] raises nothing and returns a result
    from the statistical branch. Extraction succeeds on it, so the result
    carries the computed features ([UrlLength] 7, [NoHttps] 1,
    [HostnameLength] 0, [IsOfficialDomain] 0) with the single indicator
    "No HTTPS", and not the all-default vector. A result carries the
    all-default vector when extraction raised, that is when the parser
    rejected the normalised URL. The hypotheses are the behaviour of
    [urlparse] and [tldextract] on this input and the contract of the
    classifier, which returns a probability. *)
Theorem empty_host_is_analyzed :
  urlparse "http://"
  = Some {| scheme := "http"; netloc := ""; path := ""; params := "";
            query := ""; fragment := "" |} →
  tldextract "" = {| subdomain := ""; domain := ""; suffix := "" |} →
  (∀ row, probability (model row)) →
  (∃ r row,
     PhishingDetector.analyze model feature_names "http://" = (Result r, [row])
     ∧ features r !! "UrlLength" = Some (VInt 7)
     ∧ features r !! "NoHttps" = Some (VInt 1)
     ∧ features r !! "HostnameLength" = Some (VInt 0)
     ∧ features r !! "IsOfficialDomain" = Some (VInt 0)
     ∧ threats r = ["No HTTPS"])
  ∧ (∀ url r calls,
       urlparse (PhishingDetector.normalize url) = None →
       PhishingDetector.analyze model feature_names url = (Result r, calls) →
       features r = zeros feature_names).
Proof.
  intros Hparse Hext Hmodel. split.
  - assert (PhishingDetector.is_official "" = false) as Hoff.
    { unfold PhishingDetector.is_official. cbn [PyStr.lower].
      by rewrite Hext. }
    assert (PhishingDetector.normalize "http://" = "http://") as Hnorm by done.
    pose proof (lookup_IsOfficialDomain feature_names _ _ Hparse) as Hio.
    pose proof (lookup_NoHttps feature_names _ _ Hparse) as Hno.
    pose proof (lookup_NumSensitiveWords feature_names _ _ Hparse) as Hsw.
    pose proof (lookup_BrandSpoofing feature_names _ _ Hparse) as Hbs.
    pose proof (lookup_UrlLength feature_names _ _ Hparse) as Hlen.
    cbn [netloc scheme PyStr.lower] in Hio, Hno, Hsw, Hbs.
    rewrite Hoff in Hio, Hsw.
    assert (PhishingDetector.check_brand_usage "" = VInt 0) as Hcb.
    { unfold PhishingDetector.check_brand_usage. by rewrite Hoff. }
    rewrite Hcb in Hbs.
    rewrite analyze_unfold. cbv zeta. rewrite Hnorm.
    unfold get0 at 1. rewrite Hio. cbn [default int_of_bool truthy Z.eqb negb].
    rewrite Hno.
    edestruct int_of_probability_times_100 as (n & -> & _); [apply Hmodel|].
    do 2 eexists. split; [done|]. cbn [features threats].
    rewrite Hlen, Hno, Hio.
    split; [done|]. split; [done|]. split.
    { eapply extract_features_computed.
      - unfold PhishingDetector.computed_features. by rewrite Hparse.
      - find_item. }
    split; [done|].
    unfold threat_list, get0. rewrite Hsw, Hbs.
    by destruct (PyStr.in_list "BrandSpoofing" feature_names).
  - intros url r calls Hnone. rewrite analyze_unfold. cbv zeta.
    rewrite (extract_features_failed _ _ Hnone), get0_zeros.
    cbn [truthy Z.eqb negb].
    destruct (_ !! "NoHttps"); [|done].
    destruct (int_of_float _ _) as [[?|?] ?]; [done|]. by intros [= <- _].
Qed.

End EmptyHost.

(** ** The two copies of the extractor *)

Section TwoCopies.

Context `{PyLibs}.
Variable feature_names : list string.

Implicit Types (d : gmap string value) (kvs : list (string * value)).

(** Two updates with the same keys agree at [k] when they give [k] the
    same values. *)
Lemma lookup_update_Forall2 d1 d2 kvs1 kvs2 k :
  d1 !! k = d2 !! k →
  Forall2 (λ a b, a.1 = b.1 ∧ (a.1 = k → a.2 = b.2)) kvs1 kvs2 →
  update d1 kvs1 !! k = update d2 kvs2 !! k.
Proof.
  intros Hd Hall. revert d1 d2 Hd.
  induction Hall as [|[k1 v1] [k2 v2] kvs1 kvs2 [Hk Hv] _ IH];
    intros d1 d2 Hd; [done|].
  cbn in Hk, Hv. subst k2. rewrite !update_cons. apply IH.
  destruct (decide (k1 = k)) as [->|Hne].
  - rewrite !lookup_insert_eq. by rewrite Hv.
  - by rewrite !lookup_insert_ne.
Qed.

(** [extract_all_features] guards a call that has the guard built in. *)
Lemma guarded_check_brand_spoofing hostname :
  (if URLFeatureExtractor.is_official_domain hostname then VInt 0
   else URLFeatureExtractor.check_brand_spoofing hostname)
  = URLFeatureExtractor.check_brand_spoofing hostname.
Proof.
  unfold URLFeatureExtractor.check_brand_spoofing.
  by destruct (URLFeatureExtractor.is_official_domain hostname).
Qed.

(** C9, as amended. The two extractors return the same value for every
    feature other than [IsOfficialDomain], [BrandSpoofing],
    [NumSensitiveWords] and [PathLength]. [PathLength] is the length of
    the lower-cased path in [phishdetect.py] and of the path as parsed in
    [phishdetect_fixed.py]. The two return equal vectors when the parser
    rejects the URL, and when it accepts it, lower-casing keeps the length
    of the path, as it does for an ASCII path, and the two copies agree on
    the host name in their test of officialness and in their brand check.
    They do not agree on [IsOfficialDomain] for every host name. *)
Theorem extractors_agree_up_to_domain_lists url :
  (∀ name,
     name ∉ ["IsOfficialDomain"; "BrandSpoofing"; "NumSensitiveWords";
             "PathLength"] →
     PhishingDetector.extract_features feature_names url !! name
     = URLFeatureExtractor.extract_all_features feature_names url !! name)
  ∧ (urlparse url = None →
     PhishingDetector.extract_features feature_names url
     = URLFeatureExtractor.extract_all_features feature_names url)
  ∧ (∀ parsed,
       urlparse url = Some parsed →
       PhishingDetector.extract_features feature_names url !! "PathLength"
       = Some (VInt (PyStr.len (PyStr.lower (path parsed))))
       ∧ URLFeatureExtractor.extract_all_features feature_names url
           !! "PathLength"
         = Some (VInt (PyStr.len (path parsed)))
       ∧ (PyStr.len (PyStr.lower (path parsed)) = PyStr.len (path parsed) →
          PhishingDetector.is_official (PyStr.lower (netloc parsed))
          = URLFeatureExtractor.is_official_domain
              (PyStr.lower (netloc parsed)) →
          (if PyStr.in_list "BrandSpoofing" feature_names
           then PhishingDetector.check_brand_usage
                  (PyStr.lower (netloc parsed))
           else VInt 0)
          = URLFeatureExtractor.check_brand_spoofing
              (PyStr.lower (netloc parsed)) →
          PhishingDetector.extract_features feature_names url
          = URLFeatureExtractor.extract_all_features feature_names url)).
Proof.
  unfold PhishingDetector.extract_features,
    URLFeatureExtractor.extract_all_features,
    PhishingDetector.computed_features,
    URLFeatureExtractor.computed_features,
    PhishingDetector.default_features.
  destruct (urlparse url) as [parsed|]; cbn [mbind option_bind];
    [|by repeat split].
  split; [|split; [done|]].
  - intros name Hname. apply lookup_update_Forall2; [done|].
    rewrite !count_slash_lower, !eqb_empty_lower, !contains_slashes_lower.
    repeat (constructor; [split; [done|cbn [fst snd]; intros Hk]|]);
      [..|constructor]; try done.
    all: exfalso; apply Hname; subst name; find_item.
  - intros ? [= <-]. split; [|split].
    + apply lookup_update_in; [apply NoDup_computed_names|find_item].
    + apply lookup_update_in; [apply NoDup_computed_names|find_item].
    + intros Hlen Hoff Hbrand. f_equal.
      rewrite !count_slash_lower, !eqb_empty_lower, !contains_slashes_lower,
        Hlen, guarded_check_brand_spoofing, Hoff, Hbrand.
      done.
Qed.

End TwoCopies.

(** ** [predict_phishing], the copy of [analyze] in [phishdetect_fixed.py] *)

Section FixedCopy.

Context `{PyLibs}.
Variable model : Row → float.
Variable expected_features : list string.

Lemma extract_all_features_schema url name :
  name ∈ expected_features →
  is_Some (URLFeatureExtractor.extract_all_features expected_features url
             !! name).
Proof.
  intros Hname. unfold URLFeatureExtractor.extract_all_features.
  assert (is_Some (zeros expected_features !! name)) as Hdef.
  { rewrite lookup_zeros_in by done. by eexists. }
  destruct (URLFeatureExtractor.computed_features url);
    [by apply update_is_Some|done].
Qed.

(** [predict_phishing] in closed form. It reads [NoHttps] with a default,
    so the only error it can return comes from [int]. *)
Lemma predict_phishing_unfold url :
  let fs := URLFeatureExtractor.extract_all_features expected_features url in
  URLFeatureExtractor.predict_phishing model expected_features url =
    if truthy (get0 fs "IsOfficialDomain") then
      (Result {| URLFeatureExtractor.result := Legitimate;
                 URLFeatureExtractor.confidence := 100;
                 URLFeatureExtractor.threat_indicators := [];
                 URLFeatureExtractor.features := fs |}, [])
    else
      let row := schema_row expected_features fs in
      match int_of_float (model row * 100) [row] with
      | (inl e, _) => (Error e, [row])
      | (inr percent, _) =>
          (Result {| URLFeatureExtractor.result :=
                       if (0.7 <? model row)%float
                       then Phishing else Legitimate;
                     URLFeatureExtractor.confidence := Z.min 99 percent;
                     URLFeatureExtractor.threat_indicators :=
                       threat_list (get0 fs "NoHttps") fs;
                     URLFeatureExtractor.features := fs |}, [row])
      end.
Proof.
  intros fs. unfold URLFeatureExtractor.predict_phishing,
    URLFeatureExtractor.predict_phishing_body.
  fold fs. destruct (truthy (get0 fs "IsOfficialDomain")); [done|].
  unfold try_except, bind at 1.
  rewrite select_columns_present
    by (intros; by apply extract_all_features_schema).
  unfold bind, score, getitem, ret, raise. cbn [app].
  pose proof (int_of_float_calls
                (model (schema_row expected_features fs) * 100)
                [schema_row expected_features fs]) as Hcalls.
  unfold threat_list.
  destruct (gt_two (get0 fs "NumSensitiveWords")) eqn:Hgt.
  - rewrite (gt_two_get0 _ _ Hgt).
    destruct (int_of_float _ _) as [[e|percent] calls]; cbn in Hcalls;
      subst calls; [done|].
    by destruct (0.7 <? _)%float, (truthy (get0 fs "NoHttps")),
      (truthy (get0 fs "BrandSpoofing")).
  - destruct (int_of_float _ _) as [[e|percent] calls]; cbn in Hcalls;
      subst calls; [done|].
    by destruct (0.7 <? _)%float, (truthy (get0 fs "NoHttps")),
      (truthy (get0 fs "BrandSpoofing")).
Qed.

(** The statistical branch of the copy follows the same rules: the row
    lists the schema in order, the threshold is strict and the confidence
    is capped at 99. *)
Lemma predict_phishing_statistical url r row :
  URLFeatureExtractor.predict_phishing model expected_features url
  = (Result r, [row]) →
  row.*1 = expected_features
  ∧ (URLFeatureExtractor.result r = Phishing
     ↔ (0.7 <? model row)%float = true)
  ∧ URLFeatureExtractor.confidence r ≤ 99.
Proof.
  rewrite predict_phishing_unfold. cbv zeta.
  destruct (truthy _); [done|].
  destruct (int_of_float _ _) as [[?|?] ?]; [done|]. intros [= <- <-].
  split; [apply fst_schema_row|].
  cbn [URLFeatureExtractor.result URLFeatureExtractor.confidence].
  split; [by destruct (0.7 <? _)%float|lia].
Qed.

(** The copy calls the classifier at most once, and not at all exactly on
    its override branch. *)
Lemma predict_phishing_calls url :
  (URLFeatureExtractor.predict_phishing model expected_features url).2
  = if truthy (get0 (URLFeatureExtractor.extract_all_features
                       expected_features url) "IsOfficialDomain")
    then []
    else [schema_row expected_features
            (URLFeatureExtractor.extract_all_features expected_features url)].
Proof.
  rewrite predict_phishing_unfold. cbv zeta.
  destruct (truthy _); [done|].
  by destruct (int_of_float _ _) as [[?|?] ?].
Qed.

(** The copy takes the override branch exactly on the host names that
    are listed as they stand. *)
Lemma predict_phishing_override url parsed :
  urlparse url = Some parsed →
  ((URLFeatureExtractor.predict_phishing model expected_features url).2 = []
   ↔ PyStr.lower (netloc parsed) ∈ URLFeatureExtractor.official_domains).
Proof.
  intros Hp. rewrite predict_phishing_calls.
  assert (URLFeatureExtractor.extract_all_features expected_features url
            !! "IsOfficialDomain"
          = Some (int_of_bool (URLFeatureExtractor.is_official_domain
                                 (PyStr.lower (netloc parsed))))) as Hio.
  { unfold URLFeatureExtractor.extract_all_features,
      URLFeatureExtractor.computed_features.
    rewrite Hp. cbn [mbind option_bind].
    apply lookup_update_in; [|find_item].
    apply NoDup_computed_names. }
  unfold get0 at 1. rewrite Hio. cbn [default].
  unfold URLFeatureExtractor.is_official_domain.
  rewrite lower_idemp, <- in_list_spec.
  by destruct (PyStr.in_list _ _).
Qed.

End FixedCopy.

(** ** The reference parser on a URL that starts with [http://] *)

Lemma urlsplit_http s r :
  Ref.urlsplit ("http://" +:+ s) = Some r → r.1.1.1.1 = "http".
Proof.
  unfold Ref.urlsplit.
  change (PyStr.lstrip Ref.c0_control_or_space ("http://" +:+ s))
    with ("http://" +:+ s).
  change (PyStr.remove Ref.unsafe_url_byte ("http://" +:+ s))
    with ("http://" +:+ PyStr.remove Ref.unsafe_url_byte s).
  change (Ref.split_scheme ("http://" +:+ PyStr.remove Ref.unsafe_url_byte s))
    with ("http", "//" +:+ PyStr.remove Ref.unsafe_url_byte s).
  cbv beta iota.
  change (PyStr.startswith "//" ("//" +:+ PyStr.remove Ref.unsafe_url_byte s))
    with true.
  cbv beta iota.
  destruct (Ref.splitnetloc _) as [n u].
  destruct (_ || _); [done|].
  destruct (PyStr.partition "#" u) as [[u1 ?] fr].
  destruct (PyStr.partition "?" u1) as [[u2 ?] q].
  by intros [= <-].
Qed.

Lemma urlparse_http_scheme s p :
  Ref.urlparse ("http://" +:+ s) = Some p → scheme p = "http".
Proof.
  unfold Ref.urlparse.
  destruct (Ref.urlsplit _) as [[[[[sc n] u] q] fr]|] eqn:Hs; [|done].
  apply urlsplit_http in Hs. cbn in Hs. subst sc. cbn [mbind option_bind].
  destruct (_ && _); [destruct (Ref.splitparams u)|]; by intros [= <-].
Qed.

(** ** The pipeline run on the reference models *)

Section Reference.

#[local] Existing Instance Ref.libs.

Abbreviation ref_analyze :=
  (PhishingDetector.analyze Ref.model Ref.feature_names).
Abbreviation ref_features :=
  (PhishingDetector.extract_features Ref.feature_names).
Abbreviation ref_all_features :=
  (URLFeatureExtractor.extract_all_features Ref.feature_names).

(** An official host: the override branch. *)
Lemma paypal_run :
  ref_analyze "https://www.paypal.com/"
  = (Result {| result := Legitimate; confidence := 100; threats := [];
               features := ref_features "https://www.paypal.com/" |}, []).
Proof. vm_compute. reflexivity. Qed.

(** The empty host: the statistical branch, at the threshold. *)
Lemma empty_host_run :
  ref_analyze "http://"
  = (Result {| result := Legitimate; confidence := 70;
               threats := ["No HTTPS"];
               features := ref_features "http://" |},
     [schema_row Ref.feature_names (ref_features "http://")]).
Proof. vm_compute. reflexivity. Qed.

(** An input the parser rejects once normalised: the statistical branch
    on the defaults. *)
Lemma open_bracket_run :
  Ref.urlparse "http://[" = None
  ∧ ref_analyze "["
    = (Result {| result := Legitimate; confidence := 70; threats := [];
                 features := zeros Ref.feature_names |},
       [schema_row Ref.feature_names (zeros Ref.feature_names)]).
Proof. split; vm_compute; reflexivity. Qed.

(** The row scored for [http://secure-login-verify.example.com]. *)
Example classifier_row_example :
  (ref_analyze "http://secure-login-verify.example.com").2
  = [[("NumDots", VInt 2); ("UrlLength", VInt 38); ("NoHttps", VInt 1);
      ("NumSensitiveWords", VInt 3); ("PctExtHyperlinks", VInt 0);
      ("BrandSpoofing", VInt 0); ("IsOfficialDomain", VInt 0)]].
Proof. vm_compute. reflexivity. Qed.

(** The examples of the brand check. *)
Example brand_in_subdomain_is_flagged :
  PhishingDetector.check_brand_usage "paypal.evil-host.com" = VInt 1
  ∧ PhishingDetector.check_brand_usage "paypal.secure-login.example.com"
    = VInt 1
  ∧ PhishingDetector.check_brand_usage "paypal.com" = VInt 0
  ∧ PhishingDetector.check_brand_usage "mail.paypal.com" = VInt 0.
Proof. repeat split; vm_compute; reflexivity. Qed.

(** A word that occurs twice in the URL is counted once. *)
Example repeated_word_counts_once :
  ref_features "http://login-login.example.com" !! "NumSensitiveWords"
  = Some (VInt 1).
Proof. vm_compute. reflexivity. Qed.

(** Upper case in the URL does not hide a word. *)
Example upper_case_words_are_counted :
  ref_features "HTTP://SECURE-Login-VERIFY.example.com" !! "NumSensitiveWords"
  = Some (VInt 3).
Proof. vm_compute. reflexivity. Qed.

(** Just above the threshold the verdict is Phishing; a certain
    classifier gets confidence 99. *)
Example verdicts_above_threshold :
  (∃ fs row,
     PhishingDetector.analyze Ref.model_above Ref.feature_names "http://"
     = (Result {| result := Phishing; confidence := 70;
                  threats := ["No HTTPS"]; features := fs |}, [row]))
  ∧ (∃ fs row,
       PhishingDetector.analyze Ref.model_certain Ref.feature_names "http://"
       = (Result {| result := Phishing; confidence := 99;
                    threats := ["No HTTPS"]; features := fs |}, [row])).
Proof. split; do 2 eexists; vm_compute; reflexivity. Qed.

(** The copy in [phishdetect_fixed.py] tests the exact host name only: a
    subdomain of an official domain goes to the classifier there. *)
Example fixed_copy_scores_official_subdomain :
  (ref_analyze "http://mail.google.com").2 = []
  ∧ length (URLFeatureExtractor.predict_phishing Ref.model Ref.feature_names
              "http://mail.google.com").2 = 1%nat.
Proof. split; vm_compute; reflexivity. Qed.

(** Witness of C1: a host that is official through its registrable
    domain. *)
Lemma official_host_overrides_witness :
  Ref.urlparse (PhishingDetector.normalize "mail.google.com/inbox")
  = Some {| scheme := "http"; netloc := "mail.google.com"; path := "/inbox";
            params := ""; query := ""; fragment := "" |}
  ∧ PhishingDetector.registrable (Ref.tldextract "mail.google.com")
    ∈ PhishingDetector.official_domains
  ∧ ∃ fs, ref_analyze "mail.google.com/inbox"
          = (Result {| result := Legitimate; confidence := 100;
                       threats := []; features := fs |}, []).
Proof.
  assert (Ref.urlparse (PhishingDetector.normalize "mail.google.com/inbox")
          = Some {| scheme := "http"; netloc := "mail.google.com";
                    path := "/inbox"; params := ""; query := "";
                    fragment := "" |}) as Hp.
  { vm_compute. reflexivity. }
  assert (PhishingDetector.registrable (Ref.tldextract "mail.google.com")
          ∈ PhishingDetector.official_domains) as Hreg.
  { apply in_list_spec. vm_compute. reflexivity. }
  split; [exact Hp|]. split; [exact Hreg|].
  exact (official_host_overrides Ref.model Ref.feature_names
           "mail.google.com/inbox" _ Hp (or_intror Hreg)).
Defined.

(** C2 fails as stated: for [https://www.paypal.com/] the override
    branch returns features that are not the defaults with
    [IsOfficialDomain] set; [UrlLength] is 23 there. *)
Lemma override_features_not_default :
  ¬ (∀ r, ref_analyze "https://www.paypal.com/" = (Result r, []) →
          features r
          = <["IsOfficialDomain" := VInt 1]> (zeros Ref.feature_names)).
Proof.
  intros Hclaim. specialize (Hclaim _ paypal_run). cbn [features] in Hclaim.
  apply (f_equal (λ m : gmap string value, m !! "UrlLength")) in Hclaim.
  vm_compute in Hclaim. discriminate.
Qed.

(** Witness of C2 as amended. *)
Lemma override_features_are_extracted_witness :
  ref_analyze "https://www.paypal.com/"
  = (Result {| result := Legitimate; confidence := 100; threats := [];
               features := ref_features "https://www.paypal.com/" |}, [])
  ∧ ref_features "https://www.paypal.com/" !! "IsOfficialDomain"
    = Some (VInt 1)
  ∧ ref_features "https://www.paypal.com/" !! "UrlLength" = Some (VInt 23).
Proof.
  assert (ref_analyze "https://www.paypal.com/"
          = (Result {| result := Legitimate; confidence := 100; threats := [];
                       features := ref_features "https://www.paypal.com/" |},
             [])) as Heq.
  { vm_compute. reflexivity. }
  split; [exact Heq|].
  destruct (override_features_are_extracted Ref.model Ref.feature_names _ _ Heq)
    as (_ & Hio & _ & _ & Hlen & _).
  split; [exact Hio|exact Hlen].
Defined.

(** Witness of C4: the reference classifier answers 0.7 and the verdict
    is Legitimate. *)
Lemma verdict_threshold_strict_witness :
  ref_analyze "http://"
  = (Result {| result := Legitimate; confidence := 70;
               threats := ["No HTTPS"];
               features := ref_features "http://" |},
     [schema_row Ref.feature_names (ref_features "http://")])
  ∧ (Legitimate = Phishing
     ↔ (0.7 <? Ref.model
                 (schema_row Ref.feature_names (ref_features "http://")))%float
       = true)
  ∧ (Ref.model (schema_row Ref.feature_names (ref_features "http://"))
     = 0.7%float → Legitimate = Legitimate)
  ∧ (Ref.model (schema_row Ref.feature_names (ref_features "http://"))
     = 0.7000001%float → Legitimate = Phishing).
Proof.
  assert (ref_analyze "http://"
          = (Result {| result := Legitimate; confidence := 70;
                       threats := ["No HTTPS"];
                       features := ref_features "http://" |},
             [schema_row Ref.feature_names (ref_features "http://")])) as Heq.
  { vm_compute. reflexivity. }
  split; [exact Heq|].
  exact (verdict_threshold_strict Ref.model Ref.feature_names _ _ _ Heq).
Defined.

(** Every reference classifier returns a probability. *)
Lemma ref_model_probability (row : Row) : probability (Ref.model row).
Proof. split; reflexivity. Qed.

(** Witness of C5: at probability 0.7 the confidence is 70. *)
Lemma confidence_capped_below_100_witness :
  ref_analyze "http://"
  = (Result {| result := Legitimate; confidence := 70;
               threats := ["No HTTPS"];
               features := ref_features "http://" |},
     [schema_row Ref.feature_names (ref_features "http://")])
  ∧ probability 0.7
  ∧ 70 = Z.min 99 (floor_of_float (0.7 * 100))
  ∧ 0 ≤ 70 ≤ 99.
Proof.
  assert (ref_analyze "http://"
          = (Result {| result := Legitimate; confidence := 70;
                       threats := ["No HTTPS"];
                       features := ref_features "http://" |},
             [schema_row Ref.feature_names (ref_features "http://")])) as Heq.
  { vm_compute. reflexivity. }
  split; [exact Heq|].
  assert (probability 0.7) as Hp by (split; reflexivity).
  split; [exact Hp|].
  destruct (confidence_capped_below_100 Ref.model Ref.feature_names _ _ _
              Heq Hp) as (Hc & Hr & _).
  split; [exact Hc|exact Hr].
Defined.



(** C8 fails as stated: the result returned for [http://] does not carry
    the all-default vector. *)
Lemma empty_host_features_not_default :
  ¬ (∀ r calls, ref_analyze "http://" = (Result r, calls) →
                features r = zeros Ref.feature_names).
Proof.
  intros Hclaim. specialize (Hclaim _ _ empty_host_run).
  cbn [features] in Hclaim.
  apply (f_equal (λ m : gmap string value, m !! "UrlLength")) in Hclaim.
  vm_compute in Hclaim. discriminate.
Qed.

(** Witness of C7: the two host names of the claim, with the split that
    [tldextract] makes of them. *)
Lemma brand_spoofed_iff_witness :
  Ref.tldextract "paypal.evil-host.com"
  = {| subdomain := "paypal"; domain := "evil-host"; suffix := "com" |}
  ∧ PhishingDetector.check_brand_usage "paypal.evil-host.com" = VInt 1
  ∧ Ref.tldextract "paypal.com"
    = {| subdomain := ""; domain := "paypal"; suffix := "com" |}
  ∧ PhishingDetector.check_brand_usage "paypal.com" = VInt 0.
Proof.
  assert (Ref.tldextract "paypal.evil-host.com"
          = {| subdomain := "paypal"; domain := "evil-host";
               suffix := "com" |}) as He by (vm_compute; reflexivity).
  assert (Ref.tldextract "paypal.com"
          = {| subdomain := ""; domain := "paypal"; suffix := "com" |})
    as Hp by (vm_compute; reflexivity).
  destruct (brand_spoofed_iff "") as (_ & _ & _ & Hflag & Hplain).
  split; [exact He|]. split; [exact (Hflag He)|].
  split; [exact Hp|exact (Hplain Hp)].
Defined.

(** Witness of C8 as amended. *)
Lemma empty_host_is_analyzed_witness :
  Ref.urlparse "http://"
  = Some {| scheme := "http"; netloc := ""; path := ""; params := "";
            query := ""; fragment := "" |}
  ∧ Ref.tldextract "" = {| subdomain := ""; domain := ""; suffix := "" |}
  ∧ (∀ row, probability (Ref.model row))
  ∧ ∃ r row,
      ref_analyze "http://" = (Result r, [row])
      ∧ features r !! "UrlLength" = Some (VInt 7)
      ∧ features r !! "NoHttps" = Some (VInt 1)
      ∧ features r !! "HostnameLength" = Some (VInt 0)
      ∧ features r !! "IsOfficialDomain" = Some (VInt 0)
      ∧ threats r = ["No HTTPS"].
Proof.
  assert (Ref.urlparse "http://"
          = Some {| scheme := "http"; netloc := ""; path := ""; params := "";
                    query := ""; fragment := "" |}) as Hp.
  { vm_compute. reflexivity. }
  assert (Ref.tldextract ""
          = {| subdomain := ""; domain := ""; suffix := "" |}) as Ht.
  { vm_compute. reflexivity. }
  split; [exact Hp|]. split; [exact Ht|].
  split; [exact ref_model_probability|].
  exact (proj1 (empty_host_is_analyzed Ref.model Ref.feature_names Hp Ht
                  ref_model_probability)).
Defined.

(** C9 fails as stated: [ebay.com] is official for [PhishingDetector] and
    not for [URLFeatureExtractor], and the two feature vectors of
    [http://ebay.com] differ at [IsOfficialDomain]. *)
Lemma extractors_disagree_on_ebay :
  PhishingDetector.is_official "ebay.com" = true
  ∧ URLFeatureExtractor.is_official_domain "ebay.com" = false
  ∧ ref_features "http://ebay.com" !! "IsOfficialDomain" = Some (VInt 1)
  ∧ ref_all_features "http://ebay.com" !! "IsOfficialDomain" = Some (VInt 0)
  ∧ ref_features "http://ebay.com" ≠ ref_all_features "http://ebay.com".
Proof.
  repeat split; try (vm_compute; reflexivity).
  intros Heq.
  apply (f_equal (λ m : gmap string value, m !! "IsOfficialDomain")) in Heq.
  vm_compute in Heq. discriminate.
Qed.

(** Witness of C9 as amended: the two copies on a URL whose host name
    is official for neither and carries no brand, and whose path has
    upper-case letters. *)
Lemma extractors_agree_up_to_domain_lists_witness :
  Ref.urlparse "http://example.com/Login/Index"
  = Some {| scheme := "http"; netloc := "example.com";
            path := "/Login/Index"; params := ""; query := "";
            fragment := "" |}
  ∧ PyStr.len (PyStr.lower "/Login/Index") = PyStr.len "/Login/Index"
  ∧ PhishingDetector.is_official "example.com"
    = URLFeatureExtractor.is_official_domain "example.com"
  ∧ PhishingDetector.check_brand_usage "example.com"
    = URLFeatureExtractor.check_brand_spoofing "example.com"
  ∧ ref_features "http://example.com/Login/Index"
    = ref_all_features "http://example.com/Login/Index".
Proof.
  assert (Ref.urlparse "http://example.com/Login/Index"
          = Some {| scheme := "http"; netloc := "example.com";
                    path := "/Login/Index"; params := ""; query := "";
                    fragment := "" |}) as Hp.
  { vm_compute. reflexivity. }
  assert (PhishingDetector.is_official "example.com"
          = URLFeatureExtractor.is_official_domain "example.com") as Hoff.
  { vm_compute. reflexivity. }
  assert (PhishingDetector.check_brand_usage "example.com"
          = URLFeatureExtractor.check_brand_spoofing "example.com")
    as Hbrand.
  { vm_compute. reflexivity. }
  split; [exact Hp|]. split; [reflexivity|].
  split; [exact Hoff|]. split; [exact Hbrand|].
  exact (proj2 (proj2 (proj2 (proj2
           (extractors_agree_up_to_domain_lists Ref.feature_names
              "http://example.com/Login/Index")) _ Hp))
           eq_refl Hoff Hbrand).
Defined.

(** C10 fails as stated: the input "[" starts with neither prefix and has
    no official host name, its normalised form is rejected by the parser,
    and [analyze] returns from the statistical branch without any threat
    indicator. *)
Lemma unparsable_input_has_no_threat :
  ¬ (PyStr.startswith "http://" "[" = false →
     PyStr.startswith "https://" "[" = false →
     (∀ parsed,
        Ref.urlparse (PhishingDetector.normalize "[") = Some parsed →
        PhishingDetector.is_official (PyStr.lower (netloc parsed)) = false) →
     ∃ r row rest,
       ref_analyze "[" = (Result r, [row])
       ∧ features r !! "NoHttps" = Some (VInt 1)
       ∧ threats r = "No HTTPS" :: rest).
Proof.
  intros Hclaim.
  destruct Hclaim as (r & row & rest & Heq & _ & Hthreats); [done|done| |].
  - intros parsed Hp. vm_compute in Hp. discriminate.
  - rewrite (proj2 open_bracket_run) in Heq.
    injection Heq as <- _. discriminate.
Qed.

(** Witness of C10 as amended. *)
Lemma schemeless_input_flags_no_https_witness :
  PyStr.startswith "http://" "paypal.evil-host.com" = false
  ∧ PyStr.startswith "https://" "paypal.evil-host.com" = false
  ∧ Ref.urlparse (PhishingDetector.normalize "paypal.evil-host.com")
    = Some {| scheme := "http"; netloc := "paypal.evil-host.com";
              path := ""; params := ""; query := ""; fragment := "" |}
  ∧ PhishingDetector.is_official "paypal.evil-host.com" = false
  ∧ (∀ row, probability (Ref.model row))
  ∧ ∃ r row rest,
      ref_analyze "paypal.evil-host.com" = (Result r, [row])
      ∧ features r !! "NoHttps" = Some (VInt 1)
      ∧ threats r = "No HTTPS" :: rest.
Proof.
  assert (Ref.urlparse (PhishingDetector.normalize "paypal.evil-host.com")
          = Some {| scheme := "http"; netloc := "paypal.evil-host.com";
                    path := ""; params := ""; query := "";
                    fragment := "" |}) as Hp.
  { vm_compute. reflexivity. }
  assert (PhishingDetector.is_official "paypal.evil-host.com" = false) as Hoff.
  { vm_compute. reflexivity. }
  split; [reflexivity|]. split; [reflexivity|].
  split; [exact Hp|]. split; [exact Hoff|].
  split; [exact ref_model_probability|].
  exact (schemeless_input_flags_no_https Ref.model Ref.feature_names
           "paypal.evil-host.com" _ urlparse_http_scheme
           ref_model_probability eq_refl eq_refl Hp Hoff).
Defined.

End Reference.

(** * Further properties of the code *)

(** ** Dictionaries, continued *)

Section MoreDictFacts.

Implicit Types (d : gmap string value) (kvs : list (string * value)).

(** The keys after an update: those before it and those it mentions. *)
Lemma update_is_Some_iff d kvs k :
  is_Some (update d kvs !! k) ↔ is_Some (d !! k) ∨ k ∈ kvs.*1.
Proof.
  revert d. induction kvs as [|[k' v'] kvs IH]; intros d.
  - cbn. split; [by left|]. intros [?|Hin]; [done|].
    by apply elem_of_nil in Hin.
  - rewrite update_cons, IH. cbn [fmap list_fmap fst].
    rewrite elem_of_cons.
    destruct (decide (k = k')) as [->|Hne].
    + rewrite lookup_insert_eq. split; [by right; left|].
      intros _. left. by eexists.
    + rewrite lookup_insert_ne by done. split.
      * intros [?|?]; [by left|by right; right].
      * intros [?|[?|?]]; [by left|done|by right].
Qed.

End MoreDictFacts.

(** ** The normalisation of the input *)

Section Normalisation.

(** A normalised URL carries its scheme. *)
Lemma normalize_prefixed url :
  PyStr.startswith "http://" (PhishingDetector.normalize url)
  || PyStr.startswith "https://" (PhishingDetector.normalize url) = true.
Proof.
  unfold PhishingDetector.normalize.
  destruct (PyStr.startswith "http://" url || PyStr.startswith "https://" url)
    eqn:Hpre; [done|].
  reflexivity.
Qed.

(** A URL that carries its scheme is left alone. *)
Lemma normalize_fixpoint url :
  PyStr.startswith "http://" url || PyStr.startswith "https://" url = true →
  PhishingDetector.normalize url = url.
Proof. intros Hpre. unfold PhishingDetector.normalize. by rewrite Hpre. Qed.

(** X1. The normalisation at the head of [analyze] leaves alone a URL
    that starts with [http://] or with [https://], and puts [http://]
    before any other input. So its result always starts with one of the
    two, normalising twice is normalising once, and [analyze] gives the
    same outcome, with the same rows scored, on an input and on its
    normalised form. *)
Theorem normalize_idempotent {libs : PyLibs} (model : Row → float)
    (feature_names : list string) url :
  (PyStr.startswith "http://" url = true
   ∨ PyStr.startswith "https://" url = true →
   PhishingDetector.normalize url = url)
  ∧ (PyStr.startswith "http://" url = false →
     PyStr.startswith "https://" url = false →
     PhishingDetector.normalize url = "http://" +:+ url)
  ∧ (PyStr.startswith "http://" (PhishingDetector.normalize url) = true
     ∨ PyStr.startswith "https://" (PhishingDetector.normalize url) = true)
  ∧ PhishingDetector.normalize (PhishingDetector.normalize url)
    = PhishingDetector.normalize url
  ∧ PhishingDetector.analyze model feature_names
      (PhishingDetector.normalize url)
    = PhishingDetector.analyze model feature_names url.
Proof.
  pose proof (normalize_prefixed url) as Hpre.
  split; [intros Hurl; by apply normalize_fixpoint, orb_true_iff|].
  split.
  { intros Hhttp Hhttps. unfold PhishingDetector.normalize.
    by rewrite Hhttp, Hhttps. }
  split; [by apply orb_true_iff|].
  split; [by apply normalize_fixpoint|].
  unfold PhishingDetector.analyze, PhishingDetector.analyze_body.
  by rewrite (normalize_fixpoint _ Hpre).
Qed.

End Normalisation.

(** ** When [analyze] fails, and what it does with a rejected URL *)

Section Errors.

Context {libs : PyLibs}.
Variable model : Row → float.
Variable feature_names : list string.
Hypothesis Hmodel : ∀ row, probability (model row).

Local Abbreviation analyze := (PhishingDetector.analyze model feature_names).

(** The row of the defaults. *)
Lemma zero_row names :
  schema_row names (zeros names) = map (λ name, (name, VInt 0)) names.
Proof.
  unfold schema_row. apply map_ext. intros name. by rewrite get0_zeros.
Qed.

(** [analyze] in closed form on a URL that the parser rejects. *)
Lemma analyze_rejected url :
  urlparse (PhishingDetector.normalize url) = None →
  analyze url =
    let row := map (λ name, (name, VInt 0)) feature_names in
    if bool_decide ("NoHttps" ∈ feature_names) then
      match int_of_float (model row * 100) [row] with
      | (inl e, _) => (Error e, [row])
      | (inr percent, _) =>
          (Result {| result := if (0.7 <? model row)%float
                               then Phishing else Legitimate;
                     confidence := Z.min 99 percent;
                     threats := [];
                     features := zeros feature_names |}, [row])
      end
    else (Error (KeyError "NoHttps"), [row]).
Proof.
  intros Hp. rewrite analyze_unfold. cbv zeta.
  rewrite (extract_features_failed _ _ Hp), get0_zeros, zero_row.
  cbn [truthy Z.eqb negb]. rewrite lookup_zeros.
  case_bool_decide as Hin.
  - rewrite decide_True by done.
    destruct (int_of_float _ _) as [[?|?] ?]; [done|].
    unfold threat_list. by rewrite !get0_zeros.
  - by rewrite decide_False by done.
Qed.

(** X2. With a classifier that returns probabilities, [analyze] returns
    an error in one case only: the parser rejects the normalised URL and
    the schema does not declare [NoHttps]. The error is then the
    [KeyError] of [features['NoHttps']], and it is raised after the
    classifier has scored the all-zero row. *)
Theorem analyze_error_iff url e calls :
  analyze url = (Error e, calls)
  ↔ e = KeyError "NoHttps"
    ∧ urlparse (PhishingDetector.normalize url) = None
    ∧ ("NoHttps" ∉ feature_names)
    ∧ calls = [map (λ name, (name, VInt 0)) feature_names].
Proof.
  destruct (urlparse (PhishingDetector.normalize url)) as [parsed|] eqn:Hp.
  - split; [|by intros (_ & ? & _)].
    rewrite analyze_unfold. cbv zeta. destruct (truthy _); [done|].
    rewrite (lookup_NoHttps _ _ _ Hp).
    edestruct int_of_probability_times_100 as (n & -> & _); [apply Hmodel|].
    done.
  - rewrite (analyze_rejected _ Hp). cbv zeta.
    case_bool_decide as Hin.
    + edestruct int_of_probability_times_100 as (n & -> & _); [apply Hmodel|].
      split; [done|]. by intros (_ & _ & ? & _).
    + split; [by intros [= <- <-]|]. by intros (-> & _ & _ & ->).
Qed.

(** X3. When the schema declares [NoHttps] and the classifier returns
    probabilities, [analyze] returns a result dictionary for every input:
    it carries the features extracted from the normalised URL, its
    confidence lies between 0 and 100, and the classifier was called at
    most once. *)
Theorem analyze_returns_result url :
  "NoHttps" ∈ feature_names →
  ∃ r calls,
    analyze url = (Result r, calls)
    ∧ features r = features_of feature_names url
    ∧ (length calls ≤ 1)%nat
    ∧ 0 ≤ confidence r ≤ 100.
Proof.
  intros Hin. rewrite analyze_unfold. cbv zeta.
  destruct (truthy _).
  { do 2 eexists. split; [done|]. cbn. split; [done|]. lia. }
  destruct (extract_features_schema feature_names
              (PhishingDetector.normalize url) "NoHttps" Hin) as [v ->].
  edestruct int_of_probability_times_100 as (n & -> & _ & Hn);
    [apply Hmodel|].
  do 2 eexists. split; [done|]. cbn. split; [done|]. lia.
Qed.

(** X4. When the parser rejects the normalised URL and [analyze] still
    returns a result, the features are the defaults, no threat is
    reported, and the verdict is the one the classifier gives to the
    all-zero row, which is the only row scored. *)
Theorem rejected_url_scored_on_zeros url r calls :
  urlparse (PhishingDetector.normalize url) = None →
  analyze url = (Result r, calls) →
  features r = zeros feature_names
  ∧ threats r = []
  ∧ calls = [map (λ name, (name, VInt 0)) feature_names]
  ∧ (result r = Phishing
     ↔ (0.7 <? model (map (λ name, (name, VInt 0)) feature_names))%float
       = true).
Proof.
  intros Hp. rewrite (analyze_rejected _ Hp). cbv zeta.
  case_bool_decide; [|done].
  destruct (int_of_float _ _) as [[?|?] ?]; [done|].
  intros [= <- <-]. cbn. repeat split; try done.
  - by destruct (0.7 <? _)%float.
  - by destruct (0.7 <? _)%float.
Qed.

End Errors.

(** ** The threat indicators in closed form *)

Section Threats.

Context {libs : PyLibs}.
Variable model : Row → float.
Variable feature_names : list string.

Local Abbreviation analyze := (PhishingDetector.analyze model feature_names).

(** X5. The threat indicators of a parsed URL, read off the URL: none
    for an official host; otherwise "No HTTPS" unless the scheme is
    [https], then the number of sensitive words when it exceeds 2, then
    "Brand spoofing detected" when the schema declares [BrandSpoofing] and
    the brand check flags the host, in this order. *)
Theorem threats_of_parsed_url url parsed r calls :
  urlparse (PhishingDetector.normalize url) = Some parsed →
  analyze url = (Result r, calls) →
  threats r =
    let host := PyStr.lower (netloc parsed) in
    let n := count_words PhishingDetector.sensitive_words
               (PyStr.lower (PhishingDetector.normalize url)) in
    if PhishingDetector.is_official host then []
    else (if String.eqb (scheme parsed) "https" then [] else ["No HTTPS"])
      ++ (if 2 <? n then [pretty n +:+ " sensitive words"] else [])
      ++ (if PyStr.in_list "BrandSpoofing" feature_names
             && truthy (PhishingDetector.check_brand_usage host)
          then ["Brand spoofing detected"] else []).
Proof.
  intros Hp. rewrite analyze_unfold. cbv zeta.
  unfold get0 at 1. rewrite (lookup_IsOfficialDomain _ _ _ Hp).
  rewrite (lookup_NoHttps _ _ _ Hp).
  destruct (PhishingDetector.is_official _) eqn:Hoff;
    cbn [default int_of_bool truthy Z.eqb negb].
  { by intros [= <- <-]. }
  destruct (int_of_float _ _) as [[?|?] ?]; [done|].
  intros [= <- <-]. cbn [threats]. unfold threat_list, get0.
  rewrite (lookup_NumSensitiveWords _ _ _ Hp),
    (lookup_BrandSpoofing _ _ _ Hp), Hoff.
  cbn [default gt_two format].
  f_equal; [by destruct (String.eqb _ _)|].
  f_equal. by destruct (PyStr.in_list _ _).
Qed.

End Threats.

(** ** Keys and ranges of the extracted features *)

Section Ranges.

Context {libs : PyLibs}.
Variable feature_names : list string.

(** Counts and lengths are not negative. *)
Lemma count_nonneg c s : 0 ≤ PyStr.count c s.
Proof.
  induction s as [|a s IH]; [done|]. cbn [PyStr.count].
  destruct (Ascii.eqb a c); lia.
Qed.

Lemma count_digits_nonneg s : 0 ≤ PyStr.count_digits s.
Proof.
  induction s as [|a s IH]; [done|]. cbn [PyStr.count_digits].
  destruct (PyStr.isdigit a); lia.
Qed.

Lemma len_nonneg s : 0 ≤ PyStr.len s.
Proof. unfold PyStr.len. lia. Qed.

(** At most every word of the list occurs. *)
Lemma count_words_bounds words text :
  0 ≤ count_words words text ≤ Z.of_nat (length words).
Proof.
  induction words as [|w ws IH]; [done|].
  cbn [count_words foldr length]. fold (count_words ws text).
  destruct (PyStr.contains w text); lia.
Qed.

(** Both brand checks answer 0 or 1. *)
Lemma check_brand_usage_flag hostname :
  PhishingDetector.check_brand_usage hostname = VInt 0
  ∨ PhishingDetector.check_brand_usage hostname = VInt 1.
Proof.
  unfold PhishingDetector.check_brand_usage.
  destruct (PhishingDetector.is_official _); [by left|].
  destruct (existsb _ _); [by right|by left].
Qed.

Lemma check_brand_spoofing_flag hostname :
  URLFeatureExtractor.check_brand_spoofing hostname = VInt 0
  ∨ URLFeatureExtractor.check_brand_spoofing hostname = VInt 1.
Proof.
  unfold URLFeatureExtractor.check_brand_spoofing.
  destruct (URLFeatureExtractor.is_official_domain _); [by left|].
  destruct (existsb _ _); [by right|by left].
Qed.

Lemma int_of_bool_flag b : int_of_bool b = VInt 0 ∨ int_of_bool b = VInt 1.
Proof. destruct b; [by right|by left]. Qed.

Lemma in_range_zero name : in_range name (VInt 0).
Proof.
  split; [by left|]. split; intros _; by exists 0.
Qed.

(** Refutes the membership of a name in a list written out in full. *)
Ltac not_listed H :=
  exfalso; apply in_list_spec in H; vm_compute in H; discriminate H.

(** Settles [in_range] for an entry whose value is a count, a length or
    the integer of a truth value. *)
Ltac range_item :=
  split; [|split];
  [ first [ intros _; first [ apply int_of_bool_flag | by left ]
          | intros Hin; not_listed Hin ]
  | first [ intros _; eexists; split; [reflexivity|];
            first [ apply count_nonneg | apply count_digits_nonneg
                  | apply len_nonneg | lia ]
          | intros Hin; not_listed Hin ]
  | first [ intros Hname; discriminate Hname | idtac ] ].

(** Every entry of the dictionary of the [try] block is in range, in
    both extractors. *)
Lemma computed_features_in_range url kvs :
  PhishingDetector.computed_features feature_names url = Some kvs →
  Forall (λ kv, in_range kv.1 kv.2) kvs.
Proof.
  unfold PhishingDetector.computed_features.
  destruct (urlparse url) as [parsed|]; [|done].
  pose proof (count_words_bounds PhishingDetector.sensitive_words
                (PyStr.lower url)) as Hwords.
  change (Z.of_nat (length PhishingDetector.sensitive_words)) with 10
    in Hwords.
  set (n := count_words _ _) in *. clearbody n.
  change (Some parsed ≫= ?f) with (f parsed). cbv beta. intros [= <-].
  repeat (apply Forall_cons_2; [cbn [fst snd]; try range_item|]);
    [..|apply Forall_nil_2].
  - split; [intros Hin; not_listed Hin|]. split; [|done].
    intros _. eexists. split; [done|].
    pose proof (count_nonneg "." (subdomain (tldextract url))). lia.
  - split; [|split; [intros Hin; not_listed Hin|done]].
    intros _. destruct (PyStr.in_list _ _); [|by left].
    apply check_brand_usage_flag.
  - split; [intros Hin; not_listed Hin|].
    destruct (PhishingDetector.is_official _).
    + split; intros _; by exists 0.
    + split; intros _; exists n; split; (done || lia).
Qed.

Lemma computed_all_features_in_range url kvs :
  URLFeatureExtractor.computed_features url = Some kvs →
  Forall (λ kv, in_range kv.1 kv.2) kvs.
Proof.
  unfold URLFeatureExtractor.computed_features.
  destruct (urlparse url) as [parsed|]; [|done].
  pose proof (count_words_bounds URLFeatureExtractor.sensitive_words
                (PyStr.lower url)) as Hwords.
  change (Z.of_nat (length URLFeatureExtractor.sensitive_words)) with 10
    in Hwords.
  set (n := count_words _ _) in *. clearbody n.
  change (Some parsed ≫= ?f) with (f parsed). cbv beta. intros [= <-].
  repeat (apply Forall_cons_2; [cbn [fst snd]; try range_item|]);
    [..|apply Forall_nil_2].
  - split; [intros Hin; not_listed Hin|]. split; [|done].
    intros _. eexists. split; [done|].
    pose proof (count_nonneg "." (subdomain (tldextract url))). lia.
  - split; [|split; [intros Hin; not_listed Hin|done]].
    intros _. destruct (URLFeatureExtractor.is_official_domain _); [by left|].
    apply check_brand_spoofing_flag.
  - split; [intros Hin; not_listed Hin|].
    destruct (URLFeatureExtractor.is_official_domain _).
    + split; intros _; by exists 0.
    + split; intros _; exists n; split; (done || lia).
Qed.

(** The copy computes the same names. *)
Lemma computed_all_features_names url kvs :
  URLFeatureExtractor.computed_features url = Some kvs →
  kvs.*1 = computed_names.
Proof.
  unfold URLFeatureExtractor.computed_features.
  destruct (urlparse url); [|done]. by intros [= <-].
Qed.

(** Overlaying the defaults with values in range gives values in range. *)
Lemma update_zeros_in_range names kvs name :
  NoDup kvs.*1 → Forall (λ kv, in_range kv.1 kv.2) kvs →
  in_range name (get0 (update (zeros names) kvs) name).
Proof.
  intros Hnd Hall. unfold get0.
  destruct (decide (name ∈ kvs.*1)) as [Hin|Hnin].
  - apply list_elem_of_fmap in Hin as ([k v] & -> & Hin).
    rewrite (lookup_update_in _ _ _ _ Hnd Hin). cbn [default].
    by apply (proj1 (Forall_forall _ _) Hall (k, v)).
  - rewrite lookup_update_notin by done. fold (get0 (zeros names) name).
    rewrite get0_zeros. apply in_range_zero.
Qed.

(** So every value returned by either extractor is in range. *)
Lemma extract_features_in_range url name :
  in_range name
    (get0 (PhishingDetector.extract_features feature_names url) name).
Proof.
  unfold PhishingDetector.extract_features,
    PhishingDetector.default_features.
  destruct (PhishingDetector.computed_features _ _) as [kvs|] eqn:Hkvs.
  - apply update_zeros_in_range.
    + rewrite (computed_features_names _ _ _ Hkvs).
      apply NoDup_computed_names.
    + by apply computed_features_in_range with url.
  - rewrite get0_zeros. apply in_range_zero.
Qed.

Lemma extract_all_features_in_range url name :
  in_range name
    (get0 (URLFeatureExtractor.extract_all_features feature_names url) name).
Proof.
  unfold URLFeatureExtractor.extract_all_features.
  destruct (URLFeatureExtractor.computed_features _) as [kvs|] eqn:Hkvs.
  - apply update_zeros_in_range.
    + rewrite (computed_all_features_names _ _ Hkvs).
      apply NoDup_computed_names.
    + by apply computed_all_features_in_range with url.
  - rewrite get0_zeros. apply in_range_zero.
Qed.

(** X7. Whatever the URL, in both extractors each of the nine flags is
    0 or 1, each of the fifteen counts and lengths is a non-negative
    integer, and [NumSensitiveWords] is at most 10, the number of
    configured words. *)
Theorem feature_values_in_range url name :
  let v := get0 (PhishingDetector.extract_features feature_names url) name in
  let v' :=
    get0 (URLFeatureExtractor.extract_all_features feature_names url) name in
  (name ∈ flag_names → (v = VInt 0 ∨ v = VInt 1) ∧ (v' = VInt 0 ∨ v' = VInt 1))
  ∧ (name ∈ count_names →
     (∃ n, v = VInt n ∧ 0 ≤ n) ∧ (∃ n, v' = VInt n ∧ 0 ≤ n))
  ∧ (name = "NumSensitiveWords" →
     (∃ n, v = VInt n ∧ 0 ≤ n ≤ 10) ∧ (∃ n, v' = VInt n ∧ 0 ≤ n ≤ 10)).
Proof.
  intros v v'.
  destruct (extract_features_in_range url name) as (Hflag & Hcount & Hwords).
  destruct (extract_all_features_in_range url name)
    as (Hflag' & Hcount' & Hwords').
  fold v in Hflag, Hcount, Hwords. fold v' in Hflag', Hcount', Hwords'.
  split; [intros Hin; split; auto|].
  split; [intros Hin; split; auto|].
  intros ->.
  assert ("NumSensitiveWords" ∈ count_names) as Hin.
  { apply in_list_spec. vm_compute. reflexivity. }
  destruct (Hcount Hin) as (n & Hn & Hn0), (Hwords eq_refl) as (m & Hm & Hm10).
  destruct (Hcount' Hin) as (n' & Hn' & Hn0'),
    (Hwords' eq_refl) as (m' & Hm' & Hm10').
  split.
  - exists n. split; [done|]. rewrite Hn in Hm. injection Hm as ->. lia.
  - exists n'. split; [done|]. rewrite Hn' in Hm'. injection Hm' as ->. lia.
Qed.

(** X6. The keys of the dictionary returned by either extractor are the
    names of the schema, together with the twenty-seven computed names
    when the parser accepted the URL. A computed name that the schema
    lacks is still present then, and is absent when the parser failed. *)
Theorem extracted_key_set url name :
  (is_Some (PhishingDetector.extract_features feature_names url !! name)
   ↔ name ∈ feature_names ∨ (is_Some (urlparse url) ∧ name ∈ computed_names))
  ∧ (is_Some (URLFeatureExtractor.extract_all_features feature_names url
                !! name)
     ↔ name ∈ feature_names
       ∨ (is_Some (urlparse url) ∧ name ∈ computed_names)).
Proof.
  assert (is_Some (zeros feature_names !! name) ↔ name ∈ feature_names)
    as Hzeros.
  { rewrite lookup_zeros.
    destruct (decide (name ∈ feature_names)); split; done. }
  unfold PhishingDetector.extract_features,
    PhishingDetector.default_features,
    URLFeatureExtractor.extract_all_features.
  split.
  - destruct (PhishingDetector.computed_features _ _) as [kvs|] eqn:Hkvs.
    + rewrite update_is_Some_iff, Hzeros,
        (computed_features_names _ _ _ Hkvs).
      unfold PhishingDetector.computed_features in Hkvs.
      destruct (urlparse url); [|done].
      split; (intros [?|?]; [by left|right]); [done|tauto].
    + rewrite Hzeros. unfold PhishingDetector.computed_features in Hkvs.
      destruct (urlparse url); [done|].
      split; [by left|]. intros [?|[[? ?] _]]; done.
  - destruct (URLFeatureExtractor.computed_features _) as [kvs|] eqn:Hkvs.
    + rewrite update_is_Some_iff, Hzeros,
        (computed_all_features_names _ _ Hkvs).
      unfold URLFeatureExtractor.computed_features in Hkvs.
      destruct (urlparse url); [|done].
      split; (intros [?|?]; [by left|right]); [done|tauto].
    + rewrite Hzeros. unfold URLFeatureExtractor.computed_features in Hkvs.
      destruct (urlparse url); [done|].
      split; [by left|]. intros [?|[[? ?] _]]; done.
Qed.

End Ranges.

Section CharacterCounts.

Context {libs : PyLibs}.
Variable feature_names : list string.

(** A character falls in at most one of the classes that are counted. *)
Lemma counted_classes_disjoint (a : ascii) :
  (if Ascii.eqb a "." then 1 else 0) + (if Ascii.eqb a "-" then 1 else 0)
  + (if Ascii.eqb a "_" then 1 else 0) + (if Ascii.eqb a "%" then 1 else 0)
  + (if Ascii.eqb a "&" then 1 else 0) + (if Ascii.eqb a "#" then 1 else 0)
  + (if PyStr.isdigit a then 1 else 0)
  + (if Ascii.eqb a "@" then 1 else 0) + (if Ascii.eqb a "~" then 1 else 0)
  ≤ 1.
Proof. destruct a as [[] [] [] [] [] [] [] []]; vm_compute; discriminate. Qed.

(** So the counts of a string add up to at most its length. *)
Lemma counted_characters_le_len s :
  PyStr.count "." s + PyStr.count "-" s + PyStr.count "_" s
  + PyStr.count "%" s + PyStr.count "&" s + PyStr.count "#" s
  + PyStr.count_digits s
  + (if PyStr.has_char "@" s then 1 else 0)
  + (if PyStr.has_char "~" s then 1 else 0)
  ≤ PyStr.len s.
Proof.
  induction s as [|a s IH]; [done|].
  unfold PyStr.len in *. cbn [String.length]. rewrite Nat2Z.inj_succ.
  cbn [PyStr.count PyStr.count_digits PyStr.has_char].
  pose proof (counted_classes_disjoint a) as Ha.
  destruct (Ascii.eqb a "@"), (Ascii.eqb a "~"),
    (PyStr.has_char "@" s), (PyStr.has_char "~" s); cbn [orb]; lia.
Qed.

(** X8. The characters counted by the extractor are counted once: the
    dots, dashes, underscores, percent signs, ampersands, hashes and
    digits, plus the two flags for an at sign and a tilde, add up to at
    most [UrlLength]. *)
Theorem counted_characters_fit_in_url url :
  let fs := PhishingDetector.extract_features feature_names url in
  ∃ dots dashes underscores percents ampersands hashes digits at_sign tilde
    len,
    get0 fs "NumDots" = VInt dots
    ∧ get0 fs "NumDash" = VInt dashes
    ∧ get0 fs "NumUnderscore" = VInt underscores
    ∧ get0 fs "NumPercent" = VInt percents
    ∧ get0 fs "NumAmpersand" = VInt ampersands
    ∧ get0 fs "NumHash" = VInt hashes
    ∧ get0 fs "NumNumericChars" = VInt digits
    ∧ get0 fs "AtSymbol" = VInt at_sign
    ∧ get0 fs "TildeSymbol" = VInt tilde
    ∧ get0 fs "UrlLength" = VInt len
    ∧ dots + dashes + underscores + percents + ampersands + hashes + digits
      + at_sign + tilde ≤ len.
Proof.
  intros fs. subst fs.
  destruct (PhishingDetector.computed_features feature_names url)
    as [kvs|] eqn:Hkvs.
  - pose proof Hkvs as Hlist.
    unfold PhishingDetector.computed_features in Hlist.
    destruct (urlparse url) as [parsed|]; [|done].
    change (Some parsed ≫= ?f) with (f parsed) in Hlist. cbv beta in Hlist.
    injection Hlist as Hlist.
    exists (PyStr.count "." url), (PyStr.count "-" url),
      (PyStr.count "_" url), (PyStr.count "%" url), (PyStr.count "&" url),
      (PyStr.count "#" url), (PyStr.count_digits url),
      (if PyStr.has_char "@" url then 1 else 0),
      (if PyStr.has_char "~" url then 1 else 0), (PyStr.len url).
    unfold get0.
    repeat (split;
      [erewrite (extract_features_computed _ _ _ _ _ Hkvs);
         [reflexivity|rewrite <- Hlist; find_item]|]).
    apply counted_characters_le_len.
  - unfold PhishingDetector.extract_features. rewrite Hkvs.
    unfold PhishingDetector.default_features.
    exists 0, 0, 0, 0, 0, 0, 0, 0, 0, 0. rewrite !get0_zeros. repeat split.
    done.
Qed.

End CharacterCounts.

Section SchemelessInput.

Context {libs : PyLibs}.
Variable names : list string.

(** X20. For an input typed without its scheme, the prefix that
    [analyze] adds moves [UrlLength] by 7 and leaves the other character
    features at their values on the input as typed: the dots, dashes,
    underscores, percent signs, ampersands, hashes and digits, and the
    flags for an at sign and a tilde. *)
Theorem schemeless_input_counts url parsed :
  PyStr.startswith "http://" url = false →
  PyStr.startswith "https://" url = false →
  urlparse (PhishingDetector.normalize url) = Some parsed →
  let fs := features_of names url in
  fs !! "UrlLength" = Some (VInt (PyStr.len url + 7))
  ∧ fs !! "NumDots" = Some (VInt (PyStr.count "." url))
  ∧ fs !! "NumDash" = Some (VInt (PyStr.count "-" url))
  ∧ fs !! "NumUnderscore" = Some (VInt (PyStr.count "_" url))
  ∧ fs !! "NumPercent" = Some (VInt (PyStr.count "%" url))
  ∧ fs !! "NumAmpersand" = Some (VInt (PyStr.count "&" url))
  ∧ fs !! "NumHash" = Some (VInt (PyStr.count "#" url))
  ∧ fs !! "NumNumericChars" = Some (VInt (PyStr.count_digits url))
  ∧ fs !! "AtSymbol" = Some (int_of_bool (PyStr.has_char "@" url))
  ∧ fs !! "TildeSymbol" = Some (int_of_bool (PyStr.has_char "~" url)).
Proof.
  intros Hhttp Hhttps. unfold PhishingDetector.normalize.
  rewrite Hhttp, Hhttps. cbn [orb]. intros Hp. cbv zeta.
  assert (PhishingDetector.computed_features names ("http://" +:+ url)
          = PhishingDetector.computed_features names ("http://" +:+ url))
    as Hkvs by done.
  unfold PhishingDetector.computed_features at 2 in Hkvs.
  rewrite Hp in Hkvs. change (Some parsed ≫= ?f) with (f parsed) in Hkvs.
  cbv beta zeta in Hkvs.
  repeat split.
  all: erewrite extract_features_computed; [|exact Hkvs|find_item].
  all: clear Hkvs; f_equal.
  f_equal. unfold PyStr.len. simpl String.length.
  change ("" +:+ url) with url. lia.
Qed.

End SchemelessInput.

(** ** The pipeline of [phishdetect_fixed.py] next to [analyze] *)

Section OfficialLists.

Context {libs : PyLibs}.

(** The official domains of [phishdetect_fixed.py] are official for
    [phishdetect.py]. *)
Lemma official_lists_nested :
  URLFeatureExtractor.official_domains ⊆ PhishingDetector.official_domains.
Proof.
  intros h Hh. apply in_list_spec. apply in_list_spec in Hh.
  unfold PyStr.in_list in Hh.
  repeat (apply orb_prop in Hh as [Hh|Hh];
          [apply String.eqb_eq in Hh as ->; vm_compute; reflexivity|]).
  done.
Qed.

End OfficialLists.

Section FixedPipeline.

Context {libs : PyLibs}.
Variable model : Row → float.
Variable names : list string.

Local Abbreviation analyze := (PhishingDetector.analyze model names).
Local Abbreviation predict_phishing :=
  (URLFeatureExtractor.predict_phishing model names).
Local Abbreviation extract_all_features :=
  (URLFeatureExtractor.extract_all_features names).

(** A computed feature of the copy holds the value given in the
    dictionary of its [try] block. *)
Lemma extract_all_features_computed url kvs name v :
  URLFeatureExtractor.computed_features url = Some kvs → (name, v) ∈ kvs →
  extract_all_features url !! name = Some v.
Proof.
  intros Hkvs Hin. unfold URLFeatureExtractor.extract_all_features.
  rewrite Hkvs. apply lookup_update_in; [|done].
  unfold URLFeatureExtractor.computed_features in Hkvs.
  destruct (urlparse url); [|done]. injection Hkvs as <-.
  apply NoDup_computed_names.
Qed.

(** When the [try] block of the copy raises, the defaults come back. *)
Lemma extract_all_features_failed url :
  urlparse url = None → extract_all_features url = zeros names.
Proof.
  intros Hp. unfold URLFeatureExtractor.extract_all_features,
    URLFeatureExtractor.computed_features. by rewrite Hp.
Qed.

(** The copy sets [IsOfficialDomain] exactly for a host name that is
    listed as it stands. *)
Lemma fixed_override_iff url :
  truthy (get0 (extract_all_features url) "IsOfficialDomain") = true
  ↔ ∃ parsed, urlparse url = Some parsed
      ∧ PyStr.lower (netloc parsed) ∈ URLFeatureExtractor.official_domains.
Proof.
  destruct (urlparse url) as [parsed|] eqn:Hp.
  - unfold get0.
    erewrite extract_all_features_computed; cycle 1.
    { unfold URLFeatureExtractor.computed_features. by rewrite Hp. }
    { find_item. }
    cbn [default]. unfold URLFeatureExtractor.is_official_domain.
    rewrite lower_idemp. split.
    + intros Ht. exists parsed. split; [done|]. apply in_list_spec.
      by destruct (PyStr.in_list _ _).
    + intros (? & [= <-] & Hin). apply in_list_spec in Hin. by rewrite Hin.
  - rewrite (extract_all_features_failed _ Hp), get0_zeros. cbn.
    split; [done|]. by intros (? & ? & _).
Qed.

(** X9. [predict_phishing] returns without calling the classifier
    exactly when the parser accepts the URL and the lower-cased host name
    is itself on the list of official domains of the copy. *)
Theorem fixed_copy_overrides_listed_hosts_only url :
  (∃ r, predict_phishing url = (Result r, []))
  ↔ ∃ parsed, urlparse url = Some parsed
      ∧ PyStr.lower (netloc parsed) ∈ URLFeatureExtractor.official_domains.
Proof.
  rewrite <- fixed_override_iff, predict_phishing_unfold. cbv zeta.
  destruct (truthy _).
  - split; [done|]. intros _. by eexists.
  - split; [|done]. intros [r Hr].
    by destruct (int_of_float _ _) as [[?|?] ?].
Qed.

(** X10. On a URL that already carries its scheme, whenever
    [predict_phishing] takes the override branch so does [analyze], which
    then returns Legitimate with confidence 100, no threat and no call to
    the classifier: the official list of the copy is part of the list of
    [PhishingDetector]. *)
Theorem fixed_override_implies_override url r :
  PhishingDetector.normalize url = url →
  predict_phishing url = (Result r, []) →
  analyze url
  = (Result {| result := Legitimate; confidence := 100; threats := [];
               features := PhishingDetector.extract_features names url |},
     []).
Proof.
  intros Hnorm Hr.
  pose proof (predict_phishing_calls model names url) as Hcalls.
  rewrite Hr in Hcalls. cbn [snd] in Hcalls.
  destruct (truthy _) eqn:Ht in Hcalls; [|done].
  apply fixed_override_iff in Ht as (parsed & Hp & Hin).
  rewrite analyze_unfold. cbv zeta. rewrite Hnorm.
  unfold get0. rewrite (lookup_IsOfficialDomain _ _ _ Hp).
  assert (PhishingDetector.is_official (PyStr.lower (netloc parsed)) = true)
    as ->; [|done].
  unfold PhishingDetector.is_official. rewrite lower_idemp.
  apply orb_true_iff. right. apply in_list_spec.
  by apply official_lists_nested.
Qed.

(** X11. The threat indicators that [predict_phishing] reports for a
    parsed URL: none when the host name is listed as it stands; otherwise
    "No HTTPS" unless the scheme is [https], the number of sensitive words
    when it exceeds 2, and "Brand spoofing detected" when the brand check
    of the copy flags the host, whatever the schema declares. *)
Theorem fixed_threats_of_parsed_url url parsed r calls :
  urlparse url = Some parsed →
  predict_phishing url = (Result r, calls) →
  URLFeatureExtractor.threat_indicators r =
    let host := PyStr.lower (netloc parsed) in
    let n := count_words URLFeatureExtractor.sensitive_words
               (PyStr.lower url) in
    if PyStr.in_list host URLFeatureExtractor.official_domains then []
    else (if String.eqb (scheme parsed) "https" then [] else ["No HTTPS"])
      ++ (if 2 <? n then [pretty n +:+ " sensitive words"] else [])
      ++ (if truthy (URLFeatureExtractor.check_brand_spoofing host)
          then ["Brand spoofing detected"] else []).
Proof.
  intros Hp.
  assert (URLFeatureExtractor.computed_features url
          = URLFeatureExtractor.computed_features url) as Hkvs by done.
  unfold URLFeatureExtractor.computed_features at 2 in Hkvs.
  rewrite Hp in Hkvs. change (Some parsed ≫= ?f) with (f parsed) in Hkvs.
  cbv beta zeta in Hkvs.
  rewrite predict_phishing_unfold. cbv zeta. unfold threat_list, get0.
  do 4 (erewrite extract_all_features_computed; [|exact Hkvs|find_item]).
  unfold URLFeatureExtractor.is_official_domain. rewrite lower_idemp.
  destruct (PyStr.in_list _ _) eqn:Hoff;
    cbn [default int_of_bool truthy Z.eqb negb].
  { by intros [= <- <-]. }
  destruct (int_of_float _ _) as [[?|?] ?]; [done|].
  intros [= <- <-].
  cbn [URLFeatureExtractor.threat_indicators gt_two format].
  clear Hkvs. destruct (String.eqb (scheme parsed) "https"); reflexivity.
Qed.

Section WithProbability.

Hypothesis Hmodel : ∀ row, probability (model row).

(** X12. Once the model and the schema are loaded, and with a classifier
    that returns probabilities, [predict_phishing] returns a result
    dictionary for every URL and every schema: it reads [NoHttps] with a
    default, so a schema without that column raises nothing. The
    confidence lies between 0 and 100 and the classifier is called at most
    once. *)
Theorem predict_phishing_returns_result url :
  ∃ r calls,
    predict_phishing url = (Result r, calls)
    ∧ URLFeatureExtractor.features r = extract_all_features url
    ∧ (length calls ≤ 1)%nat
    ∧ 0 ≤ URLFeatureExtractor.confidence r ≤ 100.
Proof.
  rewrite predict_phishing_unfold. cbv zeta.
  destruct (truthy _).
  - do 2 eexists. split; [done|]. cbn. split; [done|]. lia.
  - edestruct int_of_probability_times_100 as (n & -> & _ & Hn);
      [apply Hmodel|].
    do 2 eexists. split; [done|]. cbn. split; [done|]. lia.
Qed.

End WithProbability.

(** X13. On a URL that already carries its scheme, whenever the two
    extractors return the same features, and provided the parser accepts
    the URL or the schema declares [NoHttps], [predict_phishing] and
    [analyze] score the same rows and either both fail with the same
    exception or both return a dictionary: the two dictionaries hold the
    same verdict, confidence and features, and the list stored under
    ["threat_indicators"] in the one is the list stored under ["threats"]
    in the other. *)
Theorem pipelines_agree_on_equal_features url :
  PhishingDetector.normalize url = url →
  extract_all_features url = PhishingDetector.extract_features names url →
  is_Some (urlparse url) ∨ "NoHttps" ∈ names →
  (predict_phishing url).2 = (analyze url).2
  ∧ match (predict_phishing url).1, (analyze url).1 with
    | Result p, Result r =>
        URLFeatureExtractor.result p = result r
        ∧ URLFeatureExtractor.confidence p = confidence r
        ∧ URLFeatureExtractor.threat_indicators p = threats r
        ∧ URLFeatureExtractor.features p = features r
    | Error e', Error e => e' = e
    | _, _ => False
    end.
Proof.
  intros Hnorm Hfs Hkey.
  rewrite predict_phishing_unfold, analyze_unfold. cbv zeta.
  rewrite Hnorm, Hfs.
  set (fs := PhishingDetector.extract_features names url).
  assert (is_Some (fs !! "NoHttps")) as [v Hv].
  { destruct Hkey as [[parsed Hp]|Hin].
    - subst fs. rewrite (lookup_NoHttps _ _ _ Hp). by eexists.
    - by apply extract_features_schema. }
  assert (get0 fs "NoHttps" = v) as Hget by (unfold get0; by rewrite Hv).
  rewrite Hv, Hget. destruct (truthy _); [done|].
  by destruct (int_of_float _ _) as [[?|?] ?].
Qed.

End FixedPipeline.

Section BrandChecks.

Context {libs : PyLibs}.

(** The brands of [phishdetect_fixed.py] are known to
    [phishdetect.py]. *)
Lemma brand_names_known :
  URLFeatureExtractor.brand_names ⊆ PhishingDetector.known_brands.
Proof.
  intros b Hb. apply in_list_spec. apply in_list_spec in Hb.
  unfold PyStr.in_list in Hb.
  repeat (apply orb_prop in Hb as [Hb|Hb];
          [apply String.eqb_eq in Hb as ->; vm_compute; reflexivity|]).
  done.
Qed.

(** X19. On a host name that [PhishingDetector] does not hold official,
    whatever the brand check of [phishdetect_fixed.py] flags is flagged
    by [check_brand_usage] too: the five brands of the copy are among the
    ten known brands, and the test on a brand is the same. *)
Theorem fixed_brand_flag_implies_flag hostname :
  PhishingDetector.is_official hostname = false →
  URLFeatureExtractor.check_brand_spoofing hostname = VInt 1 →
  PhishingDetector.check_brand_usage hostname = VInt 1.
Proof.
  intros Hoff. unfold URLFeatureExtractor.check_brand_spoofing,
    PhishingDetector.check_brand_usage. rewrite Hoff.
  destruct (URLFeatureExtractor.is_official_domain hostname); [done|].
  destruct (existsb _ URLFeatureExtractor.brand_names) eqn:Hex; [|done].
  intros _. apply existsb_exists in Hex as (brand & Hin & Hbrand).
  assert (existsb
            (λ brand, PyStr.contains brand (PyStr.lower hostname)
                      && negb (PyStr.contains brand
                                 (PhishingDetector.registrable
                                    (tldextract (PyStr.lower hostname)))))
            PhishingDetector.known_brands = true) as ->; [|done].
  apply existsb_exists. exists brand. split; [|exact Hbrand].
  apply list_elem_of_In, brand_names_known. by apply list_elem_of_In.
Qed.

End BrandChecks.

(** ** The two regular expressions and the substring tests *)

Section Regex.

Implicit Types (s t : string) (c : ascii).

(** The state of the search after [run] characters of the class: a run is
    completed ahead exactly when the next [need - run] characters are in
    the class, or a whole run of [need] starts further on. *)
Lemma hex_run_sound need s : ∀ run,
  (run < need)%nat →
  PyRe.hex_run need run s = true →
  (∃ a b, s = a +:+ b ∧ String.length a = (need - run)%nat
          ∧ PyStr.all PyRe.hex_lower a = true)
  ∨ (∃ pre a post, s = pre +:+ a +:+ post ∧ String.length a = need
                   ∧ PyStr.all PyRe.hex_lower a = true).
Proof.
  induction s as [|c s IH]; intros run Hlt; [done|].
  cbn [PyRe.hex_run]. destruct (PyRe.hex_lower c) eqn:Hc.
  - destruct (Nat.eqb (S run) need) eqn:Hn.
    + intros _. apply Nat.eqb_eq in Hn. left.
      exists (String c ""), s. split; [done|]. split; [cbn; lia|].
      cbn. by rewrite Hc.
    + apply Nat.eqb_neq in Hn. intros Hr.
      apply IH in Hr as [(a & b & -> & Hlen & Hall)
                        |(pre & a & post & -> & Hlen & Hall)]; [| |lia].
      * left. exists (String c a), b. split; [done|].
        split; [cbn; lia|]. cbn. by rewrite Hc.
      * right. by exists (String c pre), a, post.
  - intros Hr.
    apply IH in Hr as [(a & b & -> & Hlen & Hall)
                      |(pre & a & post & -> & Hlen & Hall)]; [| |lia].
    + right. exists (String c ""), a, b. split; [done|].
      split; [lia|done].
    + right. by exists (String c pre), a, post.
Qed.

(** Enough characters of the class ahead complete the run. *)
Lemma hex_run_prefix need s : ∀ run a b,
  (run < need)%nat →
  s = a +:+ b → (need - run ≤ String.length a)%nat →
  PyStr.all PyRe.hex_lower a = true →
  PyRe.hex_run need run s = true.
Proof.
  induction s as [|c s IH]; intros run a b Hlt Hs Hlen Hall.
  - destruct a; [cbn in Hlen; lia|done].
  - destruct a as [|c' a]; [cbn in Hlen; lia|].
    injection Hs as <- ->. cbn in Hall.
    apply andb_true_iff in Hall as [Hc Hall].
    cbn [PyRe.hex_run]. rewrite Hc.
    destruct (Nat.eqb (S run) need) eqn:Hn; [done|].
    apply Nat.eqb_neq in Hn.
    apply (IH (S run) a b); [lia|done|cbn in Hlen; lia|done].
Qed.

(** A whole run further on is found whatever the state. *)
Lemma hex_run_complete need s : ∀ run pre a post,
  (run < need)%nat →
  s = pre +:+ a +:+ post → String.length a = need →
  PyStr.all PyRe.hex_lower a = true →
  PyRe.hex_run need run s = true.
Proof.
  induction s as [|c s IH]; intros run pre a post Hlt Hs Hlen Hall.
  - destruct pre; [|done]. destruct a; [cbn in Hlen; lia|done].
  - destruct pre as [|c' pre].
    + apply (hex_run_prefix need _ run a post); [done|done|lia|done].
    + injection Hs as <- ->. cbn [PyRe.hex_run].
      destruct (PyRe.hex_lower c).
      * destruct (Nat.eqb (S run) need) eqn:Hn; [done|].
        apply Nat.eqb_neq in Hn.
        apply (IH (S run) pre a post); [lia|done..].
      * apply (IH 0%nat pre a post); [lia|done..].
Qed.

(** [re.search(r'[0-9a-f]{8}', s)] finds a match exactly when [s] has
    eight consecutive characters of the class. *)
Lemma search_hex8_spec s :
  PyRe.search_hex8 s = true
  ↔ ∃ pre a post, s = pre +:+ a +:+ post ∧ String.length a = 8%nat
                  ∧ PyStr.all PyRe.hex_lower a = true.
Proof.
  unfold PyRe.search_hex8. split.
  - intros Hr.
    apply hex_run_sound in Hr as [(a & b & -> & Hlen & Hall)|Hsub];
      [|done|lia].
    by exists "", a, b.
  - intros (pre & a & post & Hs & Hlen & Hall).
    by apply (hex_run_complete 8 s 0 pre a post); [lia|..].
Qed.

(** ** Dotted quad *)

(** What [skip_digits] drops is a run of digits. *)
Lemma skip_digits_suffix s :
  ∃ d, s = d +:+ PyRe.skip_digits s ∧ PyStr.all PyStr.isdigit d = true.
Proof.
  induction s as [|c s (d & IH & Hall)]; [by exists ""|].
  cbn [PyRe.skip_digits]. destruct (PyStr.isdigit c) eqn:Hc.
  - exists (String c d). split; [exact (f_equal (String c) IH)|].
    cbn. by rewrite Hc.
  - by exists "".
Qed.

(** [\d+] consumes a non-empty run of digits. *)
Lemma digits1_sound s r :
  PyRe.digits1 s = Some r →
  ∃ d, s = d +:+ r ∧ d ≠ "" ∧ PyStr.all PyStr.isdigit d = true.
Proof.
  destruct s as [|c s]; [done|]. cbn [PyRe.digits1].
  destruct (PyStr.isdigit c) eqn:Hc; [|done]. intros [= <-].
  destruct (skip_digits_suffix s) as (d & Hd & Hall).
  exists (String c d). split; [exact (f_equal (String c) Hd)|].
  split; [done|]. cbn. by rewrite Hc.
Qed.

(** A run of digits followed by a dot is consumed whole. *)
Lemma skip_digits_dot d t :
  PyStr.all PyStr.isdigit d = true →
  PyRe.skip_digits (d +:+ String "." t) = String "." t.
Proof.
  induction d as [|c d IH]; [done|]. intros Hall. cbn in Hall.
  apply andb_true_iff in Hall as [Hc Hall].
  change (String c d +:+ ?u) with (String c (d +:+ u)).
  cbn [PyRe.skip_digits]. rewrite Hc. by apply IH.
Qed.

(** Before a dot, [\d+] stops at the dot. *)
Lemma digits1_dot d t :
  d ≠ "" → PyStr.all PyStr.isdigit d = true →
  PyRe.digits1 (d +:+ String "." t) = Some (String "." t).
Proof.
  destruct d as [|c d]; [done|]. intros _ Hall. cbn in Hall.
  apply andb_true_iff in Hall as [Hc Hall].
  change (String c d +:+ ?u) with (String c (d +:+ u)).
  cbn [PyRe.digits1]. by rewrite Hc, skip_digits_dot.
Qed.

(** [\d+] matches at the head of a non-empty run of digits, whatever
    follows. *)
Lemma digits1_some d t :
  d ≠ "" → PyStr.all PyStr.isdigit d = true →
  is_Some (PyRe.digits1 (d +:+ t)).
Proof.
  destruct d as [|c d]; [done|]. intros _ Hall. cbn in Hall.
  apply andb_true_iff in Hall as [Hc Hall].
  change (String c d +:+ ?u) with (String c (d +:+ u)).
  cbn [PyRe.digits1]. rewrite Hc. by eexists.
Qed.

(** [\.] consumes a dot. *)
Lemma dot_sound s r : PyRe.dot s = Some r → s = String "." r.
Proof.
  destruct s as [|c s]; [done|]. cbn.
  destruct c as [[] [] [] [] [] [] [] []]; try done. by intros [= <-].
Qed.

(** [re.match(r'\d+\.\d+\.\d+\.\d+', s)] matches exactly when [s]
    starts with four non-empty runs of digits separated by dots. *)
Lemma match_dotted_quad_spec s :
  PyRe.match_dotted_quad s = true
  ↔ ∃ d1 d2 d3 d4 rest,
      s = d1 +:+ "." +:+ d2 +:+ "." +:+ d3 +:+ "." +:+ d4 +:+ rest
      ∧ Forall (λ d, d ≠ "" ∧ PyStr.all PyStr.isdigit d = true)
               [d1; d2; d3; d4].
Proof.
  unfold PyRe.match_dotted_quad. split.
  - destruct (PyRe.digits1 s) as [r1|] eqn:H1; [|done].
    apply digits1_sound in H1 as (d1 & -> & Hd1).
    cbn [mbind option_bind].
    destruct (PyRe.dot r1) as [r1'|] eqn:Hdot1; [|done].
    apply dot_sound in Hdot1 as ->. cbn [mbind option_bind].
    destruct (PyRe.digits1 r1') as [r2|] eqn:H2; [|done].
    apply digits1_sound in H2 as (d2 & -> & Hd2).
    cbn [mbind option_bind].
    destruct (PyRe.dot r2) as [r2'|] eqn:Hdot2; [|done].
    apply dot_sound in Hdot2 as ->. cbn [mbind option_bind].
    destruct (PyRe.digits1 r2') as [r3|] eqn:H3; [|done].
    apply digits1_sound in H3 as (d3 & -> & Hd3).
    cbn [mbind option_bind].
    destruct (PyRe.dot r3) as [r3'|] eqn:Hdot3; [|done].
    apply dot_sound in Hdot3 as ->. cbn [mbind option_bind].
    destruct (PyRe.digits1 r3') as [r4|] eqn:H4; [|done].
    apply digits1_sound in H4 as (d4 & -> & Hd4).
    intros _. exists d1, d2, d3, d4, r4. split; [done|].
    repeat (apply Forall_cons_2; [done|]). apply Forall_nil_2.
  - intros (d1 & d2 & d3 & d4 & rest & -> & Hall).
    apply Forall_cons in Hall as [[Hn1 Hd1] Hall].
    apply Forall_cons in Hall as [[Hn2 Hd2] Hall].
    apply Forall_cons in Hall as [[Hn3 Hd3] Hall].
    apply Forall_cons in Hall as [[Hn4 Hd4] _].
    do 3 (change ("." +:+ ?t) with (String "." t);
          rewrite digits1_dot by done; cbn [mbind option_bind PyRe.dot]).
    by destruct (digits1_some d4 rest Hn4 Hd4) as [r ->].
Qed.

End Regex.

Section Substrings.

Implicit Types (s t : string) (c : ascii).

(** [s.startswith(p)], [sub in s] and [c in s] in terms of
    concatenation. *)
Lemma startswith_spec p s :
  PyStr.startswith p s = true ↔ ∃ t, s = p +:+ t.
Proof.
  revert s. induction p as [|a p IH]; intros s.
  - split; [by exists s|done].
  - destruct s as [|b s]; cbn [PyStr.startswith].
    + split; [done|]. by intros [t ?].
    + destruct (Ascii.eqb_spec a b) as [->|Hne].
      * rewrite IH. split.
        -- intros [t ->]. by exists t.
        -- intros [t [= ->]]. by exists t.
      * split; [done|]. intros [t [= ? _]]. by subst.
Qed.

Lemma contains_spec sub s :
  PyStr.contains sub s = true ↔ ∃ pre post, s = pre +:+ sub +:+ post.
Proof.
  induction s as [|c s IH].
  - cbn [PyStr.contains]. rewrite orb_false_r, startswith_spec. split.
    + intros [t Ht]. by exists "", t.
    + intros ([|? ?] & post & Hs); [by exists post|done].
  - cbn [PyStr.contains]. rewrite orb_true_iff, startswith_spec, IH. split.
    + intros [[t ->]|(pre & post & ->)].
      * by exists "", t.
      * by exists (String c pre), post.
    + intros ([|c' pre] & post & Hs).
      * left. by exists post.
      * right. injection Hs as _ ->. by exists pre, post.
Qed.

Lemma has_char_spec c s :
  PyStr.has_char c s = true ↔ ∃ pre post, s = pre +:+ String c post.
Proof.
  induction s as [|a s IH]; cbn [PyStr.has_char].
  - split; [done|]. by intros ([|? ?] & ? & ?).
  - rewrite orb_true_iff, IH. split.
    + intros [Ha|(pre & post & ->)].
      * apply Ascii.eqb_eq in Ha as ->. by exists "", s.
      * by exists (String a pre), post.
    + intros ([|a' pre] & post & Hs).
      * injection Hs as -> _. left. apply Ascii.eqb_refl.
      * injection Hs as _ ->. right. by exists pre, post.
Qed.

End Substrings.

Section PatternFlags.

Context {libs : PyLibs}.
Variable names : list string.

(** [int(b)] is 1 exactly for [True]. *)
Lemma int_of_bool_one b : int_of_bool b = VInt 1 ↔ b = true.
Proof. by destruct b. Qed.

(** X14. For a parsed URL, [RandomString] is 1 exactly when the URL, in
    the case it was typed in, contains eight consecutive characters among
    the digits and the lower-case letters [a] to [f]. The two extractors
    agree on the flag. *)
Theorem random_string_flag url parsed :
  urlparse url = Some parsed →
  (PhishingDetector.extract_features names url !! "RandomString"
   = Some (VInt 1)
   ↔ ∃ pre a post, url = pre +:+ a +:+ post ∧ String.length a = 8%nat
                   ∧ PyStr.all PyRe.hex_lower a = true)
  ∧ URLFeatureExtractor.extract_all_features names url !! "RandomString"
    = PhishingDetector.extract_features names url !! "RandomString".
Proof.
  intros Hp.
  assert (PhishingDetector.extract_features names url !! "RandomString"
          = Some (int_of_bool (PyRe.search_hex8 url))) as Hmain.
  { eapply extract_features_computed.
    - unfold PhishingDetector.computed_features. by rewrite Hp.
    - find_item. }
  assert (URLFeatureExtractor.extract_all_features names url
            !! "RandomString"
          = Some (int_of_bool (PyRe.search_hex8 url))) as Hfixed.
  { eapply extract_all_features_computed.
    - unfold URLFeatureExtractor.computed_features. by rewrite Hp.
    - find_item. }
  rewrite Hfixed, Hmain. split; [|done].
  split.
  - destruct (PyRe.search_hex8 url) eqn:Hs; [|done]. intros _.
    by apply search_hex8_spec.
  - intros Hs. apply search_hex8_spec in Hs. by rewrite Hs.
Qed.

(** X15. For a parsed URL whose host name is ASCII, [IpAddress] is 1
    exactly when the lower-cased host name starts with four non-empty
    runs of the digits 0 to 9 separated by dots. Nothing bounds the runs
    and anything may follow them. The two extractors agree on the flag.
    The host name is taken to be ASCII because [\d] also matches the
    decimal digits of other scripts. *)
Theorem ip_address_flag url parsed :
  urlparse url = Some parsed →
  PyStr.isascii (netloc parsed) = true →
  (PhishingDetector.extract_features names url !! "IpAddress" = Some (VInt 1)
   ↔ ∃ d1 d2 d3 d4 rest,
       PyStr.lower (netloc parsed)
       = d1 +:+ "." +:+ d2 +:+ "." +:+ d3 +:+ "." +:+ d4 +:+ rest
       ∧ Forall (λ d, d ≠ "" ∧ PyStr.all PyStr.isdigit d = true)
                [d1; d2; d3; d4])
  ∧ URLFeatureExtractor.extract_all_features names url !! "IpAddress"
    = PhishingDetector.extract_features names url !! "IpAddress".
Proof.
  intros Hp _.
  assert (PhishingDetector.extract_features names url !! "IpAddress"
          = Some (int_of_bool
                    (PyRe.match_dotted_quad (PyStr.lower (netloc parsed)))))
    as Hmain.
  { eapply extract_features_computed.
    - unfold PhishingDetector.computed_features. by rewrite Hp.
    - find_item. }
  assert (URLFeatureExtractor.extract_all_features names url !! "IpAddress"
          = Some (int_of_bool
                    (PyRe.match_dotted_quad (PyStr.lower (netloc parsed)))))
    as Hfixed.
  { eapply extract_all_features_computed.
    - unfold URLFeatureExtractor.computed_features. by rewrite Hp.
    - find_item. }
  rewrite Hfixed, Hmain. split; [|done].
  split.
  - destruct (PyRe.match_dotted_quad _) eqn:Hs; [|done]. intros _.
    by apply match_dotted_quad_spec.
  - intros Hs. apply match_dotted_quad_spec in Hs. by rewrite Hs.
Qed.

(** X16. For a parsed URL, [HttpsInHostname] is 1 exactly when the
    lower-cased host name contains [https], [DoubleSlashInPath] when the
    path contains two slashes in a row, and [AtSymbol] and [TildeSymbol]
    when the URL contains the character. *)
Theorem substring_flags url parsed :
  urlparse url = Some parsed →
  let fs := PhishingDetector.extract_features names url in
  (fs !! "HttpsInHostname" = Some (VInt 1)
   ↔ ∃ pre post, PyStr.lower (netloc parsed) = pre +:+ "https" +:+ post)
  ∧ (fs !! "DoubleSlashInPath" = Some (VInt 1)
     ↔ ∃ pre post, path parsed = pre +:+ "//" +:+ post)
  ∧ (fs !! "AtSymbol" = Some (VInt 1) ↔ ∃ pre post, url = pre +:+ "@" +:+ post)
  ∧ (fs !! "TildeSymbol" = Some (VInt 1)
     ↔ ∃ pre post, url = pre +:+ "~" +:+ post).
Proof.
  intros Hp fs. subst fs.
  assert (PhishingDetector.computed_features names url
          = PhishingDetector.computed_features names url) as Hkvs by done.
  unfold PhishingDetector.computed_features at 2 in Hkvs.
  rewrite Hp in Hkvs. change (Some parsed ≫= ?f) with (f parsed) in Hkvs.
  cbv beta zeta in Hkvs.
  repeat split.
  all: try (intros Hv; erewrite extract_features_computed in Hv;
            [|exact Hkvs|find_item];
            apply (inj Some), int_of_bool_one in Hv).
  all: try (intros Hv; erewrite extract_features_computed;
            [|exact Hkvs|find_item]; f_equal; apply int_of_bool_one).
  - by apply contains_spec.
  - by apply contains_spec.
  - rewrite contains_slashes_lower in Hv. by apply contains_spec.
  - rewrite contains_slashes_lower. by apply contains_spec.
  - by apply has_char_spec.
  - by apply has_char_spec.
  - by apply has_char_spec.
  - by apply has_char_spec.
Qed.

End PatternFlags.

(** ** What the printers write *)

Section Reports.

Context {libs : PyLibs} {colors : Colorama}.
Variable model : Row → float.
Variable names : list string.

(** The value computed for [SubdomainLevel]. *)
Lemma lookup_SubdomainLevel url parsed :
  urlparse url = Some parsed →
  PhishingDetector.extract_features names url !! "SubdomainLevel"
  = Some (VInt (PyStr.count "." (subdomain (tldextract url)) + 1)).
Proof.
  intros Hp. eapply extract_features_computed.
  - unfold PhishingDetector.computed_features. by rewrite Hp.
  - find_item.
Qed.

(** The outcome of [analyze] on an official host. *)
Lemma analyze_official url parsed :
  urlparse (PhishingDetector.normalize url) = Some parsed →
  PhishingDetector.is_official (PyStr.lower (netloc parsed)) = true →
  PhishingDetector.analyze model names url
  = (Result {| result := Legitimate; confidence := 100; threats := [];
               features := features_of names url |}, []).
Proof.
  intros Hp Hoff. rewrite analyze_unfold. cbv zeta.
  assert (truthy (get0 (features_of names url) "IsOfficialDomain") = true)
    as ->; [|done].
  apply override_iff. by exists parsed.
Qed.

(** X17. What [print_results] writes for the outcome of [analyze] on a
    URL with an official host: the verdict in green with confidence 100%,
    no threat section, and all six feature lines, with
    [NumSensitiveWords] at 0, [BrandSpoofing] "No" and [IsOfficialDomain]
    "Yes". *)
Theorem official_report url parsed :
  urlparse (PhishingDetector.normalize url) = Some parsed →
  PhishingDetector.is_official (PyStr.lower (netloc parsed)) = true →
  Console.print_results (PhishingDetector.analyze model names url).1
  = [nl +:+ Fore_GREEN +:+ "✅ Legitimate (Confidence: 100%)"
     +:+ Style_RESET_ALL;
     nl +:+ Fore_CYAN +:+ "🔍 Features:" +:+ Style_RESET_ALL;
     "- UrlLength: " +:+ Fore_WHITE
     +:+ pretty (PyStr.len (PhishingDetector.normalize url))
     +:+ Style_RESET_ALL;
     "- NoHttps: "
     +:+ (if String.eqb (scheme parsed) "https" then Fore_GREEN else Fore_RED)
     +:+ (if String.eqb (scheme parsed) "https" then "Yes" else "No")
     +:+ Style_RESET_ALL;
     "- SubdomainLevel: " +:+ Fore_WHITE
     +:+ pretty (PyStr.count "."
                   (subdomain (tldextract (PhishingDetector.normalize url)))
                 + 1)
     +:+ Style_RESET_ALL;
     "- NumSensitiveWords: " +:+ Fore_WHITE +:+ "0" +:+ Style_RESET_ALL;
     "- BrandSpoofing: " +:+ Fore_GREEN +:+ "No" +:+ Style_RESET_ALL;
     "- IsOfficialDomain: " +:+ Fore_GREEN +:+ "Yes" +:+ Style_RESET_ALL].
Proof.
  intros Hp Hoff. rewrite (analyze_official _ _ Hp Hoff).
  unfold Console.print_results.
  cbn [fst threats features result confidence shown_features flat_map].
  rewrite (lookup_UrlLength _ _ _ Hp), (lookup_NoHttps _ _ _ Hp),
    (lookup_SubdomainLevel _ _ Hp), (lookup_NumSensitiveWords _ _ _ Hp),
    (lookup_BrandSpoofing _ _ _ Hp), (lookup_IsOfficialDomain _ _ _ Hp), Hoff.
  assert ((if PyStr.in_list "BrandSpoofing" names
           then PhishingDetector.check_brand_usage (PyStr.lower (netloc parsed))
           else VInt 0) = VInt 0) as ->.
  { unfold PhishingDetector.check_brand_usage. rewrite Hoff.
    by destruct (PyStr.in_list _ _). }
  by destruct (String.eqb (scheme parsed) "https").
Qed.

(** X18. What [print_result] writes for the outcome of
    [predict_phishing] on a URL that the parser rejects, with a classifier
    that returns probabilities: the verdict of the all-zero row, no threat
    section, and six feature lines at their defaults, among them
    "Uses HTTPS: Yes". *)
Theorem rejected_url_report url :
  (∀ row, probability (model row)) →
  urlparse url = None →
  let p := model (map (λ name, (name, VInt 0)) names) in
  Console.print_result
    (URLFeatureExtractor.predict_phishing model names url).1
  = [nl
     +:+ (if (0.7 <? p)%float then Fore_RED else Fore_GREEN)
     +:+ (if (0.7 <? p)%float then "⚠ PHISHING" else "✅ Legitimate")
     +:+ " (Confidence: "
     +:+ confidence_text (Z.min 99 (floor_of_float (p * 100))) +:+ ")"
     +:+ Style_RESET_ALL;
     nl +:+ Fore_CYAN +:+ "🔍 Key Features:" +:+ Style_RESET_ALL;
     "- URL Length: " +:+ Fore_WHITE +:+ "0" +:+ Style_RESET_ALL;
     "- Uses HTTPS: " +:+ Fore_GREEN +:+ "Yes" +:+ Style_RESET_ALL;
     "- Subdomains: " +:+ Fore_WHITE +:+ "0" +:+ Style_RESET_ALL;
     "- Sensitive Words: " +:+ Fore_WHITE +:+ "0" +:+ Style_RESET_ALL;
     "- Brand Spoofing: " +:+ Fore_WHITE +:+ "No" +:+ Style_RESET_ALL;
     "- Official Domain: " +:+ Fore_WHITE +:+ "No" +:+ Style_RESET_ALL].
Proof.
  intros Hmodel Hp p. subst p. rewrite predict_phishing_unfold. cbv zeta.
  assert (URLFeatureExtractor.extract_all_features names url = zeros names)
    as ->.
  { unfold URLFeatureExtractor.extract_all_features,
      URLFeatureExtractor.computed_features. by rewrite Hp. }
  rewrite get0_zeros. cbn [truthy Z.eqb negb].
  assert (schema_row names (zeros names)
          = map (λ name, (name, VInt 0)) names) as ->.
  { unfold schema_row. apply map_ext. intros name. by rewrite get0_zeros. }
  set (p := model _).
  edestruct int_of_probability_times_100 as (n & -> & -> & _);
    [apply Hmodel|].
  unfold Console.print_result, threat_list.
  cbn [fst URLFeatureExtractor.threat_indicators URLFeatureExtractor.features
       URLFeatureExtractor.result URLFeatureExtractor.confidence
       Console.feature_map map].
  rewrite !get0_zeros. cbn [truthy gt_two Z.eqb Z.ltb Z.compare negb app].
  by destruct (0.7 <? p)%float.
Qed.

End Reports.

Section ReportShape.

Context {libs : PyLibs} {colors : Colorama}.
Variable model : Row → float.
Variable names : list string.

(** A result of [analyze] carries the features extracted from the
    normalised URL. *)
Lemma analyze_features url r calls :
  PhishingDetector.analyze model names url = (Result r, calls) →
  features r = features_of names url.
Proof.
  rewrite analyze_unfold. cbv zeta.
  destruct (truthy _); [by intros [= <- _]|].
  destruct (_ !! "NoHttps"); [|done].
  destruct (int_of_float _ _) as [[?|?] ?]; [done|]. by intros [= <- _].
Qed.

(** After a successful parse every computed name is a key. *)
Lemma computed_name_is_key url parsed name :
  urlparse url = Some parsed → name ∈ computed_names →
  is_Some (PhishingDetector.extract_features names url !! name).
Proof.
  intros Hp Hname. unfold PhishingDetector.extract_features.
  destruct (PhishingDetector.computed_features names url) as [kvs|] eqn:Hkvs.
  - apply update_is_Some_iff. right.
    by rewrite (computed_features_names _ _ _ Hkvs).
  - unfold PhishingDetector.computed_features in Hkvs. by rewrite Hp in Hkvs.
Qed.

(** The six features shown are computed ones. *)
Lemma shown_features_computed name :
  name ∈ shown_features → name ∈ computed_names.
Proof.
  intros Hname. apply in_list_spec in Hname. apply in_list_spec.
  unfold PyStr.in_list in Hname.
  repeat (apply orb_prop in Hname as [Hname|Hname];
          [apply String.eqb_eq in Hname as ->; vm_compute; reflexivity|]).
  done.
Qed.

(** [print_results] writes one line for a feature that is a key, and
    none otherwise. *)
Lemma results_lines_present (fs : gmap string value) l :
  (∀ name, name ∈ l → is_Some (fs !! name)) →
  length
    (flat_map
       (λ name,
          match fs !! name with
          | None => []
          | Some value =>
              let '(color, text) := Console.results_style name value in
              ["- " +:+ name +:+ ": " +:+ color +:+ text
               +:+ Style_RESET_ALL]
          end) l)
  = length l.
Proof.
  induction l as [|name l IH]; intros Hall; [done|].
  cbn [flat_map]. rewrite length_app, IH.
  - destruct (Hall name) as [v ->]; [left|].
    by destruct (Console.results_style name v).
  - intros n Hn. apply Hall. by right.
Qed.

(** On the defaults, it writes a line for the names of the schema. *)
Lemma results_lines_defaults l :
  length
    (flat_map
       (λ name,
          match zeros names !! name with
          | None => []
          | Some value =>
              let '(color, text) := Console.results_style name value in
              ["- " +:+ name +:+ ": " +:+ color +:+ text
               +:+ Style_RESET_ALL]
          end) l)
  = length (filter (λ name, name ∈ names) l).
Proof.
  induction l as [|name l IH]; [done|].
  cbn [flat_map]. rewrite length_app, IH, filter_cons, lookup_zeros.
  destruct (decide (name ∈ names)); [|done].
  by destruct (Console.results_style name (VInt 0)).
Qed.

(** The threat section of either printer. *)
Lemma threat_lines_count (heading : string) (line : string → string)
    (threats : list string) :
  length
    match threats with
    | [] => []
    | _ :: _ => heading :: map line threats
    end
  = threat_section threats.
Proof. destruct threats; [done|]. cbn. by rewrite length_map. Qed.

(** X21. The shape of the reports. For a result of [analyze],
    [print_results] writes the verdict, in red exactly for a Phishing
    verdict, a heading and one line per threat when there is a threat,
    the heading of the features, and one line for each of the six shown
    features that is a key: all six after a successful parse, and those
    that the schema declares otherwise. For a dictionary returned by
    [predict_phishing], [print_result] writes the same sections with the
    indicators read from ["threat_indicators"], and always the six
    feature lines. *)
Theorem report_shape url r calls :
  PhishingDetector.analyze model names url = (Result r, calls) →
  length (Console.print_results (Result r))
  = (2 + threat_section (threats r)
     + match urlparse (PhishingDetector.normalize url) with
       | Some _ => 6
       | None => length (filter (λ name, name ∈ names) shown_features)
       end)%nat
  ∧ (∀ p : URLFeatureExtractor.Prediction,
       length (Console.print_result (Result p))
       = (8 + threat_section (URLFeatureExtractor.threat_indicators p))%nat)
  ∧ ∃ rest,
      Console.print_results (Result r)
      = (nl +:+ (match result r with
                 | Phishing => Fore_RED
                 | Legitimate => Fore_GREEN
                 end)
         +:+ result_text (result r) +:+ " (Confidence: "
         +:+ confidence_text (confidence r) +:+ ")" +:+ Style_RESET_ALL)
        :: rest.
Proof.
  intros Hrun. apply analyze_features in Hrun.
  unfold Console.print_results, Console.print_result. rewrite Hrun.
  split; [|split].
  - rewrite !length_app, threat_lines_count. cbn [length].
    destruct (urlparse (PhishingDetector.normalize url)) as [parsed|] eqn:Hp.
    + rewrite results_lines_present; [cbn [shown_features length]; lia|].
      intros name Hname. apply computed_name_is_key with parsed; [done|].
      by apply shown_features_computed.
    + rewrite (extract_features_failed _ _ Hp), results_lines_defaults. lia.
  - intros p. cbv zeta.
    rewrite !length_app, threat_lines_count, length_map.
    cbn [length Console.feature_map]. lia.
  - eexists. cbn [app]. by destruct (result r).
Qed.

End ReportShape.

(** ** Runs on the reference models, continued *)

Section ReferenceRuns.

#[local] Existing Instance Ref.libs.
#[local] Existing Instance Ref.colorama.

(** The reference parser rejects an unmatched bracket in the host. *)
Lemma open_bracket_rejected : Ref.urlparse "http://[" = None.
Proof. vm_compute. reflexivity. Qed.

(** The same for the input made of an open bracket, once normalised. *)
Lemma bracket_input_rejected :
  Ref.urlparse (PhishingDetector.normalize "[") = None.
Proof. vm_compute. reflexivity. Qed.

(** Witness of X2: an open bracket under a schema without [NoHttps]. *)
Lemma analyze_error_iff_witness :
  (∀ row, probability (Ref.model row))
  ∧ PhishingDetector.analyze Ref.model Ref.schema_without_https "["
    = (Error (KeyError "NoHttps"),
       [[("NumDots", VInt 0); ("UrlLength", VInt 0)]]).
Proof.
  split; [exact ref_model_probability|].
  apply (analyze_error_iff Ref.model Ref.schema_without_https
           ref_model_probability).
  split; [reflexivity|]. split; [exact bracket_input_rejected|].
  split; [|reflexivity].
  intros Hin. apply in_list_spec in Hin. vm_compute in Hin. discriminate Hin.
Defined.

(** The reference schema declares [NoHttps]. *)
Lemma no_https_declared : "NoHttps" ∈ Ref.feature_names.
Proof. apply in_list_spec. vm_compute. reflexivity. Qed.

(** Witness of X3: the same input under a schema that declares
    [NoHttps]. *)
Lemma analyze_returns_result_witness :
  (∀ row, probability (Ref.model row))
  ∧ "NoHttps" ∈ Ref.feature_names
  ∧ ∃ r calls,
      PhishingDetector.analyze Ref.model Ref.feature_names "["
      = (Result r, calls)
      ∧ features r = features_of Ref.feature_names "["
      ∧ (length calls ≤ 1)%nat
      ∧ 0 ≤ confidence r ≤ 100.
Proof.
  split; [exact ref_model_probability|]. split; [exact no_https_declared|].
  exact (analyze_returns_result Ref.model Ref.feature_names
           ref_model_probability "[" no_https_declared).
Defined.

(** The run of [analyze] on an open bracket. *)
Lemma open_bracket_scored :
  PhishingDetector.analyze Ref.model Ref.feature_names "["
  = (Result {| result := Legitimate; confidence := 70; threats := [];
               features := zeros Ref.feature_names |},
     [map (λ name, (name, VInt 0)) Ref.feature_names]).
Proof. vm_compute. reflexivity. Qed.

(** Witness of X4. *)
Lemma rejected_url_scored_on_zeros_witness :
  Ref.urlparse (PhishingDetector.normalize "[") = None
  ∧ ∃ r calls,
      PhishingDetector.analyze Ref.model Ref.feature_names "["
      = (Result r, calls)
      ∧ features r = zeros Ref.feature_names
      ∧ threats r = []
      ∧ calls = [map (λ name, (name, VInt 0)) Ref.feature_names].
Proof.
  split; [exact bracket_input_rejected|].
  do 2 eexists. split; [exact open_bracket_scored|].
  destruct (rejected_url_scored_on_zeros (libs := Ref.libs) Ref.model
              Ref.feature_names "[" _ _ bracket_input_rejected
              open_bracket_scored)
    as (Hfs & Hthreats & Hcalls & _).
  split; [exact Hfs|]. split; [exact Hthreats|exact Hcalls].
Defined.

(** A host that carries a brand in a subdomain and three sensitive
    words. *)
Lemma spoofed_paypal_parsed :
  Ref.urlparse "http://paypal.secure-login-verify.example.com"
  = Some {| scheme := "http";
            netloc := "paypal.secure-login-verify.example.com";
            path := ""; params := ""; query := ""; fragment := "" |}.
Proof. vm_compute. reflexivity. Qed.

(** Witness of X5: the three indicators, in order. *)
Lemma threats_of_parsed_url_witness :
  Ref.urlparse
    (PhishingDetector.normalize "paypal.secure-login-verify.example.com")
  = Some {| scheme := "http";
            netloc := "paypal.secure-login-verify.example.com";
            path := ""; params := ""; query := ""; fragment := "" |}
  ∧ ∃ r calls,
      PhishingDetector.analyze Ref.model Ref.feature_names
        "paypal.secure-login-verify.example.com" = (Result r, calls)
      ∧ threats r
        = ["No HTTPS"; "3 sensitive words"; "Brand spoofing detected"].
Proof.
  split; [exact spoofed_paypal_parsed|].
  assert (∃ r calls,
            PhishingDetector.analyze Ref.model Ref.feature_names
              "paypal.secure-login-verify.example.com" = (Result r, calls))
    as (r & calls & Hrun).
  { do 2 eexists. vm_compute. reflexivity. }
  exists r, calls. split; [exact Hrun|].
  rewrite (threats_of_parsed_url (libs := Ref.libs) Ref.model
             Ref.feature_names "paypal.secure-login-verify.example.com"
             _ _ _ spoofed_paypal_parsed Hrun).
  vm_compute. reflexivity.
Defined.

(** Witness of X11. *)
Lemma fixed_threats_of_parsed_url_witness :
  Ref.urlparse "http://paypal.secure-login-verify.example.com"
  = Some {| scheme := "http";
            netloc := "paypal.secure-login-verify.example.com";
            path := ""; params := ""; query := ""; fragment := "" |}
  ∧ ∃ r calls,
      URLFeatureExtractor.predict_phishing Ref.model Ref.feature_names
        "http://paypal.secure-login-verify.example.com" = (Result r, calls)
      ∧ URLFeatureExtractor.threat_indicators r
        = ["No HTTPS"; "3 sensitive words"; "Brand spoofing detected"].
Proof.
  split; [exact spoofed_paypal_parsed|].
  assert (∃ r calls,
            URLFeatureExtractor.predict_phishing Ref.model Ref.feature_names
              "http://paypal.secure-login-verify.example.com"
            = (Result r, calls))
    as (r & calls & Hrun).
  { do 2 eexists. vm_compute. reflexivity. }
  exists r, calls. split; [exact Hrun|].
  rewrite (fixed_threats_of_parsed_url (libs := Ref.libs) Ref.model
             Ref.feature_names _ _ _ _ spoofed_paypal_parsed Hrun).
  vm_compute. reflexivity.
Defined.

(** The run of [predict_phishing] on a listed host. *)
Lemma paypal_fixed_run :
  URLFeatureExtractor.predict_phishing Ref.model Ref.feature_names
    "https://www.paypal.com/"
  = (Result {| URLFeatureExtractor.result := Legitimate;
               URLFeatureExtractor.confidence := 100;
               URLFeatureExtractor.threat_indicators := [];
               URLFeatureExtractor.features :=
                 URLFeatureExtractor.extract_all_features
                   Ref.feature_names "https://www.paypal.com/" |},
     []).
Proof. vm_compute. reflexivity. Qed.

(** Witness of X10. *)
Lemma fixed_override_implies_override_witness :
  PhishingDetector.normalize "https://www.paypal.com/"
  = "https://www.paypal.com/"
  ∧ PhishingDetector.analyze Ref.model Ref.feature_names
      "https://www.paypal.com/"
    = (Result {| result := Legitimate; confidence := 100; threats := [];
                 features := PhishingDetector.extract_features
                               Ref.feature_names "https://www.paypal.com/" |},
       []).
Proof.
  split; [reflexivity|].
  exact (fixed_override_implies_override Ref.model Ref.feature_names
           "https://www.paypal.com/" _ eq_refl paypal_fixed_run).
Defined.

(** Witness of X12: a rejected URL under a schema without [NoHttps]. *)
Lemma predict_phishing_returns_result_witness :
  (∀ row, probability (Ref.model row))
  ∧ ∃ r calls,
      URLFeatureExtractor.predict_phishing Ref.model
        Ref.schema_without_https "http://[" = (Result r, calls)
      ∧ URLFeatureExtractor.features r
        = URLFeatureExtractor.extract_all_features Ref.schema_without_https
            "http://["
      ∧ (length calls ≤ 1)%nat
      ∧ 0 ≤ URLFeatureExtractor.confidence r ≤ 100.
Proof.
  split; [exact ref_model_probability|].
  exact (predict_phishing_returns_result Ref.model Ref.schema_without_https
           ref_model_probability "http://[").
Defined.

(** The runs of the two pipelines on a host on which the extractors
    agree. *)
Lemma three_words_run :
  ∃ p r row,
    URLFeatureExtractor.predict_phishing Ref.model Ref.feature_names
      "http://secure-login-verify.example.com" = (Result p, [row])
    ∧ PhishingDetector.analyze Ref.model Ref.feature_names
        "http://secure-login-verify.example.com" = (Result r, [row])
    ∧ URLFeatureExtractor.threat_indicators p
      = ["No HTTPS"; "3 sensitive words"]
    ∧ threats r = ["No HTTPS"; "3 sensitive words"].
Proof. do 3 eexists. repeat split; vm_compute; reflexivity. Qed.

(** Witness of X13: a host on which the two extractors agree. *)
Lemma pipelines_agree_on_equal_features_witness :
  PhishingDetector.normalize "http://secure-login-verify.example.com"
  = "http://secure-login-verify.example.com"
  ∧ URLFeatureExtractor.extract_all_features Ref.feature_names
      "http://secure-login-verify.example.com"
    = PhishingDetector.extract_features Ref.feature_names
        "http://secure-login-verify.example.com"
  ∧ ∃ p r row,
      URLFeatureExtractor.predict_phishing Ref.model Ref.feature_names
        "http://secure-login-verify.example.com" = (Result p, [row])
      ∧ PhishingDetector.analyze Ref.model Ref.feature_names
          "http://secure-login-verify.example.com" = (Result r, [row])
      ∧ URLFeatureExtractor.result p = result r
      ∧ URLFeatureExtractor.confidence p = confidence r
      ∧ URLFeatureExtractor.threat_indicators p = threats r
      ∧ URLFeatureExtractor.features p = features r.
Proof.
  assert (URLFeatureExtractor.extract_all_features Ref.feature_names
            "http://secure-login-verify.example.com"
          = PhishingDetector.extract_features Ref.feature_names
              "http://secure-login-verify.example.com") as Hfs.
  { vm_compute. reflexivity. }
  split; [reflexivity|]. split; [exact Hfs|].
  destruct three_words_run as (p & r & row & Hp & Hr & _).
  exists p, r, row. split; [exact Hp|]. split; [exact Hr|].
  pose proof (pipelines_agree_on_equal_features (libs := Ref.libs)
                Ref.model Ref.feature_names
                "http://secure-login-verify.example.com" eq_refl Hfs
                (or_intror no_https_declared)) as [_ Hsame].
  rewrite Hp, Hr in Hsame. exact Hsame.
Defined.

(** Witness of X14: the run [a1b2c3d4] in the path. *)
Lemma random_string_flag_witness :
  Ref.urlparse "http://example.com/a1b2c3d4e5"
  = Some {| scheme := "http"; netloc := "example.com"; path := "/a1b2c3d4e5";
            params := ""; query := ""; fragment := "" |}
  ∧ PhishingDetector.extract_features Ref.feature_names
      "http://example.com/a1b2c3d4e5" !! "RandomString" = Some (VInt 1).
Proof.
  assert (Ref.urlparse "http://example.com/a1b2c3d4e5"
          = Some {| scheme := "http"; netloc := "example.com";
                    path := "/a1b2c3d4e5"; params := ""; query := "";
                    fragment := "" |}) as Hp.
  { vm_compute. reflexivity. }
  split; [exact Hp|].
  apply (proj1 (random_string_flag (libs := Ref.libs) Ref.feature_names
                  _ _ Hp)).
  exists "http://example.com/", "a1b2c3d4", "e5". repeat split.
Defined.

(** Witness of X15: a dotted quad followed by a domain name. *)
Lemma ip_address_flag_witness :
  Ref.urlparse "http://192.168.0.1.example.com/"
  = Some {| scheme := "http"; netloc := "192.168.0.1.example.com";
            path := "/"; params := ""; query := ""; fragment := "" |}
  ∧ PyStr.isascii "192.168.0.1.example.com" = true
  ∧ PhishingDetector.extract_features Ref.feature_names
      "http://192.168.0.1.example.com/" !! "IpAddress" = Some (VInt 1).
Proof.
  assert (Ref.urlparse "http://192.168.0.1.example.com/"
          = Some {| scheme := "http"; netloc := "192.168.0.1.example.com";
                    path := "/"; params := ""; query := "";
                    fragment := "" |}) as Hp.
  { vm_compute. reflexivity. }
  split; [exact Hp|]. split; [reflexivity|].
  apply (proj1 (ip_address_flag (libs := Ref.libs) Ref.feature_names
                  _ _ Hp eq_refl)).
  exists "192", "168", "0", "1", ".example.com". split; [reflexivity|].
  repeat (apply Forall_cons_2; [split; [discriminate|reflexivity]|]).
  apply Forall_nil_2.
Defined.

(** Witness of X16. *)
Lemma substring_flags_witness :
  Ref.urlparse "http://https.example.com/a//b@c"
  = Some {| scheme := "http"; netloc := "https.example.com";
            path := "/a//b@c"; params := ""; query := ""; fragment := "" |}
  ∧ PhishingDetector.extract_features Ref.feature_names
      "http://https.example.com/a//b@c" !! "HttpsInHostname" = Some (VInt 1)
  ∧ PhishingDetector.extract_features Ref.feature_names
      "http://https.example.com/a//b@c" !! "DoubleSlashInPath"
    = Some (VInt 1)
  ∧ PhishingDetector.extract_features Ref.feature_names
      "http://https.example.com/a//b@c" !! "AtSymbol" = Some (VInt 1).
Proof.
  assert (Ref.urlparse "http://https.example.com/a//b@c"
          = Some {| scheme := "http"; netloc := "https.example.com";
                    path := "/a//b@c"; params := ""; query := "";
                    fragment := "" |}) as Hp.
  { vm_compute. reflexivity. }
  split; [exact Hp|].
  destruct (substring_flags (libs := Ref.libs) Ref.feature_names _ _ Hp)
    as (Hhost & Hpath & Hat & _).
  split; [|split].
  - apply Hhost. by exists "", ".example.com".
  - apply Hpath. by exists "/a", "b@c".
  - apply Hat. by exists "http://https.example.com/a//b", "c".
Defined.

(** The reference parser on the official URL used below. *)
Lemma paypal_parsed :
  Ref.urlparse (PhishingDetector.normalize "https://www.paypal.com/")
  = Some {| scheme := "https"; netloc := "www.paypal.com"; path := "/";
            params := ""; query := ""; fragment := "" |}.
Proof. vm_compute. reflexivity. Qed.

(** Witness of X17: the eight lines written for
    [https://www.paypal.com/]. *)
Lemma official_report_witness :
  Ref.urlparse (PhishingDetector.normalize "https://www.paypal.com/")
  = Some {| scheme := "https"; netloc := "www.paypal.com"; path := "/";
            params := ""; query := ""; fragment := "" |}
  ∧ PhishingDetector.is_official "www.paypal.com" = true
  ∧ Console.print_results
      (PhishingDetector.analyze Ref.model Ref.feature_names
         "https://www.paypal.com/").1
    = [nl +:+ Ref.csi "32" +:+ "✅ Legitimate (Confidence: 100%)"
       +:+ Ref.csi "0";
       nl +:+ Ref.csi "36" +:+ "🔍 Features:" +:+ Ref.csi "0";
       "- UrlLength: " +:+ Ref.csi "37" +:+ "23" +:+ Ref.csi "0";
       "- NoHttps: " +:+ Ref.csi "32" +:+ "Yes" +:+ Ref.csi "0";
       "- SubdomainLevel: " +:+ Ref.csi "37" +:+ "1" +:+ Ref.csi "0";
       "- NumSensitiveWords: " +:+ Ref.csi "37" +:+ "0" +:+ Ref.csi "0";
       "- BrandSpoofing: " +:+ Ref.csi "32" +:+ "No" +:+ Ref.csi "0";
       "- IsOfficialDomain: " +:+ Ref.csi "32" +:+ "Yes" +:+ Ref.csi "0"].
Proof.
  assert (PhishingDetector.is_official "www.paypal.com" = true) as Hoff.
  { vm_compute. reflexivity. }
  split; [exact paypal_parsed|]. split; [exact Hoff|].
  rewrite (official_report (libs := Ref.libs) (colors := Ref.colorama) Ref.model
             Ref.feature_names "https://www.paypal.com/" _ paypal_parsed
             Hoff).
  vm_compute. reflexivity.
Defined.

(** Witness of X18: the eight lines written for a rejected URL. *)
Lemma rejected_url_report_witness :
  (∀ row, probability (Ref.model row))
  ∧ Ref.urlparse "http://[" = None
  ∧ Console.print_result
      (URLFeatureExtractor.predict_phishing Ref.model Ref.feature_names
         "http://[").1
    = [nl +:+ Ref.csi "32" +:+ "✅ Legitimate (Confidence: 70%)"
       +:+ Ref.csi "0";
       nl +:+ Ref.csi "36" +:+ "🔍 Key Features:" +:+ Ref.csi "0";
       "- URL Length: " +:+ Ref.csi "37" +:+ "0" +:+ Ref.csi "0";
       "- Uses HTTPS: " +:+ Ref.csi "32" +:+ "Yes" +:+ Ref.csi "0";
       "- Subdomains: " +:+ Ref.csi "37" +:+ "0" +:+ Ref.csi "0";
       "- Sensitive Words: " +:+ Ref.csi "37" +:+ "0" +:+ Ref.csi "0";
       "- Brand Spoofing: " +:+ Ref.csi "37" +:+ "No" +:+ Ref.csi "0";
       "- Official Domain: " +:+ Ref.csi "37" +:+ "No" +:+ Ref.csi "0"].
Proof.
  split; [exact ref_model_probability|].
  split; [exact open_bracket_rejected|].
  rewrite (rejected_url_report (libs := Ref.libs) (colors := Ref.colorama)
             Ref.model Ref.feature_names "http://[" ref_model_probability
             open_bracket_rejected).
  vm_compute. reflexivity.
Defined.

(** Witness of X19: a brand in a subdomain of a host that is not
    official. *)
Lemma fixed_brand_flag_implies_flag_witness :
  PhishingDetector.is_official "paypal.evil-host.com" = false
  ∧ URLFeatureExtractor.check_brand_spoofing "paypal.evil-host.com" = VInt 1
  ∧ PhishingDetector.check_brand_usage "paypal.evil-host.com" = VInt 1.
Proof.
  assert (PhishingDetector.is_official "paypal.evil-host.com" = false)
    as Hoff.
  { vm_compute. reflexivity. }
  assert (URLFeatureExtractor.check_brand_spoofing "paypal.evil-host.com"
          = VInt 1) as Hflag.
  { vm_compute. reflexivity. }
  split; [exact Hoff|]. split; [exact Hflag|].
  exact (fixed_brand_flag_implies_flag (libs := Ref.libs)
           "paypal.evil-host.com" Hoff Hflag).
Defined.

(** The reference parser on a host typed without its scheme. *)
Lemma evil_host_parsed :
  Ref.urlparse (PhishingDetector.normalize "paypal.evil-host.com")
  = Some {| scheme := "http"; netloc := "paypal.evil-host.com";
            path := ""; params := ""; query := ""; fragment := "" |}.
Proof. vm_compute. reflexivity. Qed.

(** Witness of X20: twenty characters typed, twenty-seven counted. *)
Lemma schemeless_input_counts_witness :
  PyStr.startswith "http://" "paypal.evil-host.com" = false
  ∧ PyStr.startswith "https://" "paypal.evil-host.com" = false
  ∧ Ref.urlparse (PhishingDetector.normalize "paypal.evil-host.com")
    = Some {| scheme := "http"; netloc := "paypal.evil-host.com";
              path := ""; params := ""; query := ""; fragment := "" |}
  ∧ features_of Ref.feature_names "paypal.evil-host.com" !! "UrlLength"
    = Some (VInt 27)
  ∧ features_of Ref.feature_names "paypal.evil-host.com" !! "NumDots"
    = Some (VInt 2).
Proof.
  split; [reflexivity|]. split; [reflexivity|].
  split; [exact evil_host_parsed|].
  destruct (schemeless_input_counts (libs := Ref.libs) Ref.feature_names
              "paypal.evil-host.com" _ eq_refl eq_refl evil_host_parsed)
    as (Hlen & Hdots & _).
  split; [exact Hlen|exact Hdots].
Defined.

(** Witness of X21: three threats, so twelve lines from [print_results]
    for the result of [analyze], and twelve from [print_result] for the
    dictionary of [predict_phishing]. *)
Lemma report_shape_witness :
  ∃ r calls p calls',
    PhishingDetector.analyze Ref.model Ref.feature_names
      "paypal.secure-login-verify.example.com" = (Result r, calls)
    ∧ URLFeatureExtractor.predict_phishing Ref.model Ref.feature_names
        "http://paypal.secure-login-verify.example.com" = (Result p, calls')
    ∧ length (Console.print_results (Result r)) = 12%nat
    ∧ length (Console.print_result (Result p)) = 12%nat.
Proof.
  assert (∃ r calls,
            PhishingDetector.analyze Ref.model Ref.feature_names
              "paypal.secure-login-verify.example.com" = (Result r, calls)
            ∧ length (threats r) = 3%nat
            ∧ is_Some (Ref.urlparse
                         (PhishingDetector.normalize
                            "paypal.secure-login-verify.example.com")))
    as (r & calls & Hrun & Hthreats & Hparsed).
  { do 2 eexists. split; [vm_compute; reflexivity|].
    split; [reflexivity|]. vm_compute. by eexists. }
  assert (∃ p calls',
            URLFeatureExtractor.predict_phishing Ref.model Ref.feature_names
              "http://paypal.secure-login-verify.example.com"
            = (Result p, calls')
            ∧ length (URLFeatureExtractor.threat_indicators p) = 3%nat)
    as (p & calls' & Hrun' & Hindicators).
  { do 2 eexists. split; [vm_compute; reflexivity|]. reflexivity. }
  exists r, calls, p, calls'. split; [exact Hrun|]. split; [exact Hrun'|].
  destruct (report_shape (libs := Ref.libs) (colors := Ref.colorama)
              Ref.model Ref.feature_names _ _ _ Hrun)
    as (Hlines & Hlines' & _).
  rewrite Hlines, (Hlines' p). unfold threat_section.
  destruct Hparsed as [parsed Hparsed].
  change (@urlparse Ref.libs) with Ref.urlparse. rewrite Hparsed.
  destruct (threats r) as [|t ts]; [discriminate Hthreats|].
  destruct (URLFeatureExtractor.threat_indicators p) as [|ind inds];
    [discriminate Hindicators|].
  rewrite Hthreats, Hindicators. split; reflexivity.
Defined.

End ReferenceRuns.
